(** * cemint_insights: the tabular ETL pipeline, embedded and verified

    A shallow embedding of [src/data_pipeline/transformers.py],
    [src/data_pipeline/pipelines.py] and [src/data_pipeline/loaders.py].

    The Python code manipulates pandas DataFrames and hands numeric blocks to
    scikit-learn scalers.  The embedding keeps the structure of the Python
    functions (same guards, same order of checks, same column assignments) and
    models the library primitives they call:

    - a DataFrame is an ordered list of named, typed columns plus a row count;
    - numbers are IEEE-754 binary64 values (Rocq's primitive floats), reached
      through the interface [Number], so that the same definitions can also be
      read in exact real arithmetic when a statement is about accuracy
      "up to floating-point tolerance";
    - exceptions are values of type [Error] carried by [result]. *)

From Stdlib Require Import ZArith List String Ascii Bool Lia Arith.
From Stdlib Require Import Floats Reals Lra.
Import ListNotations.

Open Scope string_scope.
Open Scope Z_scope.
Open Scope nat_scope.

(** ** Exceptions *)

(** The exceptions the pipeline can raise.  Python raises [KeyError],
    [ValueError] and [TypeError]; the [ValueError]s are told apart by their
    message, which is what the constructors record. *)
Inductive Error : Type :=
| MissingColumn (col : string)
    (* KeyError: "<col> column not found in DataFrame" *)
| NoNumericColumns
    (* ValueError: "No numeric columns found for normalization" *)
| UnsupportedMethod
    (* ValueError: "Unsupported ... method: choose ..." *)
| EstimatorNoSamples
    (* ValueError raised by the scaler's input check: 0 samples *)
| EstimatorNonFinite
    (* ValueError raised by the scaler's input check: infinite input *)
| SchemaNotFound (stage : string)
    (* ValueError: "Schema for stage '<stage>' not found." *)
| MissingColumns (stage : string) (cols : list string)
    (* ValueError: "Missing columns in DataFrame for stage ..." *)
| EmptyColumns (stage : string) (cols : list string)
    (* ValueError: "Empty columns in DataFrame for stage ..." *)
| TimestampParseError (stage : string)
    (* ValueError: "Timestamp parse error in stage ..." *)
| SchemaKeyError (key : string)
    (* KeyError: a schema document without the key *)
| TypeError
    (* an operand of the wrong dtype, or a call with an unknown keyword *)
| AttributeError
    (* the .dt accessor on a column that holds no datetimes *)
| PercentileError.
    (* whatever numpy.percentile raises on its input *)

Inductive result (A : Type) : Type :=
| Ok (a : A)
| Err (e : Error).

Arguments Ok {A} a.
Arguments Err {A} e.

Definition bind {A B : Type} (r : result A) (k : A -> result B) : result B :=
  match r with
  | Ok a => k a
  | Err e => Err e
  end.

Notation "'do' x <- r ; k" := (bind r (fun x => k))
  (at level 10, x pattern, r at level 100, k at level 200).

Definition is_ok {A : Type} (r : result A) : bool :=
  match r with Ok _ => true | Err _ => false end.

(** ** Numbers *)

(** The arithmetic the transforms use.  [Number float] below is float64, the
    type every numeric computation of the Python code runs in. *)
Class Number (F : Type) : Type := {
  fnan : F;
  fzero : F;
  fone : F;
  feps : F;                  (* np.finfo(float64).eps *)
  fadd : F -> F -> F;
  fsub : F -> F -> F;
  fmul : F -> F -> F;
  fdiv : F -> F -> F;
  fsqrt : F -> F;
  fabs : F -> F;
  fltb : F -> F -> bool;
  fleb : F -> F -> bool;
  fisnan : F -> bool;        (* pandas isnull on a float *)
  fisfinite : F -> bool;     (* np.isfinite *)
  of_int : Z -> F            (* int64 -> float64 *)
}.

(** int64 to float64: round to nearest even, as the hardware does. *)
Definition Z2float (z : Z) : float :=
  SF2Prim (binary_normalize prec emax z 0 false).

#[export] Instance float64 : Number float := {|
  fnan := PrimFloat.nan;
  fzero := PrimFloat.zero;
  fone := PrimFloat.one;
  feps := 0x1p-52%float;
  fadd := PrimFloat.add;
  fsub := PrimFloat.sub;
  fmul := PrimFloat.mul;
  fdiv := PrimFloat.div;
  fsqrt := PrimFloat.sqrt;
  fabs := PrimFloat.abs;
  fltb := PrimFloat.ltb;
  fleb := PrimFloat.leb;
  fisnan := PrimFloat.is_nan;
  fisfinite := fun x => negb (PrimFloat.is_nan x || PrimFloat.is_infinity x);
  of_int := Z2float
|}.

(** ** Datetimes *)

(** pandas keeps a datetime64[ns] value as an int64 count of nanoseconds since
    the epoch and derives calendar fields from it arithmetically.  The fields
    below follow the proleptic Gregorian calendar (days-to-civil conversion by
    400-year eras); [Z.div] and [Z.modulo] round towards minus infinity, so
    instants before 1970 are handled too. *)
Module Datetime.

Definition ns_per_hour : Z := 3600000000000.
Definition ns_per_day : Z := 86400000000000.

(** The int64 bit pattern pandas reserves for NaT. *)
Definition iNaT : Z := - 9223372036854775808.

Definition days (ns : Z) : Z := (ns / ns_per_day)%Z.

Definition hour (ns : Z) : Z := ((ns mod ns_per_day) / ns_per_hour)%Z.

(** Monday is 0; 1970-01-01 was a Thursday. *)
Definition weekday (ns : Z) : Z := ((days ns + 3) mod 7)%Z.

(** Day of the 400-year era, year of the era, day of the year counted from
    1 March, and month counted from March. *)
Definition doe (ns : Z) : Z := ((days ns + 719468) mod 146097)%Z.

Definition yoe (ns : Z) : Z :=
  let d := doe ns in
  ((d - d / 1460 + d / 36524 - d / 146096) / 365)%Z.

Definition doy (ns : Z) : Z :=
  let y := yoe ns in
  (doe ns - (365 * y + y / 4 - y / 100))%Z.

Definition mp (ns : Z) : Z := ((5 * doy ns + 2) / 153)%Z.

Definition day (ns : Z) : Z := (doy ns - (153 * mp ns + 2) / 5 + 1)%Z.

Definition month (ns : Z) : Z :=
  if (mp ns <? 10)%Z then (mp ns + 3)%Z else (mp ns - 9)%Z.

Definition year (ns : Z) : Z :=
  let era := ((days ns + 719468) / 146097)%Z in
  let y := (yoe ns + era * 400)%Z in
  if (month ns <=? 2)%Z then (y + 1)%Z else y.

End Datetime.

(** ** Library behaviour taken as a parameter *)

(** What the embedding does not fix about pandas and NumPy:
    - [nat_string s]: [s] is one of the strings [pd.to_datetime] reads as a
      missing value (the empty string, [NaT], [nan], ...): it becomes NaT
      and is no error, even in the strict conversion;
    - [parse_datetime col s]: the instant any other string [s] denotes when
      the object column [col] is handed to [pd.to_datetime], or [None] when
      [s] does not parse (the column is an argument because pandas infers
      one format for the whole column);
    - [float_to_datetime x]: the instant [pd.to_datetime] makes of the
      non-NaN float [x] (a count of nanoseconds), if any;
    - [np_percentile l q]: [np.percentile(l, q)], which may raise. *)
Class Library (F : Type) : Type := {
  nat_string : string -> bool;
  parse_datetime : list (option string) -> string -> option Z;
  float_to_datetime : F -> option Z;
  np_percentile : list F -> F -> result F
}.

(** The order in which the entries of an array are added is not fixed
    either: NumPy adds pairwise and in blocks, depending on the length and
    the memory layout of the array, and in floating point the order shows
    in the last bits of the result.  [pd_sum] is the sum pandas takes in its
    reductions ([mean], [std]), [sk_sum] the one the scikit-learn scalers
    take when they are fitted. *)
Class Summation (F : Type) : Type := {
  pd_sum : list F -> F;
  sk_sum : list F -> F
}.

(** ** Columns and tables *)

Section Pipeline.

Context {F : Type} {NF : Number F} {SUM : Summation F} {LIB : Library F}.

(** A pandas Series by dtype.  float64 uses NaN for null, object and
    datetime64 columns have an explicit null ([None], [NaT]); int64 and bool
    columns cannot hold nulls.  A datetime is its count of nanoseconds since
    1970-01-01T00:00:00. *)
Inductive Series : Type :=
| FloatS (l : list F)
| IntS (l : list Z)
| BoolS (l : list bool)
| ObjS (l : list (option string))
| DtS (l : list (option Z)).

Definition series_len (s : Series) : nat :=
  match s with
  | FloatS l => List.length l
  | IntS l => List.length l
  | BoolS l => List.length l
  | ObjS l => List.length l
  | DtS l => List.length l
  end.

(** [s.isnull()] *)
Definition isnull (s : Series) : list bool :=
  match s with
  | FloatS l => map fisnan l
  | IntS l => map (fun _ => false) l
  | BoolS l => map (fun _ => false) l
  | ObjS l => map (fun o => match o with None => true | Some _ => false end) l
  | DtS l => map (fun o => match o with None => true | Some _ => false end) l
  end.

(** [s.dropna().empty] *)
Definition dropna_empty (s : Series) : bool := forallb (fun b => b) (isnull s).

(** dtype is a subtype of [np.number]: int64 and float64, not bool, not
    datetime64, not object. *)
Definition is_numeric (s : Series) : bool :=
  match s with
  | FloatS _ | IntS _ => true
  | _ => false
  end.

(** The float64 values a numeric column contributes to an arithmetic
    expression or to a NumPy block. *)
Definition float_values (s : Series) : option (list F) :=
  match s with
  | FloatS l => Some l
  | IntS l => Some (map of_int l)
  | _ => None
  end.

(** A DataFrame: the length of its index and its columns in order. *)
Record DataFrame : Type := mkDF {
  nrows : nat;
  columns : list (string * Series)
}.

Definition column_names (df : DataFrame) : list string := map fst (columns df).

(** Every column has one entry per row and labels are unique (what
    [pd.read_csv] produces). *)
Definition WF (df : DataFrame) : Prop :=
  Forall (fun c => series_len (snd c) = nrows df) (columns df)
  /\ NoDup (column_names df).

(** [col in df.columns] *)
Definition has_col (c : string) (df : DataFrame) : bool :=
  existsb (String.eqb c) (column_names df).

Fixpoint assoc (c : string) (cs : list (string * Series)) : option Series :=
  match cs with
  | [] => None
  | (c', s) :: r => if String.eqb c c' then Some s else assoc c r
  end.

(** [df[col]] *)
Definition get_col (c : string) (df : DataFrame) : option Series :=
  assoc c (columns df).

Fixpoint set_assoc (c : string) (s : Series) (cs : list (string * Series))
  : list (string * Series) :=
  match cs with
  | [] => [(c, s)]
  | (c', s') :: r =>
      if String.eqb c c' then (c, s) :: r else (c', s') :: set_assoc c s r
  end.

(** [df[col] = s]: replaces the column in place, or appends a new one. *)
Definition set_col (c : string) (s : Series) (df : DataFrame) : DataFrame :=
  mkDF (nrows df) (set_assoc c s (columns df)).

(** [df.select_dtypes(include=[np.number]).columns] *)
Definition numeric_cols (df : DataFrame) : list string :=
  map fst (filter (fun c => is_numeric (snd c)) (columns df)).

(** One cell of a table, for statements about single rows. *)
Inductive Cell : Type :=
| CFloat (x : F)
| CInt (z : Z)
| CBool (b : bool)
| CObj (o : option string)
| CDt (o : option Z).

Definition cell_at (s : Series) (i : nat) : option Cell :=
  match s with
  | FloatS l => option_map CFloat (nth_error l i)
  | IntS l => option_map CInt (nth_error l i)
  | BoolS l => option_map CBool (nth_error l i)
  | ObjS l => option_map CObj (nth_error l i)
  | DtS l => option_map CDt (nth_error l i)
  end.

(** ** Column statistics (pandas reductions, [skipna=True])

    pandas masks the nulls, puts zero in their place and sums the whole
    column; the count is that of the non-null entries. *)

Definition dropna (l : list F) : list F := filter (fun x => negb (fisnan x)) l.

(** [np.putmask(values, mask, 0)] *)
Definition zero_filled (l : list F) : list F :=
  map (fun x => if fisnan x then fzero else x) l.

Definition count (l : list F) : nat := List.length (dropna l).

Definition of_nat (n : nat) : F := of_int (Z.of_nat n).

(** [s.mean()]: the sum over the count, NaN when no value is left. *)
Definition mean (l : list F) : F :=
  if (count l =? 0)%nat then fnan
  else fdiv (pd_sum (zero_filled l)) (of_nat (count l)).

Definition sq (x : F) : F := fmul x x.

(** [nanvar] with [ddof] delta degrees of freedom: NaN when [count <= ddof];
    otherwise the squared distances to the average, zero at the nulls,
    summed and divided by [count - ddof]. *)
Definition var (ddof : nat) (l : list F) : F :=
  if (count l <=? ddof)%nat then fnan
  else
    let avg := fdiv (pd_sum (zero_filled l)) (of_nat (count l)) in
    fdiv (pd_sum (map (fun x => if fisnan x then fzero else sq (fsub avg x)) l))
         (of_int (Z.of_nat (count l) - Z.of_nat ddof)).

(** [s.std()]: the sample standard deviation (ddof = 1). *)
Definition std (l : list F) : F := fsqrt (var 1 l).

Fixpoint insert_sorted (x : F) (l : list F) : list F :=
  match l with
  | [] => [x]
  | y :: r => if fleb x y then x :: y :: r else y :: insert_sorted x r
  end.

Definition sort (l : list F) : list F := fold_right insert_sorted [] l.

(** [s.median()] *)
Definition median (l : list F) : F :=
  let xs := sort (dropna l) in
  let n := List.length xs in
  if (n =? 0)%nat then fnan
  else if Nat.odd n then nth (n / 2) xs fnan
  else fdiv (fadd (nth (n / 2 - 1) xs fnan) (nth (n / 2) xs fnan)) (of_int 2).

(** [s.fillna(v)] on a float64 column. *)
Definition fillna (v : F) (l : list F) : list F :=
  map (fun x => if fisnan x then v else x) l.

Definition fmin (a b : F) : F := if fltb b a then b else a.
Definition fmax (a b : F) : F := if fltb a b then b else a.

(** [np.nanmin] / [np.nanmax]: NaN when every entry is NaN. *)
Definition nanmin (l : list F) : F :=
  match dropna l with
  | [] => fnan
  | x :: r => fold_left fmin r x
  end.

Definition nanmax (l : list F) : F :=
  match dropna l with
  | [] => fnan
  | x :: r => fold_left fmax r x
  end.

(** [df[col]], raising [KeyError] on an unknown label. *)
Definition getitem (c : string) (df : DataFrame) : result Series :=
  match get_col c df with
  | Some s => Ok s
  | None => Err (MissingColumn c)
  end.

(** Replace every column by its image, keeping labels and order. *)
Definition map_columns (f : Series -> Series) (df : DataFrame) : DataFrame :=
  mkDF (nrows df) (map (fun c => (fst c, f (snd c))) (columns df)).

(** [df[numeric_cols]] as a block of float64 columns. *)
Definition numeric_block (df : DataFrame) : list (list F) :=
  flat_map (fun c => match float_values (snd c) with
                     | Some l => [l]
                     | None => []
                     end) (columns df).

(** *** pd.to_datetime *)

Definition int_to_datetime (z : Z) : option Z :=
  if (z =? Datetime.iNaT)%Z then None else Some z.

(** [pd.to_datetime(s, errors="coerce")]: one result per entry; whatever does
    not convert becomes NaT.  A bool column is refused as a whole (TypeError),
    which [errors="coerce"] turns into a column of NaT. *)
Definition to_datetime_coerce (s : Series) : list (option Z) :=
  match s with
  | ObjS l => map (fun o => match o with
                            | Some str =>
                                if nat_string str then None
                                else parse_datetime l str
                            | None => None
                            end) l
  | DtS l => l
  | IntS l => map int_to_datetime l
  | FloatS l => map (fun x => if fisnan x then None else float_to_datetime x) l
  | BoolS l => map (fun _ => None) l
  end.

(** [pd.to_datetime(s)] (errors="raise"): [None] when it raises, which it
    does on a string that is neither a date nor a missing-value string. *)
Definition to_datetime_strict (s : Series) : option (list (option Z)) :=
  let converts :=
    match s with
    | ObjS l => forallb (fun o => match o with
                                  | Some str =>
                                      nat_string str ||
                                      match parse_datetime l str with
                                      | Some _ => true
                                      | None => false
                                      end
                                  | None => true
                                  end) l
    | FloatS l => forallb (fun x => fisnan x ||
                                    match float_to_datetime x with
                                    | Some _ => true
                                    | None => false
                                    end) l
    | BoolS _ => false
    | IntS _ | DtS _ => true
    end in
  if converts then Some (to_datetime_coerce s) else None.

Definition is_some {A : Type} (o : option A) : bool :=
  match o with Some _ => true | None => false end.

(** [s.dt.<field>]: int values, or float64 with NaN at NaT when the column
    holds a NaT. *)
Definition dt_field (field : Z -> Z) (l : list (option Z)) : Series :=
  if forallb is_some l
  then IntS (map (fun o => match o with Some ns => field ns | None => 0%Z end) l)
  else FloatS (map (fun o => match o with
                             | Some ns => of_int (field ns)
                             | None => fnan
                             end) l).

(** [df[col].dt]: only datetime columns have the accessor. *)
Definition dt (c : string) (df : DataFrame) : result (list (option Z)) :=
  do s <- getitem c df;
  match s with
  | DtS l => Ok l
  | _ => Err AttributeError
  end.

(** *** add_time_features (transformers.py, lines 28-54) *)

Definition add_time_features (df : DataFrame) (timestamp_col : string)
  : result DataFrame :=
  if negb (has_col timestamp_col df) then Err (MissingColumn timestamp_col)
  else
    do s <- getitem timestamp_col df;
    let df := set_col timestamp_col (DtS (to_datetime_coerce s)) df in
    do l <- dt timestamp_col df;
    let df := set_col "hour" (dt_field Datetime.hour l) df in
    do l <- dt timestamp_col df;
    let df := set_col "day" (dt_field Datetime.day l) df in
    do l <- dt timestamp_col df;
    let df := set_col "weekday" (dt_field Datetime.weekday l) df in
    do l <- dt timestamp_col df;
    let df := set_col "month" (dt_field Datetime.month l) df in
    Ok df.

(** *** The scikit-learn scalers *)

(** The fitted state: one pair per numeric column, ([scale_], [min_]) for
    min-max and ([mean_], [scale_]) for standard scaling. *)
Inductive Scaler : Type :=
| MinMaxScaler (params : list (F * F))
| StandardScaler (params : list (F * F)).

(** The estimators' input check: at least one sample, and no infinity (NaN is
    let through and ignored by [fit]). *)
Definition check_array (n_samples : nat) (X : list (list F)) : result unit :=
  if (n_samples =? 0)%nat then Err EstimatorNoSamples
  else if forallb (forallb (fun x => fisnan x || fisfinite x)) X then Ok tt
  else Err EstimatorNonFinite.

(** A range below ten machine epsilons counts as constant: scale 1. *)
Definition handle_zeros_in_scale (scale : F) : F :=
  if fltb scale (fmul (of_int 10) feps) then fone else scale.

Definition minmax_fit (col : list F) : F * F :=
  let data_min := nanmin col in
  let data_max := nanmax col in
  let data_range := fsub data_max data_min in
  let scale_ := fdiv (fsub fone fzero) (handle_zeros_in_scale data_range) in
  let min_ := fsub fzero (fmul data_min scale_) in
  (scale_, min_).

Definition minmax_transform (p : F * F) (col : list F) : list F :=
  map (fun x => fadd (fmul x (fst p)) (snd p)) col.

Definition is_constant_feature (var_ mean_ : F) (n_samples : nat) : bool :=
  fleb var_ (fadd (fmul (fmul (of_nat n_samples) feps) var_)
                  (sq (fmul (fmul (of_nat n_samples) mean_) feps))).

(** [StandardScaler.fit], which is one step of [_incremental_mean_and_var]
    from no samples seen: the mean is the sum (added to the sum so far, 0)
    over the count; the variance comes by the corrected two-pass formula
    (the sum of the deviations, zero in exact arithmetic, is squared,
    divided by the count and subtracted).  The sums are [np.nansum]: nulls
    count as zero. *)
Definition standard_fit (col : list F) : F * F :=
  let n := of_nat (count col) in
  let new_sum := sk_sum (zero_filled col) in
  let mean_ := fdiv (fadd fzero new_sum) n in
  let T := fdiv new_sum n in
  let temp := map (fun x => fsub x T) col in
  let correction := sk_sum (zero_filled temp) in
  let unnormalized_variance :=
    fsub (sk_sum (zero_filled (map sq temp))) (fdiv (sq correction) n) in
  let var_ := fdiv unnormalized_variance n in
  let scale_ := if is_constant_feature var_ mean_ (count col) then fone
                else fsqrt var_ in
  (mean_, scale_).

Definition standard_transform (p : F * F) (col : list F) : list F :=
  map (fun x => fdiv (fsub x (fst p)) (snd p)) col.

(** *** normalize_features (transformers.py, lines 84-111) *)

Definition scale_column (fit : list F -> F * F)
    (transform : F * F -> list F -> list F) (s : Series) : Series :=
  match float_values s with
  | Some l => FloatS (transform (fit l) l)
  | None => s
  end.

(** The unfitted estimator the method string selects. *)
Inductive Estimator : Type := MinMax | Standard.

Definition fit (est : Estimator) : list F -> F * F :=
  match est with MinMax => minmax_fit | Standard => standard_fit end.

Definition transform (est : Estimator) : F * F -> list F -> list F :=
  match est with MinMax => minmax_transform | Standard => standard_transform end.

Definition fitted (est : Estimator) (params : list (F * F)) : Scaler :=
  match est with
  | MinMax => MinMaxScaler params
  | Standard => StandardScaler params
  end.

Definition normalize_features (df : DataFrame) (method : string)
  : result (DataFrame * Scaler) :=
  let numeric_cols := numeric_cols df in
  if (List.length numeric_cols =? 0)%nat then Err NoNumericColumns
  else
    do scaler <- (if String.eqb method "minmax" then Ok MinMax
                  else if String.eqb method "standard" then Ok Standard
                  else Err UnsupportedMethod);
    let X := numeric_block df in
    do _ <- check_array (nrows df) X;
    Ok (map_columns (scale_column (fit scaler) (transform scaler)) df,
        fitted scaler (map (fit scaler) X)).

(** *** fill_missing_values (transformers.py, lines 117-145) *)

(** [df[numeric_cols].fillna(stat(df[numeric_cols]))]: each float64 column is
    filled with its own statistic; int64 columns hold no null. *)
Definition fill_column (stat : list F -> F) (s : Series) : Series :=
  match s with
  | FloatS l => FloatS (fillna (stat l) l)
  | _ => s
  end.

Definition fill_missing_values (df : DataFrame) (method : string)
  : result DataFrame :=
  let numeric_cols := numeric_cols df in
  if (List.length numeric_cols =? 0)%nat then Ok df
  else if String.eqb method "mean" then Ok (map_columns (fill_column mean) df)
  else if String.eqb method "median" then Ok (map_columns (fill_column median) df)
  else if String.eqb method "zero" then
    Ok (map_columns (fill_column (fun _ => of_int 0)) df)
  else Err UnsupportedMethod.

(** *** detect_anomalies (transformers.py, lines 151-176) *)

(** [np.abs((col - col.mean()) / col.std())] *)
Definition z_scores (col : list F) : list F :=
  map (fun x => fabs (fdiv (fsub x (mean col)) (std col))) col.

(** [(block > threshold)] *)
Definition exceeds (threshold : F) (block : list (list F)) : list (list bool) :=
  map (map (fun z => fltb threshold z)) block.

(** [mask.any(axis=1)] over [n] rows *)
Definition any_axis1 (n : nat) (mask : list (list bool)) : list bool :=
  map (fun i => existsb (fun col => nth i col false) mask) (seq 0 n).

Definition detect_anomalies (df : DataFrame) (threshold : F) : DataFrame :=
  let numeric_cols := numeric_cols df in
  if (List.length numeric_cols =? 0)%nat then
    set_col "is_anomaly" (BoolS (repeat false (nrows df))) df
  else
    let zs := map z_scores (numeric_block df) in
    set_col "is_anomaly" (BoolS (any_axis1 (nrows df) (exceeds threshold zs))) df.

(** [df["is_anomaly"].sum()] *)
Definition anomaly_count (df : DataFrame) : nat :=
  match get_col "is_anomaly" df with
  | Some (BoolS l) => List.length (filter (fun b => b) l)
  | _ => 0
  end.

(** *** clip_outliers (transformers.py, lines 182-207) *)

(** [np.clip(s, lo, hi)] on a Series, which is [s.clip(lo, hi)].  A NaN
    bound is no bound.  When both bounds are given they are put in order,
    [lower, upper = min(lower, upper), max(lower, upper)], where Python's
    [min(a, b)] is [b] if [b < a] and [a] otherwise, and [max(a, b)] is
    [b] if [a < b] and [a] otherwise.  Then the lower bound is applied and
    the upper; comparisons with NaN are false, so NaN entries and NaN
    bounds change nothing.  The clipped column is given by its float64
    values (pandas keeps the int64 dtype of a column when no entry had to
    be widened; the values are the same). *)
Definition clip (lo hi x : F) : F :=
  let given := negb (fisnan lo) && negb (fisnan hi) in
  let lower := if given && fltb hi lo then hi else lo in
  let upper := if given && negb (fltb lo hi) then lo else hi in
  let x1 := if fltb x lower then lower else x in
  if fltb upper x1 then upper else x1.

Definition clip_column (df : DataFrame) (col : string)
    (lower_percentile upper_percentile : F) : result DataFrame :=
  if negb (has_col col df) then Ok df
  else
    do s <- getitem col df;
    match float_values s with
    | None => Err TypeError
    | Some l =>
        do lower_bound <- np_percentile (dropna l) lower_percentile;
        do upper_bound <- np_percentile (dropna l) upper_percentile;
        Ok (set_col col (FloatS (map (clip lower_bound upper_bound) l)) df)
    end.

Fixpoint clip_outliers (df : DataFrame) (cols : list string)
    (lower_percentile upper_percentile : F) : result DataFrame :=
  match cols with
  | [] => Ok df
  | col :: rest =>
      do df' <- clip_column df col lower_percentile upper_percentile;
      clip_outliers df' rest lower_percentile upper_percentile
  end.

(** *** create_kpis (transformers.py, lines 243-261) *)

(** [a / b] on two columns of one frame: true division in float64, defined
    here for int64 and float64 operands. *)
Definition truediv (a b : Series) : result Series :=
  match float_values a, float_values b with
  | Some la, Some lb => Ok (FloatS (map (fun p => fdiv (fst p) (snd p)) (combine la lb)))
  | _, _ => Err TypeError
  end.

Definition create_kpis (df : DataFrame) : result DataFrame :=
  if has_col "mill_power_kwh" df && has_col "throughput_tph" df then
    do power <- getitem "mill_power_kwh" df;
    do throughput <- getitem "throughput_tph" df;
    do q <- truediv power throughput;
    Ok (set_col "specific_power_consumption" q df)
  else Ok df.

(** ** Schemas *)

(** A schema document as loaded from JSON: the loader reads its field list
    under ["fields"], the orchestrator reads column names under ["columns"];
    either key may be absent from a document. *)
Record Field : Type := mkField {
  field_name : string;
  field_type : string
}.

Record Schema : Type := mkSchema {
  fields : option (list Field);
  schema_columns : option (list string)
}.

Fixpoint lookup {A : Type} (k : string) (d : list (string * A)) : option A :=
  match d with
  | [] => None
  | (k', v) :: r => if String.eqb k k' then Some v else lookup k r
  end.

(** [d[k] = v] on a dict: the key keeps its place if it is there already. *)
Fixpoint update {A : Type} (k : string) (v : A) (d : list (string * A))
  : list (string * A) :=
  match d with
  | [] => [(k, v)]
  | (k', v') :: r =>
      if String.eqb k k' then (k, v) :: r else (k', v') :: update k v r
  end.

Definition nonempty {A : Type} (l : list A) : bool :=
  match l with [] => false | _ :: _ => true end.

(** [[col for col in df.columns if df[col].dropna().empty]] *)
Definition empty_columns (df : DataFrame) : list string :=
  map fst (filter (fun c => dropna_empty (snd c)) (columns df)).

(** ** pipelines.py *)

(** *** validate_schema (pipelines.py, lines 49-102)

    [SCHEMAS] is the module-level registry.  The loop over [df.columns] at
    lines 71-74 reassigns every column to itself and is the identity on the
    table's contents. *)
Definition pipelines_validate_schema (SCHEMAS : list (string * Schema))
    (df : DataFrame) (stage : string) : result bool :=
  match lookup stage SCHEMAS with
  | None => Err (SchemaNotFound stage)
  | Some schema =>
      let expected_columns :=
        match schema_columns schema with Some l => l | None => [] end in
      let missing_columns :=
        filter (fun col => negb (has_col col df)) expected_columns in
      if nonempty missing_columns then Err (MissingColumns stage missing_columns)
      else
        let empty_columns := empty_columns df in
        if nonempty empty_columns then Err (EmptyColumns stage empty_columns)
        else if has_col "timestamp" df then
          do s <- getitem "timestamp" df;
          match to_datetime_strict s with
          | None => Err (TimestampParseError stage)
          | Some _ => Ok true
          end
        else Ok true
  end.

(** *** preprocess_single (pipelines.py, lines 110-152) *)
Definition preprocess_single (SCHEMAS : list (string * Schema))
    (df : DataFrame) (stage : string) (normalize_method : string)
  : result DataFrame :=
  do _ <- pipelines_validate_schema SCHEMAS df stage;
  do df <- add_time_features df "timestamp";
  do r <- normalize_features df normalize_method;
  Ok (fst r).

(** *** get_preprocessed_data (pipelines.py, lines 317-364), the body of the
    loop over the files

    This second definition of the name replaces the one at lines 222-280.
    It calls no validator.  Its third step passes [strategy="mean"] to
    [fill_missing_values], whose parameter is [method]: Python raises
    TypeError there, before the steps that follow. *)
Definition get_preprocessed_data_file (df : DataFrame) (normalize_method : string)
  : result DataFrame :=
  do df <- add_time_features df "timestamp";
  do r <- normalize_features df normalize_method;
  let df := fst r in
  do df <- (Err TypeError : result DataFrame);
  do df <- clip_outliers df (numeric_cols df) (of_int 1) (of_int 99);
  create_kpis df.

(** The two transform steps of [preprocess_single] on their own. *)
Definition preprocess_transforms (df : DataFrame) (normalize_method : string)
  : result DataFrame :=
  do df <- add_time_features df "timestamp";
  do r <- normalize_features df normalize_method;
  Ok (fst r).

(** ** loaders.py *)

(** The second component of the pairs the loader's validators return. *)
Inductive Message : Type :=
| MsgOK                                   (* "OK" *)
| MsgMissingColumns (cols : list string)  (* "Missing columns: {...}" *)
| MsgEmptyColumns (cols : list string)    (* "Empty columns: [...]" *)
| MsgTimestampParseError.                 (* "Timestamp parse error" *)

(** [set(cols) - set(df.columns)], listed without repetition. *)
Definition missing_from (cols : list string) (df : DataFrame) : list string :=
  nodup string_dec (filter (fun col => negb (has_col col df)) cols).

(** *** validate (loaders.py, lines 241-269)

    [df['timestamp']] sits inside the [try]: its [KeyError] is caught like
    any parse failure. *)
Definition validate (df : DataFrame) (schema : Schema) : result (bool * Message) :=
  match fields schema with
  | None => Err (SchemaKeyError "fields")
  | Some fs =>
      let cols := map field_name fs in
      let missing := missing_from cols df in
      if nonempty missing then Ok (false, MsgMissingColumns missing)
      else
        let empty_cols := empty_columns df in
        if nonempty empty_cols then Ok (false, MsgEmptyColumns empty_cols)
        else
          match getitem "timestamp" df with
          | Err _ => Ok (false, MsgTimestampParseError)
          | Ok s =>
              match to_datetime_strict s with
              | None => Ok (false, MsgTimestampParseError)
              | Some _ => Ok (true, MsgOK)
              end
          end
  end.

(** *** validate_schema (loaders.py, lines 98-114) *)
Definition loaders_validate_schema (df : DataFrame) (schema : Schema)
  : result (bool * Message) :=
  match fields schema with
  | None => Err (SchemaKeyError "fields")
  | Some fs =>
      let required_cols := map field_name fs in
      let missing := missing_from required_cols df in
      if nonempty missing then Ok (false, MsgMissingColumns missing)
      else if has_col "timestamp" df then
        do s <- getitem "timestamp" df;
        match to_datetime_strict s with
        | None => Ok (false, MsgTimestampParseError)
        | Some _ => Ok (true, MsgOK)
        end
      else Ok (true, MsgOK)
  end.

(** *** load_stage_files (loaders.py, lines 275-313), the loop over the files

    [files] are the tables read from disk with their stage names,
    [schema_mapping] the schema documents found on disk.  The result is the
    [datasets] dictionary and the warnings logged on the way. *)
Inductive LogRecord : Type :=
| WarnNoSchema (stage : string)
| WarnValidationFailed (stage : string) (msg : Message).

Fixpoint load_stage_files (schema_mapping : list (string * Schema))
    (files : list (string * DataFrame))
    (datasets : list (string * DataFrame)) (log : list LogRecord)
  : result (list (string * DataFrame) * list LogRecord) :=
  match files with
  | [] => Ok (datasets, log)
  | (stage_name, df) :: rest =>
      match lookup stage_name schema_mapping with
      | None =>
          load_stage_files schema_mapping rest datasets
                           (log ++ [WarnNoSchema stage_name])%list
      | Some schema =>
          do r <- loaders_validate_schema df schema;
          let log := if fst r then log
                     else (log ++ [WarnValidationFailed stage_name (snd r)])%list in
          load_stage_files schema_mapping rest
                           (update stage_name df datasets) log
      end
  end.

(** ** Notions used in the statements *)

Implicit Types (df : DataFrame) (s : Series) (c : string).

(** The output is a well-formed table over the same index: every one of its
    columns has exactly one entry per row of the input. *)
Definition same_rows df df' : Prop := WF df' /\ nrows df' = nrows df.

(** The value of column [c] at row [i]. *)
Definition cell c (i : nat) df : option Cell :=
  match get_col c df with
  | Some s => cell_at s i
  | None => None
  end.

(** The cell holds the integer [z]: as an int, or as the float64 of [z] in a
    column that pandas widened to float64 to make room for NaN. *)
Definition holds_int (x : option Cell) (z : Z) : Prop :=
  x = Some (CInt z) \/ x = Some (CFloat (of_int z)).

(** The cell is null: NaN, None or NaT. *)
Definition is_null_cell (x : Cell) : bool :=
  match x with
  | CFloat v => fisnan v
  | CObj None | CDt None => true
  | _ => false
  end.

Definition time_features : list string := ["hour"; "day"; "weekday"; "month"].

(** The table [add_time_features] builds when the timestamp column exists and
    is not itself named like one of the derived features. *)
Definition with_time_features df ts (l : list (option Z)) : DataFrame :=
  set_col "month" (dt_field Datetime.month l)
    (set_col "weekday" (dt_field Datetime.weekday l)
       (set_col "day" (dt_field Datetime.day l)
          (set_col "hour" (dt_field Datetime.hour l)
             (set_col ts (DtS l) df)))).

(** The z-score magnitude of row [i] within the numeric column [l]:
    [|(x - mean) / std|], mean and (sample) std taken over [l]. *)
Definition z_score (l : list F) (i : nat) : F :=
  fabs (fdiv (fsub (nth i l fnan) (mean l)) (std l)).

(** The flags [detect_anomalies] writes into [is_anomaly]. *)
Definition anomaly_flags df (t : F) : list bool :=
  if (List.length (numeric_cols df) =? 0)%nat then repeat false (nrows df)
  else any_axis1 (nrows df) (exceeds t (map z_scores (numeric_block df))).

(** The statistic a supported method fills a column with; it is computed
    from the column it fills. *)
Definition fill_statistic (method : string) : list F -> F :=
  if String.eqb method "mean" then mean
  else if String.eqb method "median" then median
  else fun _ => of_int 0.

(** [s.isnull().any()] *)
Definition has_null s : bool := existsb (fun b => b) (isnull s).

(** Every entry of the numeric block is finite or NaN. *)
Definition finite_block df : bool :=
  forallb (forallb (fun x => fisnan x || fisfinite x)) (numeric_block df).

(** The method string names one of the two scalers. *)
Definition supported (m : string) : Prop := m = "minmax" \/ m = "standard".

(** Row-wise quotient of two float64 columns. *)
Definition quotients (la lb : list F) : list F :=
  map (fun p => fdiv (fst p) (snd p)) (combine la lb).

(** The columns the registry expects for a stage and the table lacks. *)
Definition missing_columns (schema : Schema) df : list string :=
  filter (fun col => negb (has_col col df))
         (match schema_columns schema with Some l => l | None => [] end).

End Pipeline.

Arguments Series F : clear implicits.
Arguments DataFrame F : clear implicits.
Arguments Cell F : clear implicits.
Arguments Scaler F : clear implicits.

(** ** Exact arithmetic

    [Number (option R)]: the same operations over the reals, with [None] for
    NaN and for every result that is not a real number (division by zero, the
    square root of a negative number).  The machine epsilon is that of
    float64, [2^-52], so the scalers' tests for a constant column are the
    ones the code runs; sums are exact, in any order.  The transforms read
    at this instance say what the float64 computation approximates; the two
    accuracy statements about the scalers are proved here. *)

Definition eps64 : R := (/ 4503599627370496)%R.

Definition lift2 (f : R -> R -> R) (a b : option R) : option R :=
  match a, b with
  | Some x, Some y => Some (f x y)
  | _, _ => None
  end.

#[export] Instance reals : Number (option R) := {|
  fnan := None;
  fzero := Some 0%R;
  fone := Some 1%R;
  feps := Some eps64;
  fadd := lift2 Rplus;
  fsub := lift2 Rminus;
  fmul := lift2 Rmult;
  fdiv := fun a b =>
    match a, b with
    | Some x, Some y => if Req_dec_T y 0 then None else Some (x / y)%R
    | _, _ => None
    end;
  fsqrt := fun a =>
    match a with
    | Some x => if Rle_dec 0 x then Some (sqrt x) else None
    | None => None
    end;
  fabs := option_map Rabs;
  fltb := fun a b =>
    match a, b with
    | Some x, Some y => if Rlt_dec x y then true else false
    | _, _ => false
    end;
  fleb := fun a b =>
    match a, b with
    | Some x, Some y => if Rle_dec x y then true else false
    | _, _ => false
    end;
  fisnan := fun a => match a with None => true | Some _ => false end;
  fisfinite := fun a => match a with None => false | Some _ => true end;
  of_int := fun z => Some (IZR z)
|}.

Definition exact_sum (l : list (option R)) : option R :=
  fold_left (lift2 Rplus) l (Some 0%R).

#[export] Instance reals_sum : Summation (option R) := {|
  pd_sum := exact_sum;
  sk_sum := exact_sum
|}.

(** The non-null entries of a column. *)
Definition values (l : list (option R)) : list R :=
  flat_map (fun o => match o with Some x => [x] | None => [] end) l.

Definition sumR (xs : list R) : R := fold_right Rplus 0%R xs.

Definition rmin (a b : R) : R := if Rlt_dec b a then b else a.
Definition rmax (a b : R) : R := if Rlt_dec a b then b else a.

(** ** The statistics in the words of the specification

    The mean of a list of reals, its variance and standard deviation with
    [ddof] delta degrees of freedom (0: population, 1: sample, the one
    [Series.std] takes), and the magnitude of the z-score of a value,
    [|(x - mean) / std|]. *)

Definition mean_R (xs : list R) : R := (sumR xs / INR (List.length xs))%R.

Definition variance_R (ddof : nat) (xs : list R) : R :=
  (sumR (map (fun x => (x - mean_R xs) * (x - mean_R xs)) xs)
   / (INR (List.length xs) - INR ddof))%R.

Definition std_R (ddof : nat) (xs : list R) : R := sqrt (variance_R ddof xs).

Definition z_score_R (xs : list R) (x : R) : R :=
  Rabs ((x - mean_R xs) / std_R 1 xs).

(** The columns [StandardScaler] takes for constant, and does not divide:
    those whose variance is within rounding distance of zero for the size
    of their mean, [var <= n * eps * var + (n * mean * eps)^2]. *)
Definition near_constant (xs : list R) : Prop :=
  let n := INR (List.length xs) in
  (variance_R 0 xs
   <= n * eps64 * variance_R 0 xs
      + (n * mean_R xs * eps64) * (n * mean_R xs * eps64))%R.

(** ** A concrete library for running the model

    One instance of [Library float] and one of [Summation float], used to
    evaluate the transforms on concrete tables: ISO-8601 timestamps of the
    shape [YYYY-MM-DDTHH:MM:SS] (or with a space for [T]), the strings
    pandas reads as a missing timestamp, floats read as nanosecond counts
    are not accepted, percentiles by linear interpolation between closest
    ranks, and sums in the order NumPy adds a contiguous array. *)
Module Reference.

Definition digit (c : ascii) : option Z :=
  let n := nat_of_ascii c in
  if ((48 <=? n) && (n <=? 57))%nat then Some (Z.of_nat (n - 48)) else None.

Fixpoint number (acc : Z) (cs : list ascii) : option Z :=
  match cs with
  | [] => Some acc
  | c :: r => match digit c with
              | Some d => number (10 * acc + d)%Z r
              | None => None
              end
  end.

Definition is_leap (y : Z) : bool :=
  ((y mod 4 =? 0) && (negb (y mod 100 =? 0) || (y mod 400 =? 0)))%Z.

Definition days_in_month (y m : Z) : Z :=
  if (m =? 2)%Z then (if is_leap y then 29 else 28)%Z
  else if ((m =? 4) || (m =? 6) || (m =? 9) || (m =? 11))%Z then 30%Z
  else 31%Z.

(** Days since 1970-01-01 of a civil date. *)
Definition days_from_civil (y m d : Z) : Z :=
  let y' := if (m <=? 2)%Z then (y - 1)%Z else y in
  let era := (y' / 400)%Z in
  let yoe := (y' - era * 400)%Z in
  let doy := ((153 * (if (2 <? m)%Z then m - 3 else m + 9) + 2) / 5 + d - 1)%Z in
  let doe := (yoe * 365 + yoe / 4 - yoe / 100 + doy)%Z in
  (era * 146097 + doe - 719468)%Z.

Definition is_sep (c : ascii) (seps : list ascii) : bool :=
  existsb (Ascii.eqb c) seps.

Definition iso8601 (s : string) : option Z :=
  match list_ascii_of_string s with
  | [y1; y2; y3; y4; s1; m1; m2; s2; d1; d2; s3; h1; h2; s4; n1; n2; s5; c1; c2] =>
      if is_sep s1 ["-"%char] && is_sep s2 ["-"%char]
         && is_sep s3 ["T"%char; " "%char]
         && is_sep s4 [":"%char] && is_sep s5 [":"%char]
      then
        match number 0 [y1; y2; y3; y4], number 0 [m1; m2], number 0 [d1; d2],
              number 0 [h1; h2], number 0 [n1; n2], number 0 [c1; c2] with
        | Some y, Some m, Some d, Some h, Some n, Some c =>
            if ((1 <=? m) && (m <=? 12) && (1 <=? d) && (d <=? days_in_month y m)
                && (h <? 24) && (n <? 60) && (c <? 60))%Z
            then Some ((days_from_civil y m d * 86400 + h * 3600 + n * 60 + c)
                       * 1000000000)%Z
            else None
        | _, _, _, _, _, _ => None
        end
      else None
  | _ => None
  end.

(** [np.percentile(l, q)] by linear interpolation: the virtual index
    [q / 100 * (n - 1)], its integer part found by counting, and NumPy's
    interpolation, which starts from the upper neighbour when the
    fractional part is at least one half. *)
Definition percentile (l : list float) (q : float) : result float :=
  let xs := sort l in
  let n := List.length xs in
  if (n =? 0)%nat then Err PercentileError
  else
    let v := PrimFloat.mul (PrimFloat.div q (Z2float 100)) (Z2float (Z.of_nat (n - 1))) in
    let lo := List.length (filter (fun j => PrimFloat.leb (Z2float (Z.of_nat j)) v)
                                  (seq 1 (n - 1))) in
    let a := nth lo xs PrimFloat.nan in
    let b := nth (Nat.min (lo + 1) (n - 1)) xs PrimFloat.nan in
    let gamma := PrimFloat.sub v (Z2float (Z.of_nat lo)) in
    let diff_b_a := PrimFloat.sub b a in
    Ok (if PrimFloat.leb 0x1p-1%float gamma
        then PrimFloat.sub b (PrimFloat.mul diff_b_a (PrimFloat.sub 1 gamma))
        else PrimFloat.add a (PrimFloat.mul diff_b_a gamma)).

(** The strings pandas reads as a missing timestamp. *)
Definition nat_strings : list string :=
  [""; "NaT"; "nat"; "NAT"; "nan"; "NaN"; "NAN"].

#[export] Instance library : Library float := {|
  nat_string := fun s => existsb (String.eqb s) nat_strings;
  parse_datetime := fun _ s => iso8601 s;
  float_to_datetime := fun _ => None;
  np_percentile := percentile
|}.

(** NumPy's sum of a contiguous float64 array ([pairwise_sum]): fewer than
    8 entries are added one after the other; up to 128 entries go to eight
    accumulators, entry [i] to accumulator [i mod 8], which are then added
    in pairs, and the entries after the last full block of eight are added
    to the result one by one; a longer array is split near its middle, at a
    multiple of eight. *)
Fixpoint add_blocks (blocks : nat) (r a : list float) : list float * list float :=
  match blocks with
  | O => (r, a)
  | S k =>
      add_blocks k
        (map (fun p => PrimFloat.add (fst p) (snd p)) (combine r (firstn 8 a)))
        (skipn 8 a)
  end.

Fixpoint pairwise_sum (fuel : nat) (a : list float) : float :=
  let n := List.length a in
  if (n <? 8)%nat then fold_left PrimFloat.add a PrimFloat.zero
  else if (n <=? 128)%nat then
    let (r, rest) := add_blocks (n / 8 - 1) (firstn 8 a) (skipn 8 a) in
    let r_ := fun i => nth i r PrimFloat.nan in
    let res := PrimFloat.add
                 (PrimFloat.add (PrimFloat.add (r_ 0%nat) (r_ 1%nat))
                                (PrimFloat.add (r_ 2%nat) (r_ 3%nat)))
                 (PrimFloat.add (PrimFloat.add (r_ 4%nat) (r_ 5%nat))
                                (PrimFloat.add (r_ 6%nat) (r_ 7%nat))) in
    fold_left PrimFloat.add rest res
  else
    match fuel with
    | O => PrimFloat.nan
    | S fuel' =>
        let n2 := (n / 2 - (n / 2) mod 8)%nat in
        PrimFloat.add (pairwise_sum fuel' (firstn n2 a))
                      (pairwise_sum fuel' (skipn n2 a))
    end.

(** [np.add.reduce]: the sum of the array, added to the initial value 0.
    Each halving leaves at most the length less one, so the length is fuel
    enough. *)
Definition np_sum (a : list float) : float :=
  PrimFloat.add PrimFloat.zero (pairwise_sum (List.length a) a).

#[export] Instance summation : Summation float := {|
  pd_sum := np_sum;
  sk_sum := np_sum
|}.

End Reference.

(** ** Concrete tables *)

(** Concrete tables (float64, with the reference library) on which the
    statements below are exercised. *)
Module Examples.

Import Reference.

Definition stage1 : string := "stage1_raw_materials".

(** A registry with one stage that expects [timestamp], [a] and [b]. *)
Definition registry : list (string * Schema) :=
  [(stage1, mkSchema (Some [mkField "timestamp" "string"; mkField "a" "float";
                            mkField "b" "float"])
                     (Some ["timestamp"; "a"; "b"]))].

(** Two readings, with column [b] missing. *)
Definition readings_without_b : DataFrame float :=
  mkDF 2 [("timestamp", ObjS [Some "2025-09-17T23:10:01"; Some "2025-09-17T23:11:01"]);
          ("a", FloatS [1; 3]%float)].

(** The same readings with [b]. *)
Definition readings : DataFrame float :=
  mkDF 2 [("timestamp", ObjS [Some "2025-09-17T23:10:01"; Some "2025-09-17T23:11:01"]);
          ("a", FloatS [1; 3]%float);
          ("b", FloatS [10; 20]%float)].

(** Three rows: a good timestamp, a string that is no timestamp, a null. *)
Definition mixed_timestamps : DataFrame float :=
  mkDF 3 [("timestamp", ObjS [Some "2025-09-17T23:10:01"; Some "yesterday"; None]);
          ("a", FloatS [1; 2; nan]%float)].

(** A sensor that never reported: an all-null float64 column. *)
Definition silent_sensor : DataFrame float :=
  mkDF 2 [("label", ObjS [Some "x"; None]);
          ("a", FloatS [nan; nan]%float);
          ("b", FloatS [4; nan]%float);
          ("n", IntS [7; 8]%Z)].

(** A constant column. *)
Definition constant_column : DataFrame float :=
  mkDF 2 [("c", FloatS [5; 5]%float)].

(** A numeric column and no row (a CSV file with a header only, after
    [add_time_features]). *)
Definition no_rows : DataFrame float :=
  mkDF 0 [("timestamp", DtS []); ("hour", IntS [])].

(** A column holding an infinity (what [create_kpis] leaves behind for a
    zero throughput). *)
Definition with_infinity : DataFrame float :=
  mkDF 2 [("a", FloatS [1; infinity]%float)].

(** The scenario of the specification. *)
Definition kpi_scenario : DataFrame float :=
  mkDF 2 [("mill_power_kwh", IntS [100; 200]%Z);
          ("throughput_tph", IntS [50; 50]%Z)].

(** The same mill standing still in its second row. *)
Definition kpi_zero_throughput : DataFrame float :=
  mkDF 2 [("mill_power_kwh", IntS [100; 0]%Z);
          ("throughput_tph", IntS [0; 0]%Z)].

(** One column with an outlier in its last row. *)
Definition with_outlier : DataFrame float :=
  mkDF 5 [("timestamp", ObjS [Some "2025-09-17T23:10:01"; Some "2025-09-17T23:11:01";
                              Some "2025-09-17T23:12:01"; Some "2025-09-17T23:13:01";
                              Some "2025-09-17T23:14:01"]);
          ("a", FloatS [1; 1; 1; 1; 100]%float)].

(** No [timestamp] column; [junk] is declared nowhere and entirely null. *)
Definition no_timestamp_junk : DataFrame float :=
  mkDF 1 [("a", FloatS [1]%float); ("junk", FloatS [nan]%float)].

Definition no_timestamp : DataFrame float :=
  mkDF 1 [("a", FloatS [1]%float)].

Definition schema_a : Schema := mkSchema (Some [mkField "a" "float"]) None.

(** A table in exact arithmetic: one column of range 2, one constant. *)
(** The float64 nearest to 0.1, and the one just below it. *)
Definition tenth : float := 0x1.999999999999ap-4%float.
Definition below_tenth : float := 0x1.9999999999999p-4%float.

(** Nine equal readings and a null. *)
Definition tenths : DataFrame float :=
  mkDF 10 [("a", FloatS (repeat tenth 9 ++ [nan]%float)%list)].

(** The same readings, taken a minute apart. *)
Definition tenths_by_minute : DataFrame float :=
  mkDF 10 [("timestamp",
            ObjS (map (fun m => Some ("2025-09-17T23:1" ++ m ++ ":01"))
                      ["0"; "1"; "2"; "3"; "4"; "5"; "6"; "7"; "8"; "9"]));
           ("a", FloatS (repeat tenth 9 ++ [nan]%float)%list)].

Definition hour_as_timestamp : DataFrame float :=
  mkDF 1 [("hour", ObjS [Some "2025-09-17T23:10:01"])].

Definition exact_table : DataFrame (option R) :=
  mkDF 2 [("a", FloatS [Some 0%R; Some 2%R]); ("c", FloatS [Some 5%R; Some 5%R])].

End Examples.

(** ** The rest of transformers.py *)

Section FullPipeline.

Context {F : Type} {NF : Number F} {SUM : Summation F} {LIB : Library F}.

(** The fitted parameters of a scaler, one pair per feature. *)
Definition scaler_params (sc : Scaler F) : list (F * F) :=
  match sc with
  | MinMaxScaler params => params
  | StandardScaler params => params
  end.

(** *** validate_and_add_time_features (transformers.py, lines 60-78)

    The validator is the orchestrator's ([pipelines.validate_schema]); it
    always looks at the column named [timestamp], whatever [timestamp_col]
    is. *)
Definition validate_and_add_time_features (SCHEMAS : list (string * Schema))
    (df : DataFrame F) (stage : string) (timestamp_col : string)
  : result (DataFrame F) :=
  do _ <- pipelines_validate_schema SCHEMAS df stage;
  add_time_features df timestamp_col.

(** *** transform_pipeline (transformers.py, lines 267-327)

    [scale_features] (lines 213-237) hands arbitrary columns to a
    scikit-learn scaler; what the scaler makes of columns that are not
    numeric is not fixed here, so the function is a parameter.  It is only
    called when [scale_columns] is a non-empty list.  [clip_outliers] is
    called with its default percentiles, 1 and 99. *)
Definition transform_pipeline
    (scale_features : DataFrame F -> list string -> string -> result (DataFrame F))
    (df : DataFrame F) (normalize_method fill_method timestamp_col : string)
    (anomaly_threshold : F) (clip_columns scale_columns : option (list string))
  : result (DataFrame F) :=
  do df <- fill_missing_values df fill_method;
  do df <- add_time_features df timestamp_col;
  do r <- normalize_features df normalize_method;
  let df := fst r in
  let df := detect_anomalies df anomaly_threshold in
  do df <- match clip_columns with
           | Some (c :: cs) => clip_outliers df (c :: cs) (of_int 1) (of_int 99)
           | _ => Ok df
           end;
  do df <- match scale_columns with
           | Some (c :: cs) => scale_features df (c :: cs) normalize_method
           | _ => Ok df
           end;
  create_kpis df.

End FullPipeline.

(** [schema.get("columns", [])]: the column labels the registry expects for
    a stage. *)
Definition expected_columns (schema : Schema) : list string :=
  match schema_columns schema with
  | Some l => l
  | None => []
  end.

(** ** loaders.py: reading from disk *)

(** What the loaders raise themselves, and what reading a file may raise. *)
Inductive IOError : Type :=
| FileNotFoundError (what : string)
    (* FileNotFoundError: "... not found ...: <what>" *)
| ReadError (path : string).
    (* whatever pd.read_csv raises on the file *)

Inductive io (A : Type) : Type :=
| Done (a : A)
| Raise (e : IOError).

Arguments Done {A} a.
Arguments Raise {A} e.

(** The disk as the loaders see it, and the path functions they use:
    - [glob pattern]: [glob.glob(pattern)], the matching paths in the order
      the operating system lists them;
    - [isdir], [path_exists]: [os.path.isdir], [os.path.exists];
    - [read_csv path]: the table [pd.read_csv] makes of the file, [None]
      when it raises;
    - [path_join], [basename]: [os.path.join], [os.path.basename];
    - [splitext_root p]: [os.path.splitext(p)[0]]. *)
Class FileSystem (F : Type) : Type := {
  glob : string -> list string;
  isdir : string -> bool;
  path_exists : string -> bool;
  read_csv : string -> option (DataFrame F);
  path_join : string -> string -> string;
  basename : string -> string;
  splitext_root : string -> string
}.

(** [sorted] on a list of str: insertion into lexicographic order. *)
Fixpoint insert_path (x : string) (l : list string) : list string :=
  match l with
  | [] => [x]
  | y :: r => if String.leb x y then x :: y :: r else y :: insert_path x r
  end.

Definition sorted (l : list string) : list string :=
  fold_right insert_path [] l.

(** Each entry is at most the next one. *)
Fixpoint ascending (l : list string) : bool :=
  match l with
  | x :: ((y :: _) as r) => String.leb x y && ascending r
  | _ => true
  end.

Section Loaders.

Context {F : Type} {FS : FileSystem F}.

(** What a loader may store under a key: a table, or a dictionary of
    tables. *)
Inductive Loaded : Type :=
| LFrame (df : DataFrame F)
| LDict (d : list (string * DataFrame F)).

(** *** load_csv (loaders.py, lines 55-92)

    [pd.read_csv] returns a DataFrame, so the Series check never fires; the
    [except] clause logs and re-raises. *)
Definition load_csv (file_path : string) : io (DataFrame F) :=
  if negb (path_exists file_path) then Raise (FileNotFoundError file_path)
  else
    match read_csv file_path with
    | Some df => Done df
    | None => Raise (ReadError file_path)
    end.

(** [for file_path in csv_files: datasets[base_name] = load(file_path)] *)
Fixpoint load_files (load : string -> io (DataFrame F)) (csv_files : list string)
    (datasets : list (string * DataFrame F)) : io (list (string * DataFrame F)) :=
  match csv_files with
  | [] => Done datasets
  | file_path :: rest =>
      let base_name := splitext_root (basename file_path) in
      match load file_path with
      | Done df => load_files load rest (update base_name df datasets)
      | Raise e => Raise e
      end
  end.

(** *** load_stage_data (loaders.py, lines 120-140) *)
Definition load_stage_data (stage_dir : string) : io (list (string * DataFrame F)) :=
  let csv_files := glob (path_join stage_dir "*.csv") in
  if negb (nonempty csv_files) then Raise (FileNotFoundError stage_dir)
  else load_files load_csv csv_files [].

(** [pd.read_csv(csv_file)], called directly. *)
Definition read_csv_or_raise (path : string) : io (DataFrame F) :=
  match read_csv path with
  | Some df => Done df
  | None => Raise (ReadError path)
  end.

(** [for stage_dir in stage_dirs:
       all_data[os.path.basename(stage_dir)] = load_stage_data(stage_dir)] *)
Fixpoint load_stage_dirs (stage_dirs : list string)
    (all_data : list (string * Loaded)) : io (list (string * Loaded)) :=
  match stage_dirs with
  | [] => Done all_data
  | stage_dir :: rest =>
      let stage_name := basename stage_dir in
      match load_stage_data stage_dir with
      | Done datasets => load_stage_dirs rest (update stage_name (LDict datasets) all_data)
      | Raise e => Raise e
      end
  end.

(** [{k: v for k, v in all_data.items() if isinstance(v, pd.DataFrame)}] *)
Definition only_frames (all_data : list (string * Loaded))
  : list (string * DataFrame F) :=
  flat_map (fun kv => match snd kv with
                      | LFrame df => [(fst kv, df)]
                      | LDict _ => []
                      end) all_data.

(** *** load_all_stages (loaders.py, lines 146-192) *)
Definition load_all_stages (base_dir : string) : io (list (string * DataFrame F)) :=
  let timestamp_folders := sorted (glob (path_join base_dir "*")) in
  if negb (nonempty timestamp_folders) then Raise (FileNotFoundError base_dir)
  else
    let latest_folder := last timestamp_folders "" in
    let stage_dirs := filter isdir (glob (path_join latest_folder "stage*")) in
    if negb (nonempty stage_dirs) then
      let csv_files := glob (path_join latest_folder "*.csv") in
      match load_files read_csv_or_raise csv_files [] with
      | Done all_data =>
          Done (only_frames (map (fun kv => (fst kv, LFrame (snd kv))) all_data))
      | Raise e => Raise e
      end
    else
      match load_stage_dirs stage_dirs [] with
      | Done all_data => Done (only_frames all_data)
      | Raise e => Raise e
      end.

(** *** load_scenario (loaders.py, lines 198-235) *)
Fixpoint load_scenario_dirs (scenario : string) (stage_dirs : list string)
    (all_data : list (string * list (string * DataFrame F)))
  : io (list (string * list (string * DataFrame F))) :=
  match stage_dirs with
  | [] => Done all_data
  | stage_dir :: rest =>
      let stage_name := basename stage_dir in
      let csv_files := glob (path_join stage_dir ("*_" ++ scenario ++ ".csv")) in
      if negb (nonempty csv_files) then load_scenario_dirs scenario rest all_data
      else
        match load_files load_csv csv_files [] with
        | Done datasets =>
            load_scenario_dirs scenario rest
              (if nonempty datasets then update stage_name datasets all_data
               else all_data)
        | Raise e => Raise e
        end
  end.

Definition load_scenario (base_dir : string) (scenario : string)
  : io (list (string * list (string * DataFrame F))) :=
  let timestamp_folders := sorted (glob (path_join base_dir "*")) in
  if negb (nonempty timestamp_folders) then Raise (FileNotFoundError base_dir)
  else
    let latest_folder := last timestamp_folders "" in
    let stage_dirs := filter isdir (glob (path_join latest_folder "stage*")) in
    load_scenario_dirs scenario stage_dirs [].

(** The entry [load_all_stages] and [load_scenario] read from. *)
Definition latest_run (base_dir : string) : string :=
  last (sorted (glob (path_join base_dir "*"))) "".

End Loaders.

Arguments Loaded F : clear implicits.

(** ** A disk for running the loaders

    One instance of [FileSystem float]: POSIX path functions, and a raw-data
    directory with two runs, the later one holding one stage directory with
    one CSV file. *)
Module Disk.

Import Examples.

Definition starts_with_slash (p : string) : bool :=
  match p with
  | String c _ => Ascii.eqb c "/"
  | EmptyString => false
  end.

Fixpoint ends_with_slash (p : string) : bool :=
  match p with
  | EmptyString => false
  | String c EmptyString => Ascii.eqb c "/"
  | String _ r => ends_with_slash r
  end.

(** [posixpath.join] of two components. *)
Definition posix_join (a b : string) : string :=
  if starts_with_slash b then b
  else if (String.eqb a "" || ends_with_slash a)%bool then a ++ b
  else a ++ "/" ++ b.

Fixpoint basename_from (acc p : string) : string :=
  match p with
  | EmptyString => acc
  | String c r =>
      if Ascii.eqb c "/" then basename_from "" r
      else basename_from (acc ++ String c "") r
  end.

(** [posixpath.basename]: what follows the last slash. *)
Definition posix_basename (p : string) : string := basename_from "" p.

(** [cs.rfind(c)], counting from [i]. *)
Fixpoint rindex (c : ascii) (cs : list ascii) (i : nat) (found : option nat)
  : option nat :=
  match cs with
  | [] => found
  | x :: r => rindex c r (S i) (if Ascii.eqb x c then Some i else found)
  end.

(** [posixpath.splitext(p)[0]]: the path up to its last dot, when that dot
    comes after the last slash and after some character of the file name
    that is not a dot. *)
Definition posix_splitext_root (p : string) : string :=
  let cs := list_ascii_of_string p in
  let name_start := match rindex "/" cs 0 None with
                    | Some i => S i
                    | None => 0%nat
                    end in
  match rindex "." cs 0 None with
  | Some dot =>
      if ((name_start <=? dot)%nat
          && existsb (fun c => negb (Ascii.eqb c "."))
                     (firstn (dot - name_start) (skipn name_start cs)))%bool
      then string_of_list_ascii (firstn dot cs)
      else p
  | None => p
  end.

Definition older_run : string := "raw/2025-09-16_08-00-00".
Definition newer_run : string := "raw/2025-09-17_23-10-01".
Definition stage_folder : string := newer_run ++ "/stage1_raw_materials".
Definition csv_file : string := stage_folder ++ "/stage1_raw_materials_normal.csv".

#[export] Instance disk : FileSystem float := {|
  glob := fun pattern =>
    if String.eqb pattern "raw/*" then [newer_run; older_run]
    else if String.eqb pattern (newer_run ++ "/stage*") then [stage_folder]
    else if String.eqb pattern (stage_folder ++ "/*.csv") then [csv_file]
    else if String.eqb pattern (stage_folder ++ "/*_normal.csv") then [csv_file]
    else [];
  isdir := fun p =>
    existsb (String.eqb p) ["raw"; older_run; newer_run; stage_folder];
  path_exists := fun p =>
    existsb (String.eqb p) ["raw"; older_run; newer_run; stage_folder; csv_file];
  read_csv := fun p => if String.eqb p csv_file then Some readings else None;
  path_join := posix_join;
  basename := posix_basename;
  splitext_root := posix_splitext_root
|}.

End Disk.

(** ** pipelines.py: the scenario pipeline *)

(** What [get_preprocessed_scenario] can raise: an error of the loader or
    an error of the preprocessing. *)
Inductive Exception : Type :=
| IOExc (e : IOError)
| PipelineExc (e : Error).

Inductive outcome (A : Type) : Type :=
| Returns (a : A)
| Raises (e : Exception).

Arguments Returns {A} a.
Arguments Raises {A} e.

Section ScenarioPipeline.

Context {F : Type} {NF : Number F} {SUM : Summation F} {LIB : Library F} {FS : FileSystem F}.

(** [validate_schema] (pipelines.py, lines 49-102) on whatever value it is
    handed: the registry is consulted first (lines 60-64), then the value
    must be a DataFrame (lines 67-68, TypeError), then the checks of
    [pipelines_validate_schema] run. *)
Definition validate_schema_of_value (SCHEMAS : list (string * Schema))
    (v : Loaded F) (stage : string) : result bool :=
  match lookup stage SCHEMAS with
  | None => Err (SchemaNotFound stage)
  | Some _ =>
      match v with
      | LFrame df => pipelines_validate_schema SCHEMAS df stage
      | LDict _ => Err TypeError
      end
  end.

(** [preprocess_single] (pipelines.py, lines 110-152) on whatever value it
    is handed: validation comes first and is the step that looks at the
    type, so the transforms only ever see a table. *)
Definition preprocess_single_of_value (SCHEMAS : list (string * Schema))
    (v : Loaded F) (stage : string) (normalize_method : string)
  : result (DataFrame F) :=
  do _ <- validate_schema_of_value SCHEMAS v stage;
  match v with
  | LFrame df => preprocess_transforms df normalize_method
  | LDict _ => Err TypeError
  end.

(** [for name, df in datasets.items():
       preprocessed[name] = preprocess_single(df, stage=name, ...)] *)
Fixpoint preprocess_each (SCHEMAS : list (string * Schema))
    (datasets : list (string * Loaded F)) (normalize_method : string)
    (preprocessed : list (string * DataFrame F))
  : result (list (string * DataFrame F)) :=
  match datasets with
  | [] => Ok preprocessed
  | (name, v) :: rest =>
      do df <- preprocess_single_of_value SCHEMAS v name normalize_method;
      preprocess_each SCHEMAS rest normalize_method (update name df preprocessed)
  end.

(** [load_scenario] (loaders.py, line 198) called with keyword arguments
    only: the parameters are [base_dir] and [scenario]; a keyword
    that names neither is a TypeError, raised before the body runs; a
    parameter that is not given takes its default. *)
Definition load_scenario_keywords (DEFAULT_BASE_DIR : string)
    (kwargs : list (string * string))
  : outcome (list (string * list (string * DataFrame F))) :=
  if forallb (fun kv => existsb (String.eqb (fst kv)) ["base_dir"; "scenario"])
             kwargs
  then
    let base_dir := match lookup "base_dir" kwargs with
                    | Some d => d
                    | None => DEFAULT_BASE_DIR
                    end in
    let scenario := match lookup "scenario" kwargs with
                    | Some s => s
                    | None => "normal"
                    end in
    match load_scenario base_dir scenario with
    | Done all_data => Returns all_data
    | Raise e => Raises (IOExc e)
    end
  else Raises (PipelineExc TypeError).

(** *** get_preprocessed_scenario (pipelines.py, lines 286-314)

    The loader is called as [load_scenario(data_dir=..., scenario=...)]
    (line 304).  The values of the dictionary [load_scenario] returns are
    themselves dictionaries (file name to table); the [except] clause logs
    and re-raises. *)
Definition get_preprocessed_scenario (SCHEMAS : list (string * Schema))
    (DEFAULT_BASE_DIR : string)
    (data_dir scenario normalize_method : string)
  : outcome (list (string * DataFrame F)) :=
  match load_scenario_keywords DEFAULT_BASE_DIR
          [("data_dir", data_dir); ("scenario", scenario)] with
  | Raises e => Raises e
  | Returns datasets =>
      match preprocess_each SCHEMAS
              (map (fun kv => (fst kv, LDict (snd kv))) datasets)
              normalize_method [] with
      | Ok preprocessed => Returns preprocessed
      | Err e => Raises (PipelineExc e)
      end
  end.

End ScenarioPipeline.

(** * Verification *)

Ltac compare_cases :=
  repeat match goal with
  | |- context [Z.compare ?a ?b] => destruct (Z.compare_spec a b)
  | H : context [Z.compare ?a ?b] |- _ => destruct (Z.compare_spec a b)
  | |- context [Pos.compare ?a ?b] => destruct (Pos.compare_spec a b)
  | H : context [Pos.compare ?a ?b] |- _ => destruct (Pos.compare_spec a b)
  end.

Ltac solve_NoDup :=
  repeat (constructor;
          [simpl; intuition discriminate|]); constructor.

Ltac solve_WF :=
  split; [repeat constructor | unfold column_names; simpl; solve_NoDup].

(** ** Calendar fields stay in range *)

Module DatetimeFacts.
Import Datetime.
Local Open Scope Z_scope.

Lemma hour_range ns : 0 <= hour ns <= 23.
Proof.
  unfold hour, ns_per_day, ns_per_hour.
  pose proof (Z.mod_pos_bound ns 86400000000000 ltac:(lia)) as Hm.
  split.
  - apply Z.div_pos; lia.
  - apply Z.lt_succ_r, Z.div_lt_upper_bound; lia.
Qed.

Lemma weekday_range ns : 0 <= weekday ns <= 6.
Proof.
  unfold weekday.
  pose proof (Z.mod_pos_bound (days ns + 3) 7 ltac:(lia)). lia.
Qed.

Lemma doe_range ns : 0 <= doe ns <= 146096.
Proof.
  unfold doe.
  pose proof (Z.mod_pos_bound (days ns + 719468) 146097 ltac:(lia)). lia.
Qed.

Lemma doy_range ns : 0 <= doy ns <= 365.
Proof.
  unfold doy, yoe. pose proof (doe_range ns) as Hd.
  generalize dependent (doe ns). intros d Hd. cbv zeta.
  Z.div_mod_to_equations; lia.
Qed.

Lemma mp_range ns : 0 <= mp ns <= 11.
Proof.
  unfold mp. pose proof (doy_range ns). Z.div_mod_to_equations; lia.
Qed.

Lemma month_range ns : 1 <= month ns <= 12.
Proof.
  unfold month. pose proof (mp_range ns).
  destruct (mp ns <? 10) eqn:E;
    [apply Z.ltb_lt in E | apply Z.ltb_ge in E]; lia.
Qed.

Lemma day_range ns : 1 <= day ns <= 31.
Proof.
  unfold day, mp. pose proof (doy_range ns) as Hd.
  generalize dependent (doy ns). intros d Hd.
  Z.div_mod_to_equations; lia.
Qed.

End DatetimeFacts.

(** ** Tables: lookup, assignment and well-formedness *)

Section FrameFacts.

Context {F : Type} {NF : Number F} {SUM : Summation F} {LIB : Library F}.

Implicit Types (df : DataFrame F) (s : Series F) (c : string).

Lemma assoc_set_assoc_same c s (cs : list (string * Series F)) :
  assoc c (set_assoc c s cs) = Some s.
Proof.
  induction cs as [|[c' s'] r IH]; simpl.
  - now rewrite String.eqb_refl.
  - destruct (String.eqb c c') eqn:E; simpl; rewrite ?String.eqb_refl, ?E; auto.
Qed.

Lemma assoc_set_assoc_other c c' s (cs : list (string * Series F)) :
  c <> c' -> assoc c' (set_assoc c s cs) = assoc c' cs.
Proof.
  intros Hne. induction cs as [|[c0 s0] r IH]; simpl.
  - destruct (String.eqb c' c) eqn:E; auto.
    apply String.eqb_eq in E. congruence.
  - destruct (String.eqb c c0) eqn:E; simpl.
    + apply String.eqb_eq in E. subst c0.
      destruct (String.eqb c' c) eqn:E'; auto.
      apply String.eqb_eq in E'. congruence.
    + destruct (String.eqb c' c0); auto.
Qed.

Lemma get_set_col_same c s df : get_col c (set_col c s df) = Some s.
Proof. apply assoc_set_assoc_same. Qed.

Lemma get_set_col_other c c' s df :
  c <> c' -> get_col c' (set_col c s df) = get_col c' df.
Proof. apply assoc_set_assoc_other. Qed.

Lemma assoc_In c s (cs : list (string * Series F)) :
  assoc c cs = Some s -> In (c, s) cs.
Proof.
  induction cs as [|[c' s'] r IH]; simpl; [discriminate|].
  destruct (String.eqb c c') eqn:E.
  - apply String.eqb_eq in E. intros [= ->]. subst. now left.
  - auto.
Qed.

Lemma In_assoc c s (cs : list (string * Series F)) :
  NoDup (map fst cs) -> In (c, s) cs -> assoc c cs = Some s.
Proof.
  induction cs as [|[c' s'] r IH]; simpl; [tauto|].
  intros Hnd [Heq|Hin].
  - injection Heq as -> ->. now rewrite String.eqb_refl.
  - inversion Hnd as [|? ? Hnotin Hnd']; subst.
    destruct (String.eqb c c') eqn:E.
    + apply String.eqb_eq in E. subst c'.
      exfalso. apply Hnotin. apply (in_map fst) in Hin. exact Hin.
    + auto.
Qed.

Lemma has_col_true c df :
  has_col c df = true <-> exists s, get_col c df = Some s.
Proof.
  unfold has_col, get_col, column_names. destruct df as [n cs]; simpl.
  induction cs as [|[c' s'] r IH]; simpl.
  - split; [discriminate|intros [s H]; discriminate].
  - destruct (String.eqb c c'); simpl; [split; eauto|exact IH].
Qed.

Lemma has_col_false c df : has_col c df = false <-> get_col c df = None.
Proof.
  pose proof (has_col_true c df) as [H1 H2].
  destruct (has_col c df), (get_col c df) as [s|]; split; intros; auto;
    try discriminate.
  - destruct (H1 eq_refl). discriminate.
  - exfalso. assert (false = true) by eauto. discriminate.
Qed.

Lemma has_col_set_col c c' s df :
  has_col c' (set_col c s df) = (String.eqb c' c || has_col c' df)%bool.
Proof.
  destruct (String.eqb c' c) eqn:E; simpl.
  - apply String.eqb_eq in E. subst. apply has_col_true.
    rewrite get_set_col_same. eauto.
  - assert (c <> c') as Hne.
    { intros ->. now rewrite String.eqb_refl in E. }
    destruct (has_col c' df) eqn:H.
    + apply has_col_true. rewrite get_set_col_other by auto.
      now apply has_col_true.
    + apply has_col_false. rewrite get_set_col_other by auto.
      now apply has_col_false.
Qed.

Lemma set_assoc_names_In c s (cs : list (string * Series F)) x :
  In x (map fst (set_assoc c s cs)) -> x = c \/ In x (map fst cs).
Proof.
  induction cs as [|[c' s'] r IH]; simpl.
  - intros [->|[]]. now left.
  - destruct (String.eqb c c') eqn:E; simpl.
    + apply String.eqb_eq in E. subst. intros [->|H]; auto.
    + intros [->|H]; auto. destruct (IH H); auto.
Qed.

Lemma set_assoc_NoDup c s (cs : list (string * Series F)) :
  NoDup (map fst cs) -> NoDup (map fst (set_assoc c s cs)).
Proof.
  induction cs as [|[c' s'] r IH]; simpl; intros Hnd.
  - constructor; [intros []|constructor].
  - inversion Hnd as [|? ? Hnotin Hnd']; subst.
    destruct (String.eqb c c') eqn:E; simpl.
    + apply String.eqb_eq in E. subst. now constructor.
    + constructor; auto.
      intros Hin. apply set_assoc_names_In in Hin as [->|Hin]; auto.
      now rewrite String.eqb_refl in E.
Qed.

Lemma set_assoc_Forall (P : string * Series F -> Prop) c s cs :
  P (c, s) -> Forall P cs -> Forall P (set_assoc c s cs).
Proof.
  intros Hp. induction 1 as [|[c' s'] r Hx Hr IH]; simpl.
  - repeat constructor; auto.
  - destruct (String.eqb c c'); constructor; auto.
Qed.

Lemma WF_set_col c s df :
  WF df -> series_len s = nrows df -> WF (set_col c s df).
Proof.
  intros [Hlen Hnd] Hs. split; simpl.
  - apply set_assoc_Forall; auto.
  - now apply set_assoc_NoDup.
Qed.

Lemma WF_map_columns (f : Series F -> Series F) df :
  (forall s, series_len (f s) = series_len s) ->
  WF df -> WF (map_columns f df).
Proof.
  intros Hf [Hlen Hnd]. split; simpl.
  - apply Forall_map. eapply Forall_impl; [|exact Hlen].
    intros [c s]; simpl. now rewrite Hf.
  - unfold column_names; simpl. rewrite map_map; simpl. exact Hnd.
Qed.

Lemma WF_get_col c s df :
  WF df -> get_col c df = Some s -> series_len s = nrows df.
Proof.
  intros [Hlen _] H. apply assoc_In in H.
  rewrite Forall_forall in Hlen. exact (Hlen _ H).
Qed.

Lemma WF_In_len c s df :
  WF df -> In (c, s) (columns df) -> series_len s = nrows df.
Proof.
  intros [Hlen _] H. rewrite Forall_forall in Hlen. exact (Hlen _ H).
Qed.

Lemma getitem_Ok c df s : getitem c df = Ok s <-> get_col c df = Some s.
Proof.
  unfold getitem. destruct (get_col c df); split; intros H;
    try discriminate; now inversion H.
Qed.

End FrameFacts.

(** ** Every transform keeps the number of rows *)

Section RowCount.

Context {F : Type} {NF : Number F} {SUM : Summation F} {LIB : Library F}.

Implicit Types (df : DataFrame F) (s : Series F) (c : string).

Lemma same_rows_refl df : WF df -> same_rows df df.
Proof. now split. Qed.

Lemma same_rows_trans df1 df2 df3 :
  same_rows df1 df2 -> same_rows df2 df3 -> same_rows df1 df3.
Proof. intros [? ?] [? ?]. split; auto. congruence. Qed.

Lemma same_rows_set_col c s df :
  WF df -> series_len s = nrows df -> same_rows df (set_col c s df).
Proof. intros. split; [now apply WF_set_col|reflexivity]. Qed.

Lemma to_datetime_coerce_length s :
  List.length (to_datetime_coerce s) = series_len s.
Proof. destruct s; simpl; now rewrite ?length_map. Qed.

Lemma dt_field_length (f : Z -> Z) (l : list (option Z)) :
  series_len (dt_field (F:=F) f l) = List.length l.
Proof. unfold dt_field. destruct (forallb _ l); simpl; now rewrite length_map. Qed.

Lemma dt_length c df l : WF df -> dt c df = Ok l -> List.length l = nrows df.
Proof.
  unfold dt, getitem. intros Hwf.
  destruct (get_col c df) as [s|] eqn:E; simpl; [|discriminate].
  destruct s; try discriminate. intros [= <-].
  exact (WF_get_col _ _ _ Hwf E).
Qed.

Lemma add_time_features_rows df ts df' :
  WF df -> add_time_features df ts = Ok df' -> same_rows df df'.
Proof.
  intros Hwf. unfold add_time_features.
  destruct (has_col ts df); simpl; [|discriminate].
  unfold getitem at 1. destruct (get_col ts df) as [s|] eqn:Es; simpl;
    [|discriminate].
  assert (same_rows df (set_col ts (DtS (to_datetime_coerce s)) df)) as H0.
  { apply same_rows_set_col; auto. simpl.
    rewrite to_datetime_coerce_length. exact (WF_get_col _ _ _ Hwf Es). }
  revert H0. generalize (set_col ts (DtS (to_datetime_coerce s)) df).
  intros d0 H0.
  destruct (dt ts d0) as [l0|] eqn:E0; simpl; [|discriminate].
  assert (same_rows df (set_col "hour" (dt_field Datetime.hour l0) d0)) as H1.
  { eapply same_rows_trans; [exact H0|]. destruct H0 as [W0 _].
    apply same_rows_set_col; auto. rewrite dt_field_length.
    eapply dt_length; eauto. }
  revert H1. generalize (set_col "hour" (dt_field Datetime.hour l0) d0).
  intros d1 H1.
  destruct (dt ts d1) as [l1|] eqn:E1; simpl; [|discriminate].
  assert (same_rows df (set_col "day" (dt_field Datetime.day l1) d1)) as H2.
  { eapply same_rows_trans; [exact H1|]. destruct H1 as [W1 _].
    apply same_rows_set_col; auto. rewrite dt_field_length.
    eapply dt_length; eauto. }
  revert H2. generalize (set_col "day" (dt_field Datetime.day l1) d1).
  intros d2 H2.
  destruct (dt ts d2) as [l2|] eqn:E2; simpl; [|discriminate].
  assert (same_rows df (set_col "weekday" (dt_field Datetime.weekday l2) d2))
    as H3.
  { eapply same_rows_trans; [exact H2|]. destruct H2 as [W2 _].
    apply same_rows_set_col; auto. rewrite dt_field_length.
    eapply dt_length; eauto. }
  revert H3. generalize (set_col "weekday" (dt_field Datetime.weekday l2) d2).
  intros d3 H3.
  destruct (dt ts d3) as [l3|] eqn:E3; simpl; [|discriminate].
  intros [= <-].
  eapply same_rows_trans; [exact H3|]. destruct H3 as [W3 _].
  apply same_rows_set_col; auto. rewrite dt_field_length.
  eapply dt_length; eauto.
Qed.

Lemma fillna_length (v : F) l : List.length (fillna v l) = List.length l.
Proof. apply length_map. Qed.

Lemma fill_column_length (stat : list F -> F) s :
  series_len (fill_column stat s) = series_len s.
Proof. destruct s; simpl; auto. apply fillna_length. Qed.

Lemma fill_missing_values_rows df m df' :
  WF df -> fill_missing_values df m = Ok df' -> same_rows df df'.
Proof.
  intros Hwf. unfold fill_missing_values.
  destruct (List.length (numeric_cols df) =? 0)%nat.
  { intros [= <-]. now apply same_rows_refl. }
  destruct (String.eqb m "mean");
    [|destruct (String.eqb m "median");
      [|destruct (String.eqb m "zero"); [|discriminate]]];
    intros [= <-]; (split; [|reflexivity]);
    apply WF_map_columns; auto; apply fill_column_length.
Qed.

Lemma transform_length (est : Estimator) (p : F * F) l :
  List.length (transform est p l) = List.length l.
Proof. destruct est; apply length_map. Qed.

Lemma scale_column_length (est : Estimator) s :
  series_len (scale_column (fit est) (transform est) s) = series_len s.
Proof.
  unfold scale_column.
  destruct s; simpl; rewrite ?transform_length, ?length_map; auto.
Qed.

Lemma normalize_features_Ok df m df' sc :
  normalize_features df m = Ok (df', sc) ->
  exists est,
    (m = "minmax" /\ est = MinMax \/ m = "standard" /\ est = Standard)
    /\ df' = map_columns (scale_column (fit est) (transform est)) df
    /\ sc = fitted est (map (fit est) (numeric_block df))
    /\ check_array (nrows df) (numeric_block df) = Ok tt.
Proof.
  unfold normalize_features.
  destruct (List.length (numeric_cols df) =? 0)%nat; [discriminate|].
  destruct (String.eqb m "minmax") eqn:E1;
    [|destruct (String.eqb m "standard") eqn:E2; [|discriminate]]; simpl;
    (destruct (check_array (nrows df) (numeric_block df)) as [[]|] eqn:Ec;
     simpl; [|discriminate]); intros [= <- <-].
  - exists MinMax. apply String.eqb_eq in E1. auto.
  - exists Standard. apply String.eqb_eq in E2. auto.
Qed.

Lemma normalize_features_rows df m df' sc :
  WF df -> normalize_features df m = Ok (df', sc) -> same_rows df df'.
Proof.
  intros Hwf H. apply normalize_features_Ok in H as (est & _ & -> & _).
  split; [|reflexivity]. apply WF_map_columns; auto.
  apply scale_column_length.
Qed.

Lemma any_axis1_length n (mask : list (list bool)) :
  List.length (any_axis1 n mask) = n.
Proof. unfold any_axis1. now rewrite length_map, length_seq. Qed.

Lemma detect_anomalies_rows df (t : F) :
  WF df -> same_rows df (detect_anomalies df t).
Proof.
  intros Hwf. unfold detect_anomalies.
  destruct (List.length (numeric_cols df) =? 0)%nat;
    apply same_rows_set_col; auto; simpl.
  - apply repeat_length.
  - apply any_axis1_length.
Qed.

Lemma float_values_length s l :
  float_values s = Some l -> List.length l = series_len s.
Proof.
  destruct s; simpl; try discriminate; intros [= <-]; now rewrite ?length_map.
Qed.

Lemma clip_column_rows df col (lp up : F) df' :
  WF df -> clip_column df col lp up = Ok df' -> same_rows df df'.
Proof.
  intros Hwf. unfold clip_column.
  destruct (has_col col df); simpl.
  2:{ intros [= <-]. now apply same_rows_refl. }
  unfold getitem. destruct (get_col col df) as [s|] eqn:Es; simpl;
    [|discriminate].
  destruct (float_values s) as [l|] eqn:El; [|discriminate].
  destruct (np_percentile (dropna l) lp) as [lo|]; simpl; [|discriminate].
  destruct (np_percentile (dropna l) up) as [hi|]; simpl; [|discriminate].
  intros [= <-]. apply same_rows_set_col; auto. simpl.
  rewrite length_map, (float_values_length _ _ El).
  exact (WF_get_col _ _ _ Hwf Es).
Qed.

Lemma clip_outliers_rows cols : forall df (lp up : F) df',
  WF df -> clip_outliers df cols lp up = Ok df' -> same_rows df df'.
Proof.
  induction cols as [|col rest IH]; simpl; intros df lp up df' Hwf.
  - intros [= <-]. now apply same_rows_refl.
  - destruct (clip_column df col lp up) as [d1|] eqn:E1; simpl; [|discriminate].
    intros H. pose proof (clip_column_rows _ _ _ _ _ Hwf E1) as H1.
    eapply same_rows_trans; [exact H1|]. destruct H1 as [W1 _]. eauto.
Qed.

Lemma truediv_length s1 s2 q :
  truediv s1 s2 = Ok q ->
  series_len q = Nat.min (series_len s1) (series_len s2).
Proof.
  unfold truediv.
  destruct (float_values s1) as [la|] eqn:Ea; [|discriminate].
  destruct (float_values s2) as [lb|] eqn:Eb; [|discriminate].
  intros [= <-]. simpl.
  now rewrite length_map, length_combine,
    (float_values_length _ _ Ea), (float_values_length _ _ Eb).
Qed.

Lemma create_kpis_rows df df' :
  WF df -> create_kpis df = Ok df' -> same_rows df df'.
Proof.
  intros Hwf. unfold create_kpis.
  destruct (has_col "mill_power_kwh" df && has_col "throughput_tph" df)%bool.
  2:{ intros [= <-]. now apply same_rows_refl. }
  unfold getitem.
  destruct (get_col "mill_power_kwh" df) as [a|] eqn:Ea; simpl; [|discriminate].
  destruct (get_col "throughput_tph" df) as [b|] eqn:Eb; simpl; [|discriminate].
  destruct (truediv a b) as [q|] eqn:Eq; simpl; [|discriminate].
  intros [= <-]. apply same_rows_set_col; auto.
  rewrite (truediv_length _ _ _ Eq), (WF_get_col _ _ _ Hwf Ea),
    (WF_get_col _ _ _ Hwf Eb).
  apply Nat.min_id.
Qed.

End RowCount.

(** ** add_time_features *)

Section TimeFeatures.

Context {F : Type} {NF : Number F} {SUM : Summation F} {LIB : Library F}.

Implicit Types (df : DataFrame F) (s : Series F) (c : string).

Lemma dt_set_col_same c l df : dt c (set_col c (DtS l) df) = Ok l.
Proof. unfold dt, getitem. now rewrite get_set_col_same. Qed.

Lemma dt_set_col_other c c' s df :
  c <> c' -> dt c' (set_col c s df) = dt c' df.
Proof. intros H. unfold dt, getitem. now rewrite get_set_col_other. Qed.

Lemma cell_set_col_same c s i df : cell c i (set_col c s df) = cell_at s i.
Proof. unfold cell. now rewrite get_set_col_same. Qed.

Lemma cell_set_col_other c c' s i df :
  c <> c' -> cell c' i (set_col c s df) = cell c' i df.
Proof. intros H. unfold cell. now rewrite get_set_col_other. Qed.

(** The call goes through unless the timestamp column bears the name of
    one of the first three features, which are written before the last
    read of the timestamps. *)
Lemma add_time_features_runs df ts s :
  get_col ts df = Some s -> ~ In ts ["hour"; "day"; "weekday"] ->
  add_time_features df ts = Ok (with_time_features df ts (to_datetime_coerce s)).
Proof.
  intros Hs Hts. unfold add_time_features.
  assert (has_col ts df = true) as ->. { apply has_col_true. eauto. }
  simpl. unfold getitem at 1. rewrite Hs. simpl.
  assert ("hour" <> ts /\ "day" <> ts /\ "weekday" <> ts) as (H1 & H2 & H3).
  { simpl in Hts. repeat split; intros <-; tauto. }
  rewrite dt_set_col_same. simpl.
  rewrite (dt_set_col_other _ _ _ _ H1), dt_set_col_same. simpl.
  rewrite (dt_set_col_other _ _ _ _ H2), (dt_set_col_other _ _ _ _ H1),
    dt_set_col_same. simpl.
  rewrite (dt_set_col_other _ _ _ _ H3), (dt_set_col_other _ _ _ _ H2),
    (dt_set_col_other _ _ _ _ H1), dt_set_col_same. simpl.
  reflexivity.
Qed.

Lemma add_time_features_present df ts s :
  get_col ts df = Some s -> ~ In ts time_features ->
  add_time_features df ts = Ok (with_time_features df ts (to_datetime_coerce s)).
Proof.
  intros Hs Hts. apply add_time_features_runs; auto.
  intros H. apply Hts. unfold time_features. simpl in *. tauto.
Qed.

Lemma dt_after_dt_field c (f : Z -> Z) (l : list (option Z)) df :
  dt c (set_col c (dt_field f l) df) = Err AttributeError.
Proof.
  unfold dt, getitem. rewrite get_set_col_same. simpl.
  unfold dt_field. now destruct (forallb is_some l).
Qed.

(** A timestamp column named after one of the first three features is
    overwritten by that feature, and the next [.dt] raises. *)
Lemma add_time_features_overwritten df ts s :
  get_col ts df = Some s -> In ts ["hour"; "day"; "weekday"] ->
  add_time_features df ts = Err AttributeError.
Proof.
  intros Hs Hin.
  assert (has_col ts df = true) as Hc by (apply has_col_true; eauto).
  unfold add_time_features. rewrite Hc. cbn [negb].
  unfold getitem at 1. rewrite Hs. cbn [bind].
  simpl in Hin. destruct Hin as [<-|[<-|[<-|[]]]].
  - rewrite dt_set_col_same. cbn [bind].
    now rewrite dt_after_dt_field.
  - rewrite dt_set_col_same. cbn [bind].
    rewrite dt_set_col_other, dt_set_col_same by discriminate. cbn [bind].
    now rewrite dt_after_dt_field.
  - rewrite dt_set_col_same. cbn [bind].
    rewrite dt_set_col_other, dt_set_col_same by discriminate. cbn [bind].
    rewrite !dt_set_col_other, dt_set_col_same by discriminate. cbn [bind].
    now rewrite dt_after_dt_field.
Qed.

Lemma add_time_features_absent df ts :
  has_col ts df = false -> add_time_features df ts = Err (MissingColumn ts).
Proof. intros H. unfold add_time_features. now rewrite H. Qed.

Lemma forallb_is_some_nth (l : list (option Z)) i :
  forallb is_some l = true -> (i < List.length l)%nat ->
  exists ns, nth_error l i = Some (Some ns).
Proof.
  revert i. induction l as [|x r IH]; simpl; intros i Hall Hi; [lia|].
  apply andb_true_iff in Hall as [Hx Hr].
  destruct i as [|i]; simpl.
  - destruct x; [eauto|discriminate].
  - apply IH; auto. lia.
Qed.

Lemma dt_field_cell (f : Z -> Z) (l : list (option Z)) i o :
  nth_error l i = Some o ->
  match o with
  | Some ns => holds_int (cell_at (dt_field f l) i) (f ns)
  | None => cell_at (dt_field f l) i = Some (CFloat fnan)
  end.
Proof.
  intros Hi. unfold dt_field.
  destruct (forallb is_some l) eqn:Hall; simpl.
  - assert (i < List.length l)%nat as Hlt.
    { apply nth_error_Some. congruence. }
    destruct (forallb_is_some_nth l i Hall Hlt) as [ns Hns].
    rewrite Hns in Hi. injection Hi as <-.
    left. now rewrite nth_error_map, Hns.
  - rewrite nth_error_map, Hi. simpl. destruct o; [now right|reflexivity].
Qed.

End TimeFeatures.

(** ** detect_anomalies *)

Section Anomalies.

Context {F : Type} {NF : Number F} {SUM : Summation F} {LIB : Library F}.

Implicit Types (df : DataFrame F) (s : Series F) (c : string).

Lemma detect_anomalies_unfold df t :
  detect_anomalies df t = set_col "is_anomaly" (BoolS (anomaly_flags df t)) df.
Proof.
  unfold detect_anomalies, anomaly_flags.
  now destruct (List.length (numeric_cols df) =? 0)%nat.
Qed.

Lemma In_numeric_block df l :
  In l (numeric_block df) <->
  exists c s, In (c, s) (columns df) /\ float_values s = Some l.
Proof.
  unfold numeric_block. rewrite in_flat_map. split.
  - intros [[c s] [Hin Hl]]. simpl in Hl.
    destruct (float_values s) as [l'|] eqn:E; simpl in Hl; [|tauto].
    destruct Hl as [<-|[]]. eauto.
  - intros (c & s & Hin & Hl). exists (c, s). split; auto.
    simpl. rewrite Hl. now left.
Qed.

Lemma float_values_is_numeric s :
  is_numeric s = true <-> exists l, float_values s = Some l.
Proof.
  destruct s; simpl; split; intros H; try discriminate; eauto;
    destruct H; discriminate.
Qed.

Lemma numeric_cols_nil df :
  numeric_cols df = [] <-> numeric_block df = [].
Proof.
  unfold numeric_cols, numeric_block. destruct df as [n cs]; simpl.
  induction cs as [|[c s] r IH]; simpl; [tauto|].
  destruct s; simpl; try exact IH; split; discriminate.
Qed.

Lemma length_zero_nil {A : Type} (l : list A) :
  (List.length l =? 0)%nat = true <-> l = [].
Proof.
  destruct l; simpl; split; intros H; auto; discriminate.
Qed.

Lemma nth_any_axis1 n (mask : list (list bool)) i :
  (i < n)%nat ->
  nth i (any_axis1 n mask) false = existsb (fun col => nth i col false) mask.
Proof.
  intros Hi. unfold any_axis1.
  rewrite (nth_indep _ false (existsb (fun col => nth 0 col false) mask))
    by now rewrite length_map, length_seq.
  rewrite (map_nth (fun i => existsb (fun col => nth i col false) mask)
                   (seq 0 n) 0%nat i).
  now rewrite seq_nth.
Qed.

Lemma nth_exceeds_z_scores (t : F) (l : list F) i :
  (i < List.length l)%nat ->
  nth i (map (fun z => fltb t z) (z_scores l)) false = fltb t (z_score l i).
Proof.
  intros Hi. unfold z_scores, z_score. rewrite map_map.
  rewrite (nth_indep _ false
             ((fun x => fltb t (fabs (fdiv (fsub x (mean l)) (std l)))) fnan))
    by now rewrite length_map.
  now rewrite (map_nth (fun x => fltb t (fabs (fdiv (fsub x (mean l)) (std l))))).
Qed.

Lemma nth_repeat_false n i : nth i (repeat false n) false = false.
Proof.
  revert i. induction n as [|n IH]; intros [|i]; simpl; auto.
Qed.

Lemma anomaly_flags_length df t : List.length (anomaly_flags df t) = nrows df.
Proof.
  unfold anomaly_flags. destruct (List.length (numeric_cols df) =? 0)%nat.
  - apply repeat_length.
  - apply any_axis1_length.
Qed.

(** A row is flagged exactly when some numeric column's z-score magnitude
    exceeds the threshold. *)
Lemma anomaly_flags_spec df t i :
  WF df -> (i < nrows df)%nat ->
  (nth i (anomaly_flags df t) false = true <->
   exists c s l, In (c, s) (columns df) /\ float_values s = Some l
                 /\ fltb t (z_score l i) = true).
Proof.
  intros Hwf Hi. unfold anomaly_flags.
  destruct (List.length (numeric_cols df) =? 0)%nat eqn:E.
  - rewrite nth_repeat_false. split; [discriminate|].
    intros (c & s & l & Hin & Hl & _). exfalso.
    apply length_zero_nil, numeric_cols_nil in E.
    assert (In l (numeric_block df)) as Hb by (apply In_numeric_block; eauto).
    rewrite E in Hb. exact Hb.
  - rewrite nth_any_axis1 by exact Hi. rewrite existsb_exists. split.
    + intros (col & Hcol & Hnth). unfold exceeds in Hcol.
      apply in_map_iff in Hcol as (zs & <- & Hzs).
      apply in_map_iff in Hzs as (l & <- & Hl).
      pose proof Hl as Hl'. apply In_numeric_block in Hl' as (c & s & Hin & Hv).
      exists c, s, l. repeat split; auto.
      rewrite nth_exceeds_z_scores in Hnth; auto.
      rewrite (float_values_length _ _ Hv), (WF_In_len _ _ _ Hwf Hin).
      exact Hi.
    + intros (c & s & l & Hin & Hv & Hz).
      exists (map (fun z => fltb t z) (z_scores l)). split.
      * unfold exceeds. apply in_map, in_map. apply In_numeric_block. eauto.
      * rewrite nth_exceeds_z_scores; auto.
        rewrite (float_values_length _ _ Hv), (WF_In_len _ _ _ Hwf Hin).
        exact Hi.
Qed.

Lemma anomaly_count_detect df t :
  anomaly_count (detect_anomalies df t)
  = List.length (filter (fun b => b) (anomaly_flags df t)).
Proof.
  rewrite detect_anomalies_unfold. unfold anomaly_count.
  now rewrite get_set_col_same.
Qed.

Lemma count_true_map_le {A : Type} (f g : A -> bool) (xs : list A) :
  (forall x, f x = true -> g x = true) ->
  (List.length (filter (fun b => b) (map f xs))
   <= List.length (filter (fun b => b) (map g xs)))%nat.
Proof.
  intros Hfg. induction xs as [|x r IH]; simpl; [lia|].
  destruct (f x) eqn:Ef.
  - rewrite (Hfg x Ef). simpl. lia.
  - destruct (g x); simpl; lia.
Qed.

Lemma existsb_impl {A : Type} (f g : A -> bool) (xs : list A) :
  (forall x, In x xs -> f x = true -> g x = true) ->
  existsb f xs = true -> existsb g xs = true.
Proof.
  intros Hfg. rewrite !existsb_exists. intros (x & Hin & Hf). eauto.
Qed.

Lemma nth_map_bool {A : Type} (f : A -> bool) (l : list A) i :
  nth i (map f l) false = true ->
  exists x, nth_error l i = Some x /\ f x = true.
Proof.
  revert i. induction l as [|x r IH]; intros [|i]; simpl; try discriminate;
    eauto.
Qed.

Lemma nth_map_bool_inv {A : Type} (f : A -> bool) (l : list A) i x :
  nth_error l i = Some x -> nth i (map f l) false = f x.
Proof.
  revert i. induction l as [|y r IH]; intros [|i]; simpl; try discriminate;
    auto. now intros [= ->].
Qed.

(** Raising the threshold can only clear flags, as soon as "exceeds" is
    monotone in the threshold. *)
Lemma anomaly_count_antitone df (t1 t2 : F) :
  (forall z, fltb t2 z = true -> fltb t1 z = true) ->
  (anomaly_count (detect_anomalies df t2)
   <= anomaly_count (detect_anomalies df t1))%nat.
Proof.
  intros Hmono. rewrite !anomaly_count_detect. unfold anomaly_flags.
  destruct (List.length (numeric_cols df) =? 0)%nat; [lia|].
  unfold any_axis1. apply count_true_map_le. intros i.
  unfold exceeds. rewrite !existsb_exists.
  intros (col & Hcol & Hnth).
  apply in_map_iff in Hcol as (zs & <- & Hzs).
  apply nth_map_bool in Hnth as (z & Hz & Hgt).
  exists (map (fun z => fltb t1 z) zs). split; [now apply in_map|].
  rewrite (nth_map_bool_inv (fun z => fltb t1 z) _ _ _ Hz). auto.
Qed.

End Anomalies.

(** ** Order on float64 *)

Lemma SF_le_lt_trans a b c :
  SFleb a b = true -> SFltb b c = true -> SFltb a c = true.
Proof.
  unfold SFleb, SFltb.
  destruct a as [sa|sa| |sa ma ea], b as [sb|sb| |sb mb eb],
    c as [sc|sc| |sc mc ec]; simpl;
    try discriminate; try reflexivity;
    repeat match goal with s : bool |- _ => destruct s end; simpl;
    try discriminate; try reflexivity;
    change (Pos.compare_cont Eq) with Pos.compare;
    intros H1 H2; compare_cases; simpl in *;
    try discriminate; try reflexivity; subst; try lia.
Qed.

(** [t1 <= t2 < z] gives [t1 < z]; a NaN on either side makes a premise
    false. *)
Lemma float_le_lt_trans (a b c : float) :
  PrimFloat.leb a b = true -> PrimFloat.ltb b c = true ->
  PrimFloat.ltb a c = true.
Proof. rewrite leb_spec, !ltb_spec. apply SF_le_lt_trans. Qed.

(** ** fill_missing_values *)

Section FillMissing.

Context {F : Type} {NF : Number F} {SUM : Summation F} {LIB : Library F}.

Implicit Types (df : DataFrame F) (s : Series F) (c : string).

Lemma get_col_map_columns (f : Series F -> Series F) c df :
  get_col c (map_columns f df) = option_map f (get_col c df).
Proof.
  unfold get_col, map_columns; simpl.
  induction (columns df) as [|[c' s'] r IH]; simpl; auto.
  now destruct (String.eqb c c').
Qed.

Lemma column_names_map_columns (f : Series F -> Series F) df :
  column_names (map_columns f df) = column_names df.
Proof. unfold column_names, map_columns; simpl. now rewrite map_map. Qed.

Lemma map_columns_id (f : Series F -> Series F) df :
  (forall c s, In (c, s) (columns df) -> f s = s) -> map_columns f df = df.
Proof.
  destruct df as [n cs]. unfold map_columns; simpl. intros H. f_equal.
  induction cs as [|[c s] r IH]; simpl; auto.
  rewrite (H c s) by now left. f_equal. apply IH.
  intros c' s' Hin. apply (H c'). now right.
Qed.

Lemma fill_column_non_float (stat : list F -> F) df :
  numeric_cols df = [] -> map_columns (fill_column stat) df = df.
Proof.
  intros Hn. apply map_columns_id. intros c s Hin.
  destruct s; simpl; auto. exfalso.
  assert (In c (numeric_cols df)) as Hc.
  { unfold numeric_cols. apply in_map_iff. exists (c, FloatS l). split; auto.
    apply filter_In. auto. }
  rewrite Hn in Hc. exact Hc.
Qed.

Lemma fill_missing_values_supported df m :
  In m ["mean"; "median"; "zero"] ->
  fill_missing_values df m = Ok (map_columns (fill_column (fill_statistic m)) df).
Proof.
  intros Hm. unfold fill_missing_values, fill_statistic.
  destruct (List.length (numeric_cols df) =? 0)%nat eqn:E.
  - apply length_zero_nil in E. now rewrite fill_column_non_float.
  - simpl in Hm. destruct Hm as [<-|[<-|[<-|[]]]]; reflexivity.
Qed.

Lemma fillna_no_null (v : F) (l : list F) :
  fisnan v = false -> existsb (fun b => b) (map fisnan (fillna v l)) = false.
Proof.
  intros Hv. induction l as [|x r IH]; simpl; auto.
  destruct (fisnan x) eqn:Ex; rewrite ?Hv, ?Ex; simpl; exact IH.
Qed.

Lemma has_null_IntS (l : list Z) : has_null (IntS l) = false.
Proof. unfold has_null; simpl. induction l; simpl; auto. Qed.

Lemma dropna_all_null (l : list F) : forallb fisnan l = true -> dropna l = [].
Proof.
  unfold dropna. induction l as [|x r IH]; simpl; auto.
  intros H. apply andb_true_iff in H as [Hx Hr]. rewrite Hx. simpl. auto.
Qed.

(** The mean and the median of a column without a non-null value are
    null, whatever the sum of no terms is taken to be. *)
Lemma fill_statistic_all_null (m : string) (l : list F) :
  In m ["mean"; "median"] -> forallb fisnan l = true ->
  fill_statistic m l = fnan.
Proof.
  intros Hm Hl. pose proof (dropna_all_null l Hl) as Hd.
  unfold fill_statistic.
  destruct Hm as [<-|[<-|[]]]; simpl.
  - unfold mean, count. now rewrite Hd.
  - unfold median. now rewrite Hd.
Qed.

End FillMissing.

(** ** normalize_features: which error, and when *)

Section NormalizeOutcome.

Context {F : Type} {NF : Number F} {SUM : Summation F} {LIB : Library F}.

Implicit Types (df : DataFrame F) (s : Series F) (c : string).

Lemma check_array_Ok df :
  check_array (nrows df) (numeric_block df) = Ok tt
  <-> nrows df <> 0%nat /\ finite_block df = true.
Proof.
  unfold check_array, finite_block.
  destruct (nrows df =? 0)%nat eqn:E.
  - apply Nat.eqb_eq in E. split; [discriminate|]. intros [H _]. contradiction.
  - apply Nat.eqb_neq in E.
    destruct (forallb _ (numeric_block df));
      split; auto; try discriminate. intros [_ H]. discriminate.
Qed.

Lemma check_array_Err df e :
  check_array (nrows df) (numeric_block df) = Err e ->
  e = EstimatorNoSamples /\ nrows df = 0%nat
  \/ e = EstimatorNonFinite /\ nrows df <> 0%nat /\ finite_block df = false.
Proof.
  unfold check_array, finite_block.
  destruct (nrows df =? 0)%nat eqn:E.
  - apply Nat.eqb_eq in E. intros [= <-]. auto.
  - apply Nat.eqb_neq in E.
    destruct (forallb _ (numeric_block df)); [discriminate|].
    intros [= <-]. auto.
Qed.

Lemma normalize_features_no_numeric df m :
  numeric_cols df = [] -> normalize_features df m = Err NoNumericColumns.
Proof. intros H. unfold normalize_features. now rewrite H. Qed.

Lemma normalize_features_numeric df m :
  numeric_cols df <> [] ->
  normalize_features df m =
    do scaler <- (if String.eqb m "minmax" then Ok MinMax
                  else if String.eqb m "standard" then Ok Standard
                  else Err UnsupportedMethod);
    do _ <- check_array (nrows df) (numeric_block df);
    Ok (map_columns (scale_column (fit scaler) (transform scaler)) df,
        fitted scaler (map (fit scaler) (numeric_block df))).
Proof.
  intros H. unfold normalize_features.
  destruct (List.length (numeric_cols df) =? 0)%nat eqn:E; auto.
  apply length_zero_nil in E. contradiction.
Qed.

Lemma supported_dec m :
  (String.eqb m "minmax" = true /\ m = "minmax")
  \/ (String.eqb m "minmax" = false /\ String.eqb m "standard" = true
      /\ m = "standard")
  \/ (String.eqb m "minmax" = false /\ String.eqb m "standard" = false
      /\ ~ supported m).
Proof.
  destruct (String.eqb m "minmax") eqn:E1.
  - left. apply String.eqb_eq in E1. auto.
  - right. destruct (String.eqb m "standard") eqn:E2.
    + left. apply String.eqb_eq in E2. auto.
    + right. repeat split; auto. intros [->| ->]; discriminate.
Qed.

End NormalizeOutcome.

(** ** create_kpis *)

Section Kpis.

Context {F : Type} {NF : Number F} {SUM : Summation F} {LIB : Library F}.

Implicit Types (df : DataFrame F) (s : Series F) (c : string).

Lemma create_kpis_present df a b la lb :
  get_col "mill_power_kwh" df = Some a ->
  get_col "throughput_tph" df = Some b ->
  float_values a = Some la -> float_values b = Some lb ->
  create_kpis df
  = Ok (set_col "specific_power_consumption" (FloatS (quotients la lb)) df).
Proof.
  intros Ha Hb Hla Hlb. unfold create_kpis.
  assert (has_col "mill_power_kwh" df = true) as -> by (apply has_col_true; eauto).
  assert (has_col "throughput_tph" df = true) as -> by (apply has_col_true; eauto).
  simpl. unfold getitem. rewrite Ha, Hb. simpl.
  unfold truediv. now rewrite Hla, Hlb.
Qed.

Lemma create_kpis_absent df :
  has_col "mill_power_kwh" df = false \/ has_col "throughput_tph" df = false ->
  create_kpis df = Ok df.
Proof.
  intros H. unfold create_kpis.
  destruct H as [-> | ->]; simpl; auto.
  now rewrite andb_false_r.
Qed.

Lemma nth_quotients (la lb : list F) i :
  (i < List.length la)%nat -> (i < List.length lb)%nat ->
  nth i (quotients la lb) fnan = fdiv (nth i la fnan) (nth i lb fnan).
Proof.
  revert lb i. induction la as [|x r IH]; intros [|y lb] [|i]; simpl;
    try lia; auto.
  intros H1 H2. apply IH; lia.
Qed.

End Kpis.

(** ** The scalers in exact arithmetic *)

Module Exact.

Local Open Scope R_scope.

Lemma dropna_values l : dropna l = map Some (values l).
Proof.
  unfold dropna, values. induction l as [|[x|] r IH]; simpl in *; auto.
  now rewrite IH.
Qed.

Lemma count_values l : count l = List.length (values l).
Proof. unfold count. now rewrite dropna_values, length_map. Qed.

Lemma In_values x l : In x (values l) <-> In (Some x) l.
Proof.
  unfold values. rewrite in_flat_map. split.
  - intros ([y|] & Hin & Hx); simpl in Hx; [|tauto].
    destruct Hx as [<-|[]]. exact Hin.
  - intros H. exists (Some x). split; auto. now left.
Qed.

(** The sum of a column whose nulls count as zero: the sum of its values. *)
Lemma fold_left_masked (g : option R -> option R) (h : R -> R) l a :
  (forall x, g (Some x) = Some (h x)) ->
  fold_left (lift2 Rplus)
            (map (fun x => if fisnan x then fzero else g x) l) (Some a)
  = Some (a + sumR (map h (values l))).
Proof.
  intros Hg. revert a. induction l as [|[x|] r IH]; intros a.
  - simpl. f_equal. lra.
  - cbn [map fold_left fisnan reals]. rewrite Hg. cbn [lift2].
    rewrite IH. f_equal. simpl. lra.
  - cbn [map fold_left fisnan reals fzero lift2]. rewrite IH. f_equal.
    simpl. lra.
Qed.

Lemma exact_sum_masked (g : option R -> option R) (h : R -> R) l :
  (forall x, g (Some x) = Some (h x)) ->
  exact_sum (map (fun x => if fisnan x then fzero else g x) l)
  = Some (sumR (map h (values l))).
Proof.
  intros Hg. unfold exact_sum. rewrite (fold_left_masked g h l 0 Hg).
  f_equal. lra.
Qed.

Lemma exact_sum_zero_filled l :
  exact_sum (zero_filled l) = Some (sumR (values l)).
Proof.
  unfold zero_filled.
  rewrite (exact_sum_masked (fun x => x) (fun x => x)) by reflexivity.
  now rewrite map_id.
Qed.

Lemma exact_sum_zero_filled_map (g : option R -> option R) (h : R -> R) l :
  g None = None -> (forall x, g (Some x) = Some (h x)) ->
  exact_sum (zero_filled (map g l)) = Some (sumR (map h (values l))).
Proof.
  intros Hn Hg. unfold zero_filled. rewrite map_map.
  rewrite <- (exact_sum_masked g h l Hg). f_equal.
  apply map_ext. intros [x|]; [now rewrite Hg|now rewrite Hn].
Qed.

Lemma of_nat_INR n : of_nat n = Some (INR n).
Proof. unfold of_nat. simpl. now rewrite INR_IZR_INZ. Qed.

Lemma INR_length_pos {A : Type} (xs : list A) : xs <> [] -> 0 < INR (List.length xs).
Proof.
  intros H. destruct xs as [|x r]; [contradiction|].
  apply lt_0_INR. simpl. lia.
Qed.

Lemma fdiv_Some x y : y <> 0 -> fdiv (Some x) (Some y) = Some (x / y).
Proof. intros H. simpl. destruct (Req_dec_T y 0); [contradiction|reflexivity]. Qed.

Lemma length_values_zero l : values l = [] <-> (count l =? 0)%nat = true.
Proof.
  rewrite count_values, Nat.eqb_eq. split.
  - now intros ->.
  - now destruct (values l).
Qed.

(** [Series.mean] in exact arithmetic is the mean of the values. *)
Lemma mean_values l : values l <> [] -> mean l = Some (mean_R (values l)).
Proof.
  intros H. unfold mean.
  destruct (count l =? 0)%nat eqn:E.
  { apply length_values_zero in E. contradiction. }
  rewrite count_values, of_nat_INR.
  change (@pd_sum (option R) reals_sum) with exact_sum.
  rewrite exact_sum_zero_filled.
  apply fdiv_Some. pose proof (INR_length_pos _ H). lra.
Qed.

Lemma mean_None l : values l = [] -> mean l = None.
Proof.
  intros H. unfold mean. apply length_values_zero in H. now rewrite H.
Qed.

Lemma sumR_ext (f g : R -> R) xs :
  (forall x, f x = g x) -> sumR (map f xs) = sumR (map g xs).
Proof. intros H. f_equal. apply map_ext. exact H. Qed.

(** [Series.var(ddof)] in exact arithmetic is the variance of the values,
    for a column with more than [ddof] of them. *)
Lemma var_values ddof l :
  (ddof < List.length (values l))%nat ->
  var ddof l = Some (variance_R ddof (values l)).
Proof.
  intros H. unfold var. rewrite count_values.
  destruct (List.length (values l) <=? ddof)%nat eqn:E.
  { apply Nat.leb_le in E. lia. }
  assert (values l <> []) as Hne.
  { intros E0. rewrite E0 in H. simpl in H. lia. }
  pose proof (INR_length_pos _ Hne) as Hn.
  rewrite of_nat_INR.
  change (@pd_sum (option R) reals_sum) with exact_sum.
  rewrite exact_sum_zero_filled, fdiv_Some by lra.
  fold (mean_R (values l)).
  rewrite (exact_sum_masked
             (fun x => sq (fsub (Some (mean_R (values l))) x))
             (fun x => (mean_R (values l) - x) * (mean_R (values l) - x)))
    by reflexivity.
  replace (of_int (Z.of_nat (List.length (values l)) - Z.of_nat ddof))
    with (Some (INR (List.length (values l)) - INR ddof)).
  - rewrite fdiv_Some.
    + unfold variance_R. f_equal. f_equal. apply sumR_ext. intros x. ring.
    + apply lt_INR in H. lra.
  - simpl. now rewrite minus_IZR, !INR_IZR_INZ.
Qed.

Lemma var_None ddof l :
  (List.length (values l) <= ddof)%nat -> var ddof l = None.
Proof.
  intros H. unfold var. rewrite count_values.
  apply Nat.leb_le in H. now rewrite H.
Qed.

Lemma sumR_sq_nonneg m xs : 0 <= sumR (map (fun x => (x - m) * (x - m)) xs).
Proof.
  induction xs as [|x r IH]; simpl; [lra|].
  pose proof (Rle_0_sqr (x - m)) as H. unfold Rsqr in H. lra.
Qed.

Lemma variance_R_nonneg ddof xs :
  (ddof < List.length xs)%nat -> 0 <= variance_R ddof xs.
Proof.
  intros H. unfold variance_R. apply lt_INR in H.
  apply Rmult_le_pos; [apply sumR_sq_nonneg|].
  left. apply Rinv_0_lt_compat. lra.
Qed.

Lemma sumR_map_affine (m k : R) xs :
  sumR (map (fun x => (x - m) * k) xs)
  = (sumR xs - INR (List.length xs) * m) * k.
Proof.
  induction xs as [|x r IH].
  - simpl. lra.
  - change (List.length (x :: r)) with (S (List.length r)).
    rewrite S_INR. simpl. rewrite IH. lra.
Qed.

Lemma sumR_map_sq_scaled (m k : R) xs :
  sumR (map (fun y => (y - 0) * (y - 0)) (map (fun x => (x - m) * k) xs))
  = sumR (map (fun x => (x - m) * (x - m)) xs) * (k * k).
Proof.
  induction xs as [|x r IH]; simpl; [lra|]. rewrite IH. lra.
Qed.

(** The deviations from the mean add up to zero. *)
Lemma sumR_centred xs :
  xs <> [] -> sumR (map (fun x => x - mean_R xs) xs) = 0.
Proof.
  intros H. pose proof (INR_length_pos _ H) as Hn.
  replace (map (fun x => x - mean_R xs) xs)
    with (map (fun x => (x - mean_R xs) * 1) xs)
    by (apply map_ext; intros; ring).
  rewrite sumR_map_affine. unfold mean_R. field. lra.
Qed.

Lemma values_map (g : option R -> option R) (h : R -> R) l :
  g None = None -> (forall x, g (Some x) = Some (h x)) ->
  values (map g l) = map h (values l).
Proof.
  intros Hn Hs. unfold values. induction l as [|[x|] r IH]; simpl; auto.
  - rewrite Hs. simpl. now rewrite IH.
  - now rewrite Hn.
Qed.

Lemma fmin_Some a b : fmin (Some a) (Some b) = Some (rmin a b).
Proof. unfold fmin, rmin. simpl. now destruct (Rlt_dec b a). Qed.

Lemma fmax_Some a b : fmax (Some a) (Some b) = Some (rmax a b).
Proof. unfold fmax, rmax. simpl. now destruct (Rlt_dec a b). Qed.

Lemma fold_fmin_Some r a :
  fold_left fmin (map Some r) (Some a) = Some (fold_left rmin r a).
Proof.
  revert a. induction r as [|x r IH]; intros a; simpl; auto.
  now rewrite fmin_Some, IH.
Qed.

Lemma fold_fmax_Some r a :
  fold_left fmax (map Some r) (Some a) = Some (fold_left rmax r a).
Proof.
  revert a. induction r as [|x r IH]; intros a; simpl; auto.
  now rewrite fmax_Some, IH.
Qed.

Lemma fold_rmin_le r a :
  fold_left rmin r a <= a /\ forall x, In x r -> fold_left rmin r a <= x.
Proof.
  revert a. induction r as [|y r IH]; intros a; simpl.
  - split; [lra|tauto].
  - destruct (IH (rmin a y)) as [H1 H2].
    assert (rmin a y <= a /\ rmin a y <= y) as [Ha Hy].
    { unfold rmin. destruct (Rlt_dec y a); lra. }
    split; [lra|]. intros x [<-|Hx]; [lra|auto].
Qed.

Lemma fold_rmax_ge r a :
  a <= fold_left rmax r a /\ forall x, In x r -> x <= fold_left rmax r a.
Proof.
  revert a. induction r as [|y r IH]; intros a; simpl.
  - split; [lra|tauto].
  - destruct (IH (rmax a y)) as [H1 H2].
    assert (a <= rmax a y /\ y <= rmax a y) as [Ha Hy].
    { unfold rmax. destruct (Rlt_dec a y); lra. }
    split; [lra|]. intros x [<-|Hx]; [lra|auto].
Qed.

(** The extremes [MinMaxScaler] fits bracket every non-null entry. *)
Lemma nanmin_nanmax_bounds l :
  values l <> [] ->
  exists mn mx, nanmin l = Some mn /\ nanmax l = Some mx /\ mn <= mx
                /\ forall x, In (Some x) l -> mn <= x <= mx.
Proof.
  unfold nanmin, nanmax. rewrite dropna_values.
  destruct (values l) as [|x0 r] eqn:E; simpl; [congruence|].
  rewrite fold_fmin_Some, fold_fmax_Some. intros _.
  destruct (fold_rmin_le r x0) as [Hmn Hmn'].
  destruct (fold_rmax_ge r x0) as [Hmx Hmx'].
  exists (fold_left rmin r x0), (fold_left rmax r x0).
  repeat split; auto.
  - lra.
  - apply In_values in H. rewrite E in H. destruct H as [<-|H]; auto.
  - apply In_values in H. rewrite E in H. destruct H as [<-|H]; auto.
Qed.

Lemma eps64_pos : 0 < eps64.
Proof. unfold eps64. apply Rinv_0_lt_compat. lra. Qed.

Lemma ten_eps64_small : 10 * eps64 < 1.
Proof. unfold eps64. lra. Qed.

(** Min-max scaling in exact arithmetic maps every non-null entry of a
    column into [0,1]: a column whose range is at least ten machine
    epsilons is divided by its range, a column with a smaller range is only
    shifted, by its minimum. *)
Lemma minmax_unit_interval l y :
  In (Some y) (minmax_transform (minmax_fit l) l) -> 0 <= y <= 1.
Proof.
  intros Hy. unfold minmax_transform in Hy.
  apply in_map_iff in Hy as ([x|] & Hv & Hin); [|discriminate].
  assert (values l <> []) as Hne.
  { intros E. apply In_values in Hin. now rewrite E in Hin. }
  destruct (nanmin_nanmax_bounds l Hne) as (mn & mx & Hmn & Hmx & Hle & Hb).
  destruct (Hb x Hin) as [H1 H2].
  pose proof ten_eps64_small as Heps.
  unfold minmax_fit in Hv. rewrite Hmn, Hmx in Hv.
  unfold handle_zeros_in_scale in Hv. simpl in Hv.
  destruct (Rlt_dec (mx - mn) (10 * eps64)) as [Hsmall|Hbig]; simpl in Hv.
  - destruct (Req_dec_T 1 0) as [e|_]; [lra|]. simpl in Hv.
    injection Hv as <-. split; nra.
  - destruct (Req_dec_T (mx - mn) 0) as [e|n].
    { pose proof eps64_pos. lra. }
    simpl in Hv. injection Hv as <-.
    assert (0 < mx - mn) as Hpos by lra.
    assert ((1 - 0) / (mx - mn) * (mx - mn) = 1) as Hk by (field; lra).
    set (k := (1 - 0) / (mx - mn)) in *.
    assert (0 < k).
    { unfold k. apply Rdiv_lt_0_compat; lra. }
    split; nra.
Qed.

(** What [StandardScaler.fit] computes in exact arithmetic: the mean of
    the values, and the square root of their population variance unless
    the column counts as constant, when the scale is 1. *)
Lemma standard_fit_values l :
  values l <> [] ->
  exists scale,
    standard_fit l = (Some (mean_R (values l)), Some scale)
    /\ (near_constant (values l) -> scale = 1)
    /\ (~ near_constant (values l) ->
        scale = std_R 0 (values l) /\ 0 < variance_R 0 (values l)).
Proof.
  intros Hne. pose proof (INR_length_pos _ Hne) as Hn.
  assert (0 < List.length (values l))%nat as Hlen.
  { destruct (values l); [contradiction|simpl; lia]. }
  pose proof (variance_R_nonneg 0 (values l) Hlen) as Hv0.
  unfold standard_fit. rewrite count_values, of_nat_INR.
  change (@sk_sum (option R) reals_sum) with exact_sum.
  rewrite exact_sum_zero_filled.
  cbn [fzero reals fadd lift2].
  rewrite !fdiv_Some by lra.
  replace ((0 + sumR (values l)) / INR (List.length (values l)))
    with (mean_R (values l)) by (unfold mean_R; field; lra).
  fold (mean_R (values l)).
  set (m := mean_R (values l)) in *.
  rewrite (exact_sum_zero_filled_map
             (fun x => fsub x (Some m)) (fun x => x - m)) by reflexivity.
  rewrite map_map.
  rewrite (exact_sum_zero_filled_map
             (fun x => sq (fsub x (Some m))) (fun x => (x - m) * (x - m)))
    by reflexivity.
  assert (sumR (map (fun x => x - m) (values l)) = 0) as Hc0
    by exact (sumR_centred _ Hne).
  rewrite Hc0.
  cbn [sq fmul fsub reals lift2]. rewrite !fdiv_Some by lra.
  cbn [lift2].
  replace ((sumR (map (fun x => (x - m) * (x - m)) (values l))
            - 0 * 0 / INR (List.length (values l)))
           / INR (List.length (values l)))
    with (variance_R 0 (values l))
    by (unfold variance_R; fold m; simpl INR; field; lra).
  set (v := variance_R 0 (values l)) in *.
  unfold is_constant_feature. rewrite of_nat_INR.
  cbn [sq fmul fadd fleb feps reals lift2].
  unfold near_constant. cbn zeta. fold m v.
  destruct (Rle_dec v _) as [Hc|Hc].
  - exists 1. split; [reflexivity|]. split; [reflexivity|].
    intros Hn'. contradiction.
  - exists (sqrt v). split.
    + cbn [fsqrt reals]. destruct (Rle_dec 0 v); [reflexivity|lra].
    + split; [intros Hc'; contradiction|]. intros _. split; [reflexivity|].
      destruct (Req_dec_T v 0) as [e|n]; [|lra].
      exfalso. apply Hc. rewrite e.
      pose proof (Rle_0_sqr (INR (List.length (values l)) * m * eps64)) as Hs.
      unfold Rsqr in Hs. lra.
Qed.

Lemma standard_transform_values m sd l :
  sd <> 0 ->
  values (standard_transform (Some m, Some sd) l)
  = map (fun x => (x - m) * / sd) (values l).
Proof.
  intros Hsd. unfold standard_transform. apply values_map; auto.
  intros x. simpl. destruct (Req_dec_T sd 0); [contradiction|reflexivity].
Qed.

Lemma mean_R_zero xs : sumR xs = 0 -> mean_R xs = 0.
Proof. intros H. unfold mean_R. rewrite H. unfold Rdiv. ring. Qed.

(** Standard scaling in exact arithmetic.  The scaled column has mean 0.
    Its population standard deviation is 1 unless the column counted as
    constant; then it was only centred, and its variance is unchanged. *)
Lemma standard_mean_std l :
  values l <> [] ->
  let l' := standard_transform (standard_fit l) l in
  List.length (values l') = List.length (values l)
  /\ mean_R (values l') = 0
  /\ (~ near_constant (values l) -> std_R 0 (values l') = 1)
  /\ (near_constant (values l) ->
      values l' = map (fun x => x - mean_R (values l)) (values l)
      /\ variance_R 0 (values l') = variance_R 0 (values l)).
Proof.
  intros Hne l'. pose proof (INR_length_pos _ Hne) as Hn.
  destruct (standard_fit_values l Hne) as (sd & Hfit & Hc & Hnc).
  set (m := mean_R (values l)) in *.
  set (v := variance_R 0 (values l)) in *.
  assert (0 < sd) as Hsd.
  { destruct (Rle_dec v (INR (List.length (values l)) * eps64 * v
                         + INR (List.length (values l)) * m * eps64
                           * (INR (List.length (values l)) * m * eps64)))
      as [H|H].
    - rewrite (Hc H). lra.
    - destruct (Hnc H) as [-> Hv]. now apply sqrt_lt_R0. }
  assert (values l' = map (fun x => (x - m) * / sd) (values l)) as Hvals.
  { unfold l'. rewrite Hfit. apply standard_transform_values. lra. }
  assert (List.length (values l') = List.length (values l)) as Hlen.
  { now rewrite Hvals, length_map. }
  assert (sumR (values l') = 0) as Hsum.
  { rewrite Hvals, sumR_map_affine. unfold m, mean_R. field. lra. }
  assert (mean_R (values l') = 0) as Hm' by now apply mean_R_zero.
  assert (variance_R 0 (values l') = v * (/ sd * / sd)) as Hvar.
  { unfold variance_R at 1. rewrite Hm', Hlen.
    rewrite Hvals at 1. rewrite sumR_map_sq_scaled.
    unfold v, variance_R. fold m. simpl INR. field. lra. }
  split; [exact Hlen|]. split; [exact Hm'|]. split.
  - intros H. destruct (Hnc H) as [Esd Hv]. unfold std_R. rewrite Hvar.
    replace (v * (/ sd * / sd)) with 1; [apply sqrt_1|].
    assert (sd * sd = v) as <-.
    { rewrite Esd. apply sqrt_sqrt. lra. }
    field. lra.
  - intros H. rewrite (Hc H) in *. split.
    + rewrite Hvals. apply map_ext. intros x. field.
    + rewrite Hvar. field.
Qed.

Lemma sumR_sq_zero m xs :
  sumR (map (fun x => (x - m) * (x - m)) xs) = 0 -> forall x, In x xs -> x = m.
Proof.
  induction xs as [|y r IH]; simpl; [tauto|]. intros H x Hx.
  pose proof (sumR_sq_nonneg m r) as Hr.
  pose proof (Rle_0_sqr (y - m)) as Hy. unfold Rsqr in Hy.
  destruct Hx as [<-|Hx].
  - assert ((y - m) * (y - m) = 0) as H0 by lra.
    apply Rmult_integral in H0. lra.
  - apply IH; auto. lra.
Qed.

(** A column without spread is constant, and counts as constant. *)
Lemma variance_R_zero xs :
  xs <> [] -> variance_R 0 xs = 0 ->
  near_constant xs /\ forall x, In x xs -> x = mean_R xs.
Proof.
  intros Hne Hv. split.
  - unfold near_constant. cbn zeta. rewrite Hv.
    pose proof (Rle_0_sqr (INR (List.length xs) * mean_R xs * eps64)) as H.
    unfold Rsqr in H. lra.
  - apply sumR_sq_zero. pose proof (INR_length_pos _ Hne) as Hn.
    unfold variance_R in Hv. simpl INR in Hv.
    unfold Rdiv in Hv. apply Rmult_integral in Hv as [H|H]; auto.
    assert (/ (INR (List.length xs) - 0) <> 0); [|contradiction].
    apply Rinv_neq_0_compat. lra.
Qed.

(** A column of reals: when the z-score of an entry exceeds a threshold.
    The entry must not be null, the column must hold two values at least
    (the sample standard deviation of fewer is null) and they must not all
    be equal (a division by zero is null). *)
Lemma z_score_exceeds l i tr :
  fltb (Some tr) (z_score l i) = true
  <-> exists x, nth i l None = Some x
                /\ (1 < List.length (values l))%nat
                /\ variance_R 1 (values l) <> 0
                /\ tr < z_score_R (values l) x.
Proof.
  unfold z_score. change (@fnan (option R) reals) with (@None R).
  destruct (nth i l None) as [x|] eqn:Ex.
  - destruct (le_lt_dec (List.length (values l)) 1) as [Hle|Hlt].
    + unfold std. rewrite (var_None 1 l Hle).
      split.
      * simpl. destruct (mean l); discriminate.
      * intros (x' & _ & H & _). lia.
    + assert (values l <> []) as Hne.
      { intros E. rewrite E in Hlt. simpl in Hlt. lia. }
      unfold std. rewrite (mean_values l Hne), (var_values 1 l Hlt).
      pose proof (variance_R_nonneg 1 (values l) Hlt) as Hv.
      unfold z_score_R, std_R.
      set (v := variance_R 1 (values l)) in *.
      set (m := mean_R (values l)) in *.
      cbn [fsqrt fsub fdiv fabs fltb reals lift2 option_map].
      destruct (Rle_dec 0 v) as [_|n]; [|contradiction].
      destruct (Req_dec_T (sqrt v) 0) as [e|n].
      * split; [discriminate|]. intros (x' & _ & _ & Hv0 & _).
        apply sqrt_eq_0 in e; auto.
      * cbn [option_map].
        destruct (Rlt_dec tr (Rabs ((x - m) / sqrt v))) as [Hlt'|Hge].
        -- split; [|reflexivity]. intros _. exists x.
           repeat split; auto.
           intros E. apply n. rewrite E. apply sqrt_0.
        -- split; [discriminate|]. intros (x' & [= <-] & _ & _ & H).
           contradiction.
  - split.
    + simpl. discriminate.
    + intros (x & Hx & _). discriminate.
Qed.

End Exact.

(** ** Validation: the orchestrator's and the loader's *)

Section Validation.

Context {F : Type} {NF : Number F} {SUM : Summation F} {LIB : Library F}.

Implicit Types (df : DataFrame F) (s : Series F) (c : string).

Lemma nonempty_true {A : Type} (l : list A) : nonempty l = true <-> l <> [].
Proof. destruct l; simpl; split; intros H; auto; try discriminate; congruence. Qed.

Lemma nonempty_false {A : Type} (l : list A) : nonempty l = false <-> l = [].
Proof. destruct l; simpl; split; intros H; auto; discriminate. Qed.

Lemma validate_schema_missing SCHEMAS df stage schema :
  lookup stage SCHEMAS = Some schema -> missing_columns schema df <> [] ->
  pipelines_validate_schema SCHEMAS df stage
  = Err (MissingColumns stage (missing_columns schema df)).
Proof.
  intros Hl Hm. unfold pipelines_validate_schema. rewrite Hl.
  fold (missing_columns schema df).
  apply nonempty_true in Hm. now rewrite Hm.
Qed.

Lemma validate_schema_empty SCHEMAS df stage schema :
  lookup stage SCHEMAS = Some schema -> missing_columns schema df = [] ->
  empty_columns df <> [] ->
  pipelines_validate_schema SCHEMAS df stage
  = Err (EmptyColumns stage (empty_columns df)).
Proof.
  intros Hl Hm He. unfold pipelines_validate_schema. rewrite Hl.
  fold (missing_columns schema df). rewrite Hm. simpl.
  apply nonempty_true in He. now rewrite He.
Qed.

Lemma validate_schema_timestamp SCHEMAS df stage schema s :
  lookup stage SCHEMAS = Some schema -> missing_columns schema df = [] ->
  empty_columns df = [] ->
  get_col "timestamp" df = Some s -> to_datetime_strict s = None ->
  pipelines_validate_schema SCHEMAS df stage = Err (TimestampParseError stage).
Proof.
  intros Hl Hm He Hs Ht. unfold pipelines_validate_schema. rewrite Hl.
  fold (missing_columns schema df). rewrite Hm, He. simpl.
  assert (has_col "timestamp" df = true) as -> by (apply has_col_true; eauto).
  unfold getitem. rewrite Hs. simpl. now rewrite Ht.
Qed.

Lemma preprocess_single_fails SCHEMAS df stage m e :
  pipelines_validate_schema SCHEMAS df stage = Err e ->
  preprocess_single SCHEMAS df stage m = Err e.
Proof. intros H. unfold preprocess_single. now rewrite H. Qed.

Lemma preprocess_single_passes SCHEMAS df stage m b :
  pipelines_validate_schema SCHEMAS df stage = Ok b ->
  preprocess_single SCHEMAS df stage m = preprocess_transforms df m.
Proof. intros H. unfold preprocess_single. now rewrite H. Qed.

Lemma get_preprocessed_data_file_raises df m :
  is_ok (get_preprocessed_data_file df m) = false.
Proof.
  unfold get_preprocessed_data_file.
  destruct (add_time_features df "timestamp") as [d1|]; simpl; auto.
  destruct (normalize_features d1 m) as [r|]; simpl; auto.
Qed.

(** The loader is the lenient one: whatever [validate_schema] answers, the
    table goes into [datasets] unchanged; a failure only adds a warning. *)
Lemma load_stage_files_lenient schema_mapping stage df rest datasets log schema r :
  lookup stage schema_mapping = Some schema ->
  loaders_validate_schema df schema = Ok r ->
  load_stage_files schema_mapping ((stage, df) :: rest) datasets log
  = load_stage_files schema_mapping rest (update stage df datasets)
      (if fst r then log
       else (log ++ [WarnValidationFailed stage (snd r)])%list).
Proof. intros Hl Hv. simpl. now rewrite Hl, Hv. Qed.

Lemma validate_no_timestamp df schema fs :
  fields schema = Some fs -> has_col "timestamp" df = false ->
  validate df schema =
    Ok (false,
        if nonempty (missing_from (map field_name fs) df)
        then MsgMissingColumns (missing_from (map field_name fs) df)
        else if nonempty (empty_columns df)
             then MsgEmptyColumns (empty_columns df)
             else MsgTimestampParseError).
Proof.
  intros Hf Ht. unfold validate. rewrite Hf.
  destruct (nonempty (missing_from _ df)); auto.
  destruct (nonempty (empty_columns df)); auto.
  apply has_col_false in Ht. unfold getitem. now rewrite Ht.
Qed.

End Validation.

(** ** float64 has a single NaN *)

Lemma SFcompare_refl s : s <> S754_nan -> SFcompare s s = Some Eq.
Proof.
  destruct s as [sg|sg| |sg m e]; simpl; try congruence; intros _.
  - now destruct sg.
  - destruct sg; rewrite Z.compare_refl;
      change (Pos.compare_cont Eq m m) with (Pos.compare m m);
      now rewrite Pos.compare_refl.
Qed.

Lemma is_nan_Prim2SF x : PrimFloat.is_nan x = true <-> Prim2SF x = S754_nan.
Proof.
  unfold PrimFloat.is_nan. rewrite eqb_spec. unfold SFeqb. split.
  - intros H. destruct (Prim2SF x) eqn:E; auto;
      rewrite SFcompare_refl in H by congruence; discriminate.
  - intros ->. reflexivity.
Qed.

Lemma is_nan_eq x : PrimFloat.is_nan x = true -> x = PrimFloat.nan.
Proof.
  intros H. apply is_nan_Prim2SF in H.
  rewrite <- (SF2Prim_Prim2SF x), H. reflexivity.
Qed.

Lemma fillna_nan (l : list float) : fillna PrimFloat.nan l = l.
Proof.
  induction l as [|x r IH]; [reflexivity|].
  change (fillna PrimFloat.nan (x :: r))
    with ((if PrimFloat.is_nan x then PrimFloat.nan else x)
          :: fillna PrimFloat.nan r).
  rewrite IH. destruct (PrimFloat.is_nan x) eqn:E; auto.
  now rewrite (is_nan_eq x E).
Qed.

(** * The specification's claims *)

(** ** C1 *)

Section ClaimC1.

Import Reference Examples.

(** C1, as the specification states it, fails on the code: with a
    schema-declared column missing, [preprocess_single] raises the
    validation error, while the two transform steps on their own succeed
    on the same table. *)
Lemma preprocess_single_aborts_on_missing_column :
  pipelines_validate_schema registry readings_without_b stage1
    = Err (MissingColumns stage1 ["b"])
  /\ preprocess_single registry readings_without_b stage1 "minmax"
    = Err (MissingColumns stage1 ["b"])
  /\ is_ok (preprocess_transforms readings_without_b "minmax") = true.
Proof. repeat split; vm_compute; reflexivity. Qed.

(** C1 (amended): in [preprocess_single] a validation failure is fatal.
    Whatever error [validate_schema] raises (unknown stage, missing
    schema-declared columns, an entirely empty column, an unparseable
    timestamp) is the result of [preprocess_single], and no transform is
    applied; the transforms run exactly when validation passes. *)
Theorem preprocess_single_validation_fatal
    {F : Type} {NF : Number F} {SUM : Summation F} {LIB : Library F}
    (SCHEMAS : list (string * Schema)) (df : DataFrame F) (stage m : string) :
  (forall e, pipelines_validate_schema SCHEMAS df stage = Err e ->
             preprocess_single SCHEMAS df stage m = Err e)
  /\ (forall b, pipelines_validate_schema SCHEMAS df stage = Ok b ->
                preprocess_single SCHEMAS df stage m = preprocess_transforms df m)
  /\ (lookup stage SCHEMAS = None ->
      preprocess_single SCHEMAS df stage m = Err (SchemaNotFound stage))
  /\ (forall schema, lookup stage SCHEMAS = Some schema ->
        (missing_columns schema df <> [] ->
         preprocess_single SCHEMAS df stage m
         = Err (MissingColumns stage (missing_columns schema df)))
        /\ (missing_columns schema df = [] -> empty_columns df <> [] ->
            preprocess_single SCHEMAS df stage m
            = Err (EmptyColumns stage (empty_columns df)))
        /\ (forall s, missing_columns schema df = [] -> empty_columns df = [] ->
              get_col "timestamp" df = Some s -> to_datetime_strict s = None ->
              preprocess_single SCHEMAS df stage m
              = Err (TimestampParseError stage))).
Proof.
  split; [|split; [|split]].
  - intros e. apply preprocess_single_fails.
  - intros b. apply preprocess_single_passes.
  - intros Hl. apply preprocess_single_fails.
    unfold pipelines_validate_schema. now rewrite Hl.
  - intros schema Hl. split; [|split].
    + intros Hm. apply preprocess_single_fails.
      now apply validate_schema_missing.
    + intros Hm He. apply preprocess_single_fails.
      eapply validate_schema_empty; eauto.
    + intros s Hm He Hs Ht. apply preprocess_single_fails.
      eapply validate_schema_timestamp; eauto.
Qed.

Lemma preprocess_single_validation_fatal_witness :
  preprocess_single registry readings_without_b stage1 "minmax"
    = Err (MissingColumns stage1 ["b"])
  /\ preprocess_single registry readings stage1 "minmax"
    = preprocess_transforms readings "minmax".
Proof.
  pose proof (preprocess_single_validation_fatal
                registry readings_without_b stage1 "minmax") as (H1 & _).
  pose proof (preprocess_single_validation_fatal
                registry readings stage1 "minmax") as (_ & H2 & _).
  split.
  - apply H1. vm_compute. reflexivity.
  - apply (H2 true). vm_compute. reflexivity.
Defined.

End ClaimC1.

(** ** C9 *)

Section ClaimC9.

Import Reference Examples.

(** C9, as stated, fails on the code: the table has no [timestamp] column,
    the schema does not declare one, and the one declared field is present
    and non-empty; yet the answer is the empty-columns message, because
    the emptiness check runs over every column of the table, declared or
    not, before the timestamp is looked at. *)
Lemma validate_reports_undeclared_empty_column :
  has_col "timestamp" no_timestamp_junk = false
  /\ fields schema_a = Some [mkField "a" "float"]
  /\ get_col "a" no_timestamp_junk = Some (FloatS [1%float])
  /\ dropna_empty (FloatS [1%float]) = false
  /\ validate no_timestamp_junk schema_a = Ok (false, MsgEmptyColumns ["junk"])
  /\ validate no_timestamp_junk schema_a <> Ok (false, MsgTimestampParseError).
Proof. repeat split; try (vm_compute; reflexivity). vm_compute. discriminate. Qed.

(** C9 (amended): a table without a [timestamp] column never validates as
    (true, "OK").  [validate] answers (false, "Missing columns: ...") when a
    declared field is absent, else (false, "Empty columns: ...") when any
    column of the table is entirely null, and (false, "Timestamp parse
    error") in every remaining case, whether or not the schema declares a
    timestamp. *)
Theorem validate_without_timestamp
    {F : Type} {NF : Number F} {LIB : Library F}
    (df : DataFrame F) (schema : Schema) (fs : list Field) :
  fields schema = Some fs ->
  has_col "timestamp" df = false ->
  (exists msg, validate df schema = Ok (false, msg))
  /\ validate df schema <> Ok (true, MsgOK)
  /\ (missing_from (map field_name fs) df <> [] ->
      validate df schema
      = Ok (false, MsgMissingColumns (missing_from (map field_name fs) df)))
  /\ (missing_from (map field_name fs) df = [] -> empty_columns df <> [] ->
      validate df schema = Ok (false, MsgEmptyColumns (empty_columns df)))
  /\ (missing_from (map field_name fs) df = [] -> empty_columns df = [] ->
      validate df schema = Ok (false, MsgTimestampParseError)).
Proof.
  intros Hf Ht. rewrite (validate_no_timestamp df schema fs Hf Ht).
  repeat split.
  - eauto.
  - discriminate.
  - intros Hm. apply nonempty_true in Hm. now rewrite Hm.
  - intros Hm He. apply nonempty_true in He. now rewrite Hm, He.
  - intros Hm He. now rewrite Hm, He.
Qed.

Lemma validate_without_timestamp_witness :
  validate no_timestamp schema_a = Ok (false, MsgTimestampParseError).
Proof.
  refine (proj2 (proj2 (proj2 (proj2
    (validate_without_timestamp no_timestamp schema_a [mkField "a" "float"]
       eq_refl eq_refl)))) _ _); reflexivity.
Defined.

End ClaimC9.

(** ** C6 *)

Section ClaimC6.

Import Reference Examples.

(** C6, as stated, fails on the code in its last part: with a numeric
    column and a supported method the call can still fail, because the
    scaler checks its input.  A table without rows and a table holding an
    infinity are both refused. *)
Lemma normalize_features_refused_by_scaler :
  numeric_cols no_rows <> [] /\ numeric_cols with_infinity <> []
  /\ normalize_features no_rows "minmax" = Err EstimatorNoSamples
  /\ normalize_features no_rows "standard" = Err EstimatorNoSamples
  /\ normalize_features with_infinity "minmax" = Err EstimatorNonFinite
  /\ normalize_features with_infinity "standard" = Err EstimatorNonFinite.
Proof. repeat split; try discriminate; vm_compute; reflexivity. Qed.

(** C6 (amended): [normalize_features] fails with NoNumericColumns exactly
    when the table has no numeric column, whatever the method; given a
    numeric column it fails with UnsupportedMethod exactly when the method
    is neither "minmax" nor "standard"; given a numeric column and a
    supported method it succeeds, returning the scaled table together with
    the fitted scaler, exactly when the table has at least one row and
    every numeric entry is finite or null, and otherwise the scaler's
    input check raises. *)
Theorem normalize_features_outcome
    {F : Type} {NF : Number F} {SUM : Summation F} {LIB : Library F}
    (df : DataFrame F) (m : string) :
  (normalize_features df m = Err NoNumericColumns <-> numeric_cols df = [])
  /\ (numeric_cols df <> [] ->
      (normalize_features df m = Err UnsupportedMethod <-> ~ supported m))
  /\ (numeric_cols df <> [] -> supported m ->
      ((exists df' sc, normalize_features df m = Ok (df', sc))
       <-> nrows df <> 0%nat /\ finite_block df = true)
      /\ (nrows df = 0%nat -> normalize_features df m = Err EstimatorNoSamples)
      /\ (nrows df <> 0%nat -> finite_block df = false ->
          normalize_features df m = Err EstimatorNonFinite))
  /\ (forall df' sc, normalize_features df m = Ok (df', sc) ->
      exists est, (m = "minmax" /\ est = MinMax \/ m = "standard" /\ est = Standard)
        /\ df' = map_columns (scale_column (fit est) (transform est)) df
        /\ sc = fitted est (map (fit est) (numeric_block df))).
Proof.
  split; [|split; [|split]].
  - split; [|apply normalize_features_no_numeric].
    intros H. destruct (numeric_cols df) eqn:E; auto. exfalso.
    rewrite normalize_features_numeric in H by (rewrite E; discriminate).
    revert H.
    destruct (supported_dec m) as [[-> _]|[(-> & -> & _)|(-> & -> & _)]];
      simpl; try discriminate;
      destruct (check_array (nrows df) (numeric_block df)) as [[]|e] eqn:Ec;
      simpl; try discriminate;
      apply check_array_Err in Ec as [[-> _]|(-> & _ & _)]; discriminate.
  - intros Hn. rewrite (normalize_features_numeric _ _ Hn).
    destruct (supported_dec m) as [[-> Hm]|[(-> & -> & Hm)|(-> & -> & Hm)]];
      simpl.
    + split; [|intros H; exfalso; apply H; now left].
      destruct (check_array (nrows df) (numeric_block df)) as [[]|e] eqn:Ec;
        simpl; try discriminate.
      apply check_array_Err in Ec as [[-> _]|(-> & _ & _)]; discriminate.
    + split; [|intros H; exfalso; apply H; now right].
      destruct (check_array (nrows df) (numeric_block df)) as [[]|e] eqn:Ec;
        simpl; try discriminate.
      apply check_array_Err in Ec as [[-> _]|(-> & _ & _)]; discriminate.
    + tauto.
  - intros Hn Hs. rewrite (normalize_features_numeric _ _ Hn).
    assert (exists est,
              (if String.eqb m "minmax" then Ok MinMax
               else if String.eqb m "standard" then Ok Standard
               else Err UnsupportedMethod) = Ok est) as [est ->].
    { destruct Hs as [-> | ->]; simpl; eauto. }
    simpl. pose proof (check_array_Ok df) as Hok.
    destruct (check_array (nrows df) (numeric_block df)) as [[]|e] eqn:Ec; simpl.
    + destruct Hok as [Hok _]. destruct (Hok eq_refl) as [H1 H2].
      split; [|split].
      * split; eauto.
      * intros H0. contradiction.
      * intros _ H0. rewrite H0 in H2. discriminate.
    + clear Hok. apply check_array_Err in Ec as [[-> Hz]|(-> & Hnz & Hf)].
      * split; [|split].
        -- split; [intros (df' & sc & H0); discriminate|].
           intros [H0 _]. contradiction.
        -- reflexivity.
        -- intros H0. contradiction.
      * split; [|split].
        -- split; [intros (df' & sc & H0); discriminate|].
           intros [_ H0]. rewrite H0 in Hf. discriminate.
        -- intros H0. contradiction.
        -- reflexivity.
  - intros df' sc H. apply normalize_features_Ok in H as (est & H1 & H2 & H3 & _).
    eauto.
Qed.

Lemma normalize_features_outcome_witness :
  (exists df' sc, normalize_features readings "minmax" = Ok (df', sc))
  /\ normalize_features readings "robust" = Err UnsupportedMethod
  /\ normalize_features no_rows "minmax" = Err EstimatorNoSamples.
Proof.
  pose proof (normalize_features_outcome readings "minmax") as (_ & _ & H1 & _).
  pose proof (normalize_features_outcome readings "robust") as (_ & H2 & _).
  pose proof (normalize_features_outcome no_rows "minmax") as (_ & _ & H3 & _).
  split; [|split].
  - apply H1; [discriminate|now left|]. split; [discriminate|reflexivity].
  - apply H2; [discriminate|]. intros [H|H]; discriminate.
  - apply H3; [discriminate|now left|reflexivity].
Defined.

End ClaimC6.

(** ** C2 *)

Section ClaimC2.

Import Reference Examples.

(** C2, as stated, fails on the code in its first part: the mean (and the
    median) of an entirely null column is itself null, so filling with it
    changes nothing and the column keeps its nulls. *)
Lemma fill_missing_values_keeps_all_null_column :
  fill_missing_values silent_sensor "mean"
    = Ok (mkDF 2 [("label", ObjS [Some "x"; None]);
                  ("a", FloatS [nan; nan]%float);
                  ("b", FloatS [4; 4]%float);
                  ("n", IntS [7; 8]%Z)])
  /\ (exists df', fill_missing_values silent_sensor "median" = Ok df'
                  /\ get_col "a" df' = Some (FloatS [nan; nan]%float))
  /\ is_numeric (FloatS [nan; nan]%float) = true
  /\ has_null (FloatS [nan; nan]%float) = true.
Proof.
  repeat split; try (vm_compute; reflexivity).
  eexists. split; vm_compute; reflexivity.
Qed.

(** The mean that fills a gap is the one NumPy's order of addition gives:
    nine readings of 0.1 and a null are filled with 0.1 (adding the nine
    from left to right would give a mean one unit in the last place below
    it). *)
Lemma fill_missing_values_mean_of_tenths :
  fill_missing_values tenths "mean"
  = Ok (mkDF 10 [("a", FloatS (repeat tenth 10))])
  /\ PrimFloat.div (fold_left PrimFloat.add (repeat tenth 9) 0%float) 9
     = below_tenth.
Proof. split; vm_compute; reflexivity. Qed.

(** C2 (amended): for every table and every strategy in mean, median, zero,
    [fill_missing_values] returns a table with the same columns in which
    every non-numeric column is unchanged, every int64 column (which holds
    no null) is unchanged, and every float64 column has its nulls replaced
    by that column's own statistic.  Such a column is free of nulls
    whenever that statistic is not itself null.  The statistic of zero
    never is.  For mean and median, the statistic of a column without any
    non-null value is null, and that column comes back as it was, entirely
    null.  This holds in float64 whatever the order in which a sum is
    taken; in exact arithmetic the mean of a column is the sum of its
    non-null values over their number. *)
Theorem fill_missing_values_spec
    {SUM : Summation float} (df : DataFrame float) (m : string) :
  In m ["mean"; "median"; "zero"] ->
  exists df',
    fill_missing_values df m = Ok df'
    /\ nrows df' = nrows df
    /\ column_names df' = column_names df
    /\ (forall c s, get_col c df = Some s -> is_numeric s = false ->
                    get_col c df' = Some s)
    /\ (forall c l, get_col c df = Some (IntS l) ->
                    get_col c df' = Some (IntS l) /\ has_null (IntS l) = false)
    /\ (forall c l, get_col c df = Some (FloatS l) ->
          get_col c df' = Some (FloatS (fillna (fill_statistic m l) l))
          /\ (fisnan (fill_statistic m l) = false ->
              has_null (FloatS (fillna (fill_statistic m l) l)) = false))
    /\ (m = "zero" -> forall c s, get_col c df' = Some s ->
                      is_numeric s = true -> has_null s = false)
    /\ (m <> "zero" -> forall c l, get_col c df = Some (FloatS l) ->
          forallb fisnan l = true ->
          fisnan (fill_statistic m l) = true
          /\ get_col c df' = Some (FloatS l))
    /\ (forall l : list (option R), values l <> [] ->
          fill_statistic "mean" l = Some (mean_R (values l))).
Proof.
  intros Hm. exists (map_columns (fill_column (fill_statistic m)) df).
  split; [now apply fill_missing_values_supported|].
  split; [reflexivity|].
  split; [apply column_names_map_columns|].
  split; [|split; [|split; [|split; [|split]]]].
  - intros c s Hs Hn. rewrite get_col_map_columns, Hs. simpl.
    destruct s; simpl in *; auto; discriminate.
  - intros c l Hs. rewrite get_col_map_columns, Hs. simpl.
    split; [reflexivity|apply has_null_IntS].
  - intros c l Hs. rewrite get_col_map_columns, Hs. simpl.
    split; [reflexivity|]. intros Hv. now apply fillna_no_null.
  - intros -> c s Hs Hn. rewrite get_col_map_columns in Hs.
    destruct (get_col c df) as [s0|]; simpl in Hs; [|discriminate].
    injection Hs as <-. destruct s0; simpl in *; try discriminate.
    + now apply fillna_no_null.
    + apply has_null_IntS.
  - intros Hz c l Hs Hl.
    assert (In m ["mean"; "median"]) as Hm'.
    { simpl in *. intuition congruence. }
    rewrite get_col_map_columns, Hs. simpl.
    rewrite (fill_statistic_all_null m l Hm' Hl).
    split; [reflexivity|]. f_equal. f_equal. apply fillna_nan.
  - intros l Hl. exact (Exact.mean_values l Hl).
Qed.

Lemma fill_missing_values_spec_witness :
  exists df',
    fill_missing_values silent_sensor "zero" = Ok df'
    /\ get_col "a" df' = Some (FloatS [0; 0]%float)
    /\ get_col "b" df' = Some (FloatS [4; 0]%float)
    /\ get_col "label" df' = Some (ObjS [Some "x"; None]).
Proof.
  destruct (fill_missing_values_spec silent_sensor "zero")
    as (df' & H & _ & _ & Hobj & _ & Hfl & _).
  { simpl. auto. }
  exists df'. split; [exact H|]. split; [|split].
  - exact (proj1 (Hfl "a" [nan; nan]%float eq_refl)).
  - exact (proj1 (Hfl "b" [4; nan]%float eq_refl)).
  - exact (Hobj "label" (ObjS [Some "x"; None]) eq_refl eq_refl).
Defined.

End ClaimC2.

(** ** C3 *)

Section ClaimC3.

Import Reference Examples.

(** Equal readings have no spread: nine readings of 0.1 and a null have
    mean 0.1 and standard deviation 0 in NumPy's order of addition, every
    z-score is 0/0, and no row is flagged, whatever the threshold. *)
Lemma detect_anomalies_equal_readings :
  mean (repeat tenth 9 ++ [nan]%float)%list = tenth
  /\ std (repeat tenth 9 ++ [nan]%float)%list = 0%float
  /\ get_col "is_anomaly" (detect_anomalies tenths 0.5%float)
     = Some (BoolS (repeat false 10)).
Proof. repeat split; vm_compute; reflexivity. Qed.

(** C3: [detect_anomalies] returns the input table with the boolean column
    [is_anomaly] set and every other column as it was; row [i] is flagged
    exactly when some numeric column [l] of the input has
    [|(l[i] - mean l) / std l| > t], mean and std taken over that column of
    the input; without numeric columns every row is marked false.

    The first part says this of the computation as the code runs it, in
    any arithmetic and for any order of addition.  The second part reads
    it in exact arithmetic, against the mean and the sample standard
    deviation as they are defined in the textbook: row [i] is flagged
    exactly when some numeric column has a value [x] in that row, holds two
    values at least, not all equal, and [|(x - mean) / std| > t]. *)
Theorem detect_anomalies_spec :
  (forall {F : Type} {NF : Number F} {SUM : Summation F}
          (df : DataFrame F) (t : F),
     WF df ->
     exists flags,
       get_col "is_anomaly" (detect_anomalies df t) = Some (BoolS flags)
       /\ List.length flags = nrows df
       /\ nrows (detect_anomalies df t) = nrows df
       /\ (forall c, c <> "is_anomaly" ->
                     get_col c (detect_anomalies df t) = get_col c df)
       /\ (forall i, (i < nrows df)%nat ->
             (nth i flags false = true <->
              exists c s l, In (c, s) (columns df) /\ float_values s = Some l
                            /\ fltb t (z_score l i) = true))
       /\ (numeric_cols df = [] -> flags = repeat false (nrows df)))
  /\ (forall (df : DataFrame (option R)) (t : R) (i : nat),
        WF df -> (i < nrows df)%nat ->
        (cell "is_anomaly" i (detect_anomalies df (Some t)) = Some (CBool true)
         <-> exists c s l x,
               In (c, s) (columns df) /\ float_values s = Some l
               /\ nth i l None = Some x
               /\ (1 < List.length (values l))%nat
               /\ variance_R 1 (values l) <> 0%R
               /\ (t < z_score_R (values l) x)%R)).
Proof.
  split.
  - intros F NF SUM df t Hwf. exists (anomaly_flags df t).
    rewrite detect_anomalies_unfold.
    split; [apply get_set_col_same|].
    split; [apply anomaly_flags_length|].
    split; [reflexivity|].
    split; [|split].
    + intros c Hc. apply get_set_col_other. congruence.
    + intros i Hi. now apply anomaly_flags_spec.
    + intros Hn. unfold anomaly_flags. now rewrite Hn.
  - intros df t i Hwf Hi.
    rewrite detect_anomalies_unfold. unfold cell.
    rewrite get_set_col_same. cbn [cell_at].
    pose proof (anomaly_flags_length df (Some t)) as Hlen.
    destruct (nth_error (anomaly_flags df (Some t)) i) as [b|] eqn:Eb.
    2:{ apply nth_error_None in Eb. lia. }
    cbn [option_map].
    assert (nth i (anomaly_flags df (Some t)) false = b) as Hb.
    { now apply nth_error_nth. }
    split.
    + intros H. injection H as ->.
      apply (anomaly_flags_spec df (Some t) i Hwf Hi) in Hb
        as (c & s & l & Hin & Hl & Hz).
      apply Exact.z_score_exceeds in Hz as (x & Hx).
      exists c, s, l, x. tauto.
    + intros (c & s & l & x & Hin & Hl & Hx).
      f_equal. f_equal. rewrite <- Hb.
      apply (anomaly_flags_spec df (Some t) i Hwf Hi).
      exists c, s, l. repeat split; auto.
      apply Exact.z_score_exceeds. exists x. exact Hx.
Qed.

Lemma detect_anomalies_spec_witness :
  get_col "is_anomaly" (detect_anomalies with_outlier 1.5%float)
    = Some (BoolS [false; false; false; false; true])
  /\ exists flags,
       get_col "is_anomaly" (detect_anomalies with_outlier 1.5%float)
         = Some (BoolS flags)
       /\ List.length flags = 5%nat.
Proof.
  split; [vm_compute; reflexivity|].
  destruct (proj1 detect_anomalies_spec float _ _ with_outlier 1.5%float)
    as (flags & H1 & H2 & _).
  { solve_WF. }
  exists flags. split; [exact H1|exact H2].
Defined.

End ClaimC3.

(** ** C7 *)

Section ClaimC7.

Import Reference Examples.

(** C7: for thresholds [t1 <= t2] (float64 comparison, so neither is NaN)
    the number of rows flagged at [t2] is at most the number flagged at
    [t1]. *)
Theorem detect_anomalies_antitone
    {SUM : Summation float} (df : DataFrame float) (t1 t2 : float) :
  PrimFloat.leb t1 t2 = true ->
  (anomaly_count (detect_anomalies df t2)
   <= anomaly_count (detect_anomalies df t1))%nat.
Proof.
  intros Hle. apply anomaly_count_antitone.
  intros z Hz. exact (float_le_lt_trans t1 t2 z Hle Hz).
Qed.

Lemma detect_anomalies_antitone_witness :
  anomaly_count (detect_anomalies with_outlier 3%float) = 0%nat
  /\ anomaly_count (detect_anomalies with_outlier 1.5%float) = 1%nat
  /\ (anomaly_count (detect_anomalies with_outlier 3%float)
      <= anomaly_count (detect_anomalies with_outlier 1.5%float))%nat.
Proof.
  split; [vm_compute; reflexivity|]. split; [vm_compute; reflexivity|].
  apply (detect_anomalies_antitone with_outlier 1.5%float 3%float).
  reflexivity.
Defined.

End ClaimC7.

(** ** C5 *)

Section ClaimC5.

Import Reference Examples.




End ClaimC5.

(** ** C8 *)

Section ClaimC8.

Import Reference Examples.

(** C8: on the scenario table [create_kpis] adds
    [specific_power_consumption = [2.0, 4.0]]; whenever both columns are
    present (int64 or float64) the new column is the row-wise float64
    quotient power / throughput, and nothing guards the divisor: a zero
    throughput yields an infinity (or NaN for 0/0), not an error. *)
Theorem create_kpis_spec :
  create_kpis kpi_scenario
    = Ok (mkDF 2 [("mill_power_kwh", IntS [100; 200]%Z);
                  ("throughput_tph", IntS [50; 50]%Z);
                  ("specific_power_consumption", FloatS [2; 4]%float)])
  /\ (forall (df : DataFrame float) a b la lb,
        get_col "mill_power_kwh" df = Some a ->
        get_col "throughput_tph" df = Some b ->
        float_values a = Some la -> float_values b = Some lb ->
        create_kpis df
        = Ok (set_col "specific_power_consumption" (FloatS (quotients la lb)) df)
        /\ forall i, (i < List.length la)%nat -> (i < List.length lb)%nat ->
             nth i (quotients la lb) fnan
             = PrimFloat.div (nth i la fnan) (nth i lb fnan))
  /\ create_kpis kpi_zero_throughput
    = Ok (mkDF 2 [("mill_power_kwh", IntS [100; 0]%Z);
                  ("throughput_tph", IntS [0; 0]%Z);
                  ("specific_power_consumption", FloatS [infinity; nan]%float)]).
Proof.
  split; [vm_compute; reflexivity|]. split; [|vm_compute; reflexivity].
  intros df a b la lb Ha Hb Hla Hlb. split.
  - now apply create_kpis_present with (a := a) (b := b).
  - intros i H1 H2. exact (nth_quotients la lb i H1 H2).
Qed.

Lemma create_kpis_spec_witness :
  create_kpis kpi_scenario
  = Ok (set_col "specific_power_consumption"
          (FloatS (quotients [100; 200]%float [50; 50]%float)) kpi_scenario).
Proof.
  exact (proj1 (proj1 (proj2 create_kpis_spec)
                  kpi_scenario (IntS [100; 200]%Z) (IntS [50; 50]%Z)
                  [100; 200]%float [50; 50]%float
                  eq_refl eq_refl eq_refl eq_refl)).
Defined.

End ClaimC8.

(** ** C10 *)

Section ClaimC10.

Import Reference Examples.

(** C10: on a well-formed table each of the six transforms, when it
    returns a table, returns a well-formed table over the same index: the
    row count is unchanged and every column of the result has exactly that
    many entries.  ([detect_anomalies] always returns.) *)
Theorem transforms_preserve_row_count
    {F : Type} {NF : Number F} {SUM : Summation F} {LIB : Library F} (df : DataFrame F) :
  WF df ->
  (forall ts df', add_time_features df ts = Ok df' -> same_rows df df')
  /\ (forall m df', fill_missing_values df m = Ok df' -> same_rows df df')
  /\ (forall m df' sc, normalize_features df m = Ok (df', sc) -> same_rows df df')
  /\ (forall t, same_rows df (detect_anomalies df t))
  /\ (forall cols lo hi df', clip_outliers df cols lo hi = Ok df' ->
                             same_rows df df')
  /\ (forall df', create_kpis df = Ok df' -> same_rows df df').
Proof.
  intros Hwf. split; [|split; [|split; [|split; [|split]]]].
  - intros ts df'. now apply add_time_features_rows.
  - intros m df'. now apply fill_missing_values_rows.
  - intros m df' sc. now apply normalize_features_rows.
  - intros t. now apply detect_anomalies_rows.
  - intros cols lo hi df'. now apply clip_outliers_rows.
  - intros df'. now apply create_kpis_rows.
Qed.

Lemma transforms_preserve_row_count_witness :
  WF with_outlier
  /\ (exists df', add_time_features with_outlier "timestamp" = Ok df'
                  /\ same_rows with_outlier df')
  /\ (exists df', fill_missing_values with_outlier "median" = Ok df'
                  /\ same_rows with_outlier df')
  /\ (exists df' sc, normalize_features with_outlier "standard" = Ok (df', sc)
                     /\ same_rows with_outlier df')
  /\ same_rows with_outlier (detect_anomalies with_outlier 3%float)
  /\ (exists df', clip_outliers with_outlier ["a"; "zz"] 1%float 99%float = Ok df'
                  /\ same_rows with_outlier df')
  /\ (exists df', create_kpis with_outlier = Ok df'
                  /\ same_rows with_outlier df').
Proof.
  assert (WF with_outlier) as Hwf by solve_WF.
  destruct (transforms_preserve_row_count with_outlier Hwf)
    as (H1 & H2 & H3 & H4 & H5 & H6).
  split; [exact Hwf|].
  split; [eexists; split; [|apply (H1 "timestamp")]; vm_compute; reflexivity|].
  split; [eexists; split; [|apply (H2 "median")]; vm_compute; reflexivity|].
  split; [do 2 eexists; split; [|eapply (H3 "standard")]; vm_compute; reflexivity|].
  split; [apply H4|].
  split; [eexists; split;
          [|apply (H5 ["a"; "zz"] 1%float 99%float)]; vm_compute; reflexivity|].
  eexists; split; [|apply H6]; vm_compute; reflexivity.
Defined.

End ClaimC10.

(** ** C4 *)

Section ClaimC4.

Import Reference Examples.

Lemma In_map_columns {F : Type} (f : Series F -> Series F) (df : DataFrame F) c s :
  In (c, s) (columns df) -> In (c, f s) (columns (map_columns f df)).
Proof.
  intros H. unfold map_columns; simpl.
  apply in_map_iff. exists (c, s). auto.
Qed.


(** The scaler's test for a constant column also catches columns that are
    not constant: two readings 4.77e-7 apart around 1e9 have variance
    5.7e-14, below the bound, so they are centred and not divided, and
    come out with standard deviation 2.4e-7. *)
Lemma standard_scaling_of_near_constant_column :
  normalize_features
    (mkDF 2 [("c", FloatS [1000000000; 0x1.dcd6500000004p+29]%float)])
    "standard"
  = Ok (mkDF 2 [("c", FloatS [-0x1p-22; 0x1p-22]%float)],
        StandardScaler [(0x1.dcd6500000002p+29, 1)%float])
  /\ fsqrt (var 0 [-0x1p-22; 0x1p-22]%float) = 0x1p-22%float.
Proof. split; vm_compute; reflexivity. Qed.



End ClaimC4.

(** * Further properties of the code *)

(** ** More on float64 *)

Lemma div_nan x : PrimFloat.div x PrimFloat.nan = PrimFloat.nan.
Proof.
  rewrite <- (SF2Prim_Prim2SF (PrimFloat.div x PrimFloat.nan)), div_spec.
  replace (Prim2SF PrimFloat.nan) with S754_nan by reflexivity.
  unfold SF64div, SFdiv. destruct (Prim2SF x); reflexivity.
Qed.

Lemma ltb_nan_r x : PrimFloat.ltb x PrimFloat.nan = false.
Proof.
  rewrite ltb_spec. replace (Prim2SF PrimFloat.nan) with S754_nan by reflexivity.
  unfold SFltb. destruct (Prim2SF x); reflexivity.
Qed.

Lemma SF_not_lt_le a b :
  a <> S754_nan -> b <> S754_nan -> SFltb a b = false -> SFleb b a = true.
Proof.
  unfold SFleb, SFltb.
  destruct a as [sa|sa| |sa ma ea], b as [sb|sb| |sb mb eb]; simpl;
    try congruence; intros _ _;
    repeat match goal with s : bool |- _ => destruct s end; simpl;
    try discriminate; try reflexivity;
    change (Pos.compare_cont Eq) with Pos.compare;
    intros H; compare_cases; simpl in *;
    try discriminate; try reflexivity; subst; try lia.
Qed.

Lemma SF_le_not_lt a b : SFleb a b = true -> SFltb b a = false.
Proof.
  unfold SFleb, SFltb.
  destruct a as [sa|sa| |sa ma ea], b as [sb|sb| |sb mb eb]; simpl;
    try discriminate; try reflexivity;
    repeat match goal with s : bool |- _ => destruct s end; simpl;
    try discriminate; try reflexivity;
    change (Pos.compare_cont Eq) with Pos.compare;
    intros H; compare_cases; simpl in *;
    try discriminate; try reflexivity; subst; try lia.
Qed.

Lemma SF_le_refl a : a <> S754_nan -> SFleb a a = true.
Proof. intros H. unfold SFleb. now rewrite SFcompare_refl. Qed.

Lemma SF_le_not_nan a b : SFleb a b = true -> a <> S754_nan /\ b <> S754_nan.
Proof.
  unfold SFleb. destruct a, b; simpl; try discriminate; split; congruence.
Qed.

Lemma float_not_lt_le a b :
  PrimFloat.is_nan a = false -> PrimFloat.is_nan b = false ->
  PrimFloat.ltb a b = false -> PrimFloat.leb b a = true.
Proof.
  intros Ha Hb. rewrite ltb_spec, leb_spec. apply SF_not_lt_le.
  - intros E. apply is_nan_Prim2SF in E. congruence.
  - intros E. apply is_nan_Prim2SF in E. congruence.
Qed.

Lemma float_le_not_lt a b : PrimFloat.leb a b = true -> PrimFloat.ltb b a = false.
Proof. rewrite ltb_spec, leb_spec. apply SF_le_not_lt. Qed.

Lemma float_le_not_nan a b :
  PrimFloat.leb a b = true ->
  PrimFloat.is_nan a = false /\ PrimFloat.is_nan b = false.
Proof.
  rewrite leb_spec. intros H. apply SF_le_not_nan in H as [Ha Hb].
  split.
  - destruct (PrimFloat.is_nan a) eqn:E; auto. apply is_nan_Prim2SF in E. contradiction.
  - destruct (PrimFloat.is_nan b) eqn:E; auto. apply is_nan_Prim2SF in E. contradiction.
Qed.

Lemma float_le_refl a : PrimFloat.is_nan a = false -> PrimFloat.leb a a = true.
Proof.
  intros H. rewrite leb_spec. apply SF_le_refl.
  intros E. apply is_nan_Prim2SF in E. congruence.
Qed.

Lemma float_lt_not_nan a b :
  PrimFloat.ltb a b = true ->
  PrimFloat.is_nan a = false /\ PrimFloat.is_nan b = false.
Proof.
  rewrite ltb_spec. unfold SFltb. intros H. split.
  - destruct (PrimFloat.is_nan a) eqn:E; auto. apply is_nan_Prim2SF in E.
    rewrite E in H. discriminate.
  - destruct (PrimFloat.is_nan b) eqn:E; auto. apply is_nan_Prim2SF in E.
    rewrite E in H. destruct (Prim2SF a); discriminate.
Qed.

Lemma SF_le_trans a b c :
  SFleb a b = true -> SFleb b c = true -> SFleb a c = true.
Proof.
  unfold SFleb, SFcompare.
  destruct a as [sa|sa| |sa ma ea], b as [sb|sb| |sb mb eb],
    c as [sc|sc| |sc mc ec];
    try destruct sa; try destruct sb; try destruct sc;
    try discriminate; try reflexivity; auto;
    change (Pos.compare_cont Eq) with Pos.compare;
    destruct (Z.compare_spec ea eb), (Z.compare_spec eb ec),
      (Z.compare_spec ea ec);
    try discriminate; try reflexivity; try lia;
    destruct (Pos.compare_spec ma mb), (Pos.compare_spec mb mc),
      (Pos.compare_spec ma mc);
    simpl; try discriminate; try reflexivity; try lia.
Qed.

Lemma SF_lt_le a b : SFltb a b = true -> SFleb a b = true.
Proof.
  unfold SFleb, SFltb. destruct (SFcompare a b) as [[| |]|]; auto.
Qed.

Lemma float_lt_le a b : PrimFloat.ltb a b = true -> PrimFloat.leb a b = true.
Proof. rewrite ltb_spec, leb_spec. apply SF_lt_le. Qed.

Lemma float_le_trans a b c :
  PrimFloat.leb a b = true -> PrimFloat.leb b c = true ->
  PrimFloat.leb a c = true.
Proof. rewrite !leb_spec. apply SF_le_trans. Qed.

Lemma ltb_nan_l y : PrimFloat.ltb PrimFloat.nan y = false.
Proof.
  destruct (PrimFloat.ltb PrimFloat.nan y) eqn:E; auto.
  apply float_lt_not_nan in E as [E _]. discriminate.
Qed.

(** With the bounds in order, [clip] applies the lower bound and then the
    upper one, which is the lower one again when the two compare equal. *)
Lemma clip_ordered (lo hi x : float) :
  PrimFloat.leb lo hi = true ->
  clip lo hi x
  = let upper := if PrimFloat.ltb lo hi then hi else lo in
    let x1 := if PrimFloat.ltb x lo then lo else x in
    if PrimFloat.ltb upper x1 then upper else x1.
Proof.
  intros Hle. destruct (float_le_not_nan _ _ Hle) as [Hlo Hhi].
  unfold clip. cbn [fisnan fltb float64]. rewrite Hlo, Hhi.
  cbn [negb andb]. rewrite (float_le_not_lt _ _ Hle).
  now destruct (PrimFloat.ltb lo hi).
Qed.

(** Bounds given in the wrong order are swapped. *)
Lemma clip_swapped (lo hi x : float) :
  PrimFloat.ltb hi lo = true -> clip lo hi x = clip hi lo x.
Proof.
  intros Hlt. destruct (float_lt_not_nan _ _ Hlt) as [Hhi Hlo].
  assert (PrimFloat.ltb lo hi = false) as Hn.
  { apply float_le_not_lt. now apply float_lt_le. }
  unfold clip. cbn [fisnan fltb float64]. rewrite Hlo, Hhi, Hlt, Hn.
  reflexivity.
Qed.

(** The value [clip] gives for a non-null entry lies between the bounds,
    and an entry between the bounds is left as it is. *)
Lemma clip_between (lo hi x : float) :
  PrimFloat.leb lo hi = true -> PrimFloat.is_nan x = false ->
  PrimFloat.leb lo (clip lo hi x) = true
  /\ PrimFloat.leb (clip lo hi x) hi = true
  /\ (PrimFloat.leb lo x = true -> PrimFloat.leb x hi = true ->
      clip lo hi x = x).
Proof.
  intros Hle Hx. destruct (float_le_not_nan _ _ Hle) as [Hlo Hhi].
  rewrite (clip_ordered lo hi x Hle). cbn zeta.
  destruct (PrimFloat.ltb lo hi) eqn:Elt.
  - destruct (PrimFloat.ltb x lo) eqn:E1.
    + rewrite (float_le_not_lt _ _ Hle). split; [now apply float_le_refl|].
      split; [exact Hle|]. intros H1. rewrite (float_le_not_lt _ _ H1) in E1.
      discriminate.
    + destruct (PrimFloat.ltb hi x) eqn:E2.
      * split; [exact Hle|]. split; [now apply float_le_refl|].
        intros _ H2. rewrite (float_le_not_lt _ _ H2) in E2. discriminate.
      * split; [now apply float_not_lt_le|].
        split; [now apply float_not_lt_le|]. reflexivity.
  - assert (PrimFloat.leb hi lo = true) as Hge by now apply float_not_lt_le.
    destruct (PrimFloat.ltb x lo) eqn:E1.
    + rewrite (float_le_not_lt lo lo) by now apply float_le_refl.
      split; [now apply float_le_refl|]. split; [exact Hle|].
      intros H1. rewrite (float_le_not_lt _ _ H1) in E1. discriminate.
    + destruct (PrimFloat.ltb lo x) eqn:E2.
      * split; [now apply float_le_refl|]. split; [exact Hle|].
        intros _ H2.
        rewrite (float_le_not_lt x lo) in E2
          by exact (float_le_trans _ _ _ H2 Hge).
        discriminate.
      * split; [now apply float_not_lt_le|].
        split; [|reflexivity].
        apply (float_le_trans x lo hi); [now apply float_not_lt_le|exact Hle].
Qed.

Lemma clip_nan (lo hi : float) : clip lo hi PrimFloat.nan = PrimFloat.nan.
Proof.
  unfold clip. cbn [fltb float64]. rewrite ltb_nan_l.
  now rewrite ltb_nan_r.
Qed.

Lemma Prim2SF_nan : Prim2SF PrimFloat.nan = S754_nan.
Proof. reflexivity. Qed.

Lemma float_of_SF_nan x : Prim2SF x = S754_nan -> x = PrimFloat.nan.
Proof. intros H. rewrite <- (SF2Prim_Prim2SF x), H. reflexivity. Qed.

Lemma mul_nan_l y : PrimFloat.mul PrimFloat.nan y = PrimFloat.nan.
Proof.
  apply float_of_SF_nan. rewrite mul_spec, Prim2SF_nan.
  unfold SF64mul, SFmul. destruct (Prim2SF y); reflexivity.
Qed.

Lemma add_nan_l y : PrimFloat.add PrimFloat.nan y = PrimFloat.nan.
Proof.
  apply float_of_SF_nan. rewrite add_spec, Prim2SF_nan.
  unfold SF64add, SFadd. destruct (Prim2SF y); reflexivity.
Qed.

Lemma sub_nan_l y : PrimFloat.sub PrimFloat.nan y = PrimFloat.nan.
Proof.
  apply float_of_SF_nan. rewrite sub_spec, Prim2SF_nan.
  unfold SF64sub, SFsub. destruct (Prim2SF y); reflexivity.
Qed.

Lemma div_nan_l y : PrimFloat.div PrimFloat.nan y = PrimFloat.nan.
Proof.
  apply float_of_SF_nan. rewrite div_spec, Prim2SF_nan.
  unfold SF64div, SFdiv. destruct (Prim2SF y); reflexivity.
Qed.

(** ** More on tables *)

Section MoreFrameFacts.

Context {F : Type} {NF : Number F} {SUM : Summation F} {LIB : Library F}.

Implicit Types (df : DataFrame F) (s : Series F) (c : string).

Lemma set_assoc_same_value c s (cs : list (string * Series F)) :
  assoc c cs = Some s -> set_assoc c s cs = cs.
Proof.
  induction cs as [|[c' s'] r IH]; simpl; [discriminate|].
  destruct (String.eqb c c') eqn:E.
  - apply String.eqb_eq in E. now intros [= ->]; subst.
  - intros H. now rewrite IH.
Qed.

Lemma set_col_same_value c s df : get_col c df = Some s -> set_col c s df = df.
Proof.
  intros H. destruct df as [n cs]. unfold set_col; simpl.
  f_equal. now apply set_assoc_same_value.
Qed.

Lemma set_assoc_twice c s s' (cs : list (string * Series F)) :
  set_assoc c s (set_assoc c s' cs) = set_assoc c s cs.
Proof.
  induction cs as [|[c0 s0] r IH]; simpl.
  - now rewrite String.eqb_refl.
  - destruct (String.eqb c c0) eqn:E; simpl.
    + now rewrite String.eqb_refl.
    + now rewrite E, IH.
Qed.

Lemma set_col_twice c s s' df :
  set_col c s (set_col c s' df) = set_col c s df.
Proof. unfold set_col; simpl. now rewrite set_assoc_twice. Qed.

Lemma set_assoc_names_present c s (cs : list (string * Series F)) :
  existsb (String.eqb c) (map fst cs) = true ->
  map fst (set_assoc c s cs) = map fst cs.
Proof.
  induction cs as [|[c0 s0] r IH]; simpl; [discriminate|].
  destruct (String.eqb c c0) eqn:E; simpl.
  - apply String.eqb_eq in E. now subst.
  - intros H. now rewrite IH.
Qed.

Lemma set_assoc_names_absent c s (cs : list (string * Series F)) :
  existsb (String.eqb c) (map fst cs) = false ->
  map fst (set_assoc c s cs) = (map fst cs ++ [c])%list.
Proof.
  induction cs as [|[c0 s0] r IH]; simpl; auto.
  destruct (String.eqb c c0) eqn:E; simpl; [discriminate|].
  intros H. now rewrite IH.
Qed.

Lemma column_names_set_col_present c s df :
  has_col c df = true -> column_names (set_col c s df) = column_names df.
Proof. apply set_assoc_names_present. Qed.

Lemma column_names_set_col_absent c s df :
  has_col c df = false ->
  column_names (set_col c s df) = (column_names df ++ [c])%list.
Proof. apply set_assoc_names_absent. Qed.

(** Assigning a non-numeric column over no column, or over a non-numeric
    one, leaves the numeric part of the table as it was. *)
Lemma numeric_set_assoc c s (cs : list (string * Series F)) :
  is_numeric s = false ->
  (forall s0, assoc c cs = Some s0 -> is_numeric s0 = false) ->
  filter (fun x => is_numeric (snd x)) (set_assoc c s cs)
  = filter (fun x => is_numeric (snd x)) cs.
Proof.
  intros Hs. induction cs as [|[c0 s0] r IH]; simpl; intros H.
  - now rewrite Hs.
  - destruct (String.eqb c c0) eqn:E; simpl.
    + rewrite Hs. now rewrite (H s0 eq_refl).
    + rewrite IH; auto.
Qed.

Lemma numeric_cols_set_col c s df :
  is_numeric s = false ->
  (forall s0, get_col c df = Some s0 -> is_numeric s0 = false) ->
  numeric_cols (set_col c s df) = numeric_cols df.
Proof.
  intros Hs H. unfold numeric_cols; simpl. now rewrite numeric_set_assoc.
Qed.

Lemma numeric_block_filter (cs : list (string * Series F)) :
  flat_map (fun x => match float_values (snd x) with
                     | Some l => [l]
                     | None => []
                     end) cs
  = flat_map (fun x => match float_values (snd x) with
                       | Some l => [l]
                       | None => []
                       end) (filter (fun x => is_numeric (snd x)) cs).
Proof.
  induction cs as [|[c s] r IH]; simpl; auto.
  destruct s; simpl; now rewrite IH.
Qed.

Lemma numeric_block_set_col c s df :
  is_numeric s = false ->
  (forall s0, get_col c df = Some s0 -> is_numeric s0 = false) ->
  numeric_block (set_col c s df) = numeric_block df.
Proof.
  intros Hs H. unfold numeric_block; simpl.
  rewrite numeric_block_filter, numeric_set_assoc by auto.
  now rewrite <- numeric_block_filter.
Qed.

Lemma numeric_block_length df :
  List.length (numeric_block df) = List.length (numeric_cols df).
Proof.
  unfold numeric_block, numeric_cols. rewrite length_map.
  induction (columns df) as [|[c s] r IH]; simpl; auto.
  destruct s; simpl; now rewrite ?IH.
Qed.

Lemma numeric_cols_map_columns (f : Series F -> Series F) df :
  (forall s, is_numeric (f s) = is_numeric s) ->
  numeric_cols (map_columns f df) = numeric_cols df.
Proof.
  intros Hf. unfold numeric_cols, map_columns; simpl.
  induction (columns df) as [|[c s] r IH]; simpl; auto.
  rewrite Hf. destruct (is_numeric s); simpl; now rewrite IH.
Qed.

Lemma map_columns_twice (f : Series F -> Series F) df :
  (forall s, f (f s) = f s) ->
  map_columns f (map_columns f df) = map_columns f df.
Proof.
  intros Hf. unfold map_columns; simpl. f_equal.
  rewrite map_map. apply map_ext. intros [c s]; simpl. now rewrite Hf.
Qed.

Lemma numeric_cols_In c df :
  In c (numeric_cols df) <->
  exists s, In (c, s) (columns df) /\ is_numeric s = true.
Proof.
  unfold numeric_cols. rewrite in_map_iff. split.
  - intros [[c' s] [<- H]]. apply filter_In in H as [H1 H2]. eauto.
  - intros (s & H1 & H2). exists (c, s). split; auto.
    apply filter_In. auto.
Qed.

End MoreFrameFacts.

(** ** fill_missing_values: the method check, and filling twice *)

Section FillFurther.

Context {F : Type} {NF : Number F} {SUM : Summation F} {LIB : Library F}.

Implicit Types (df : DataFrame F) (s : Series F) (c : string).

Lemma fill_missing_values_Err df m e :
  fill_missing_values df m = Err e -> e = UnsupportedMethod.
Proof.
  unfold fill_missing_values.
  destruct (List.length (numeric_cols df) =? 0)%nat; [discriminate|].
  destruct (String.eqb m "mean"); [discriminate|].
  destruct (String.eqb m "median"); [discriminate|].
  destruct (String.eqb m "zero"); [discriminate|].
  now intros [= <-].
Qed.

(** X1: the method string is looked at only when the table has a numeric
    column.  Without one the table is returned as it is, whatever the
    method; with one, the three methods mean, median and zero succeed and
    every other string raises the unsupported-method ValueError, which is
    the only error the function has. *)
Theorem fill_missing_values_method_check df m :
  (numeric_cols df = [] -> fill_missing_values df m = Ok df)
  /\ (numeric_cols df <> [] ->
      (In m ["mean"; "median"; "zero"] ->
       fill_missing_values df m
       = Ok (map_columns (fill_column (fill_statistic m)) df))
      /\ (~ In m ["mean"; "median"; "zero"] ->
          fill_missing_values df m = Err UnsupportedMethod))
  /\ (forall e, fill_missing_values df m = Err e ->
        e = UnsupportedMethod /\ numeric_cols df <> []
        /\ ~ In m ["mean"; "median"; "zero"]).
Proof.
  split; [|split].
  - intros H. unfold fill_missing_values. now rewrite H.
  - intros Hn. split.
    + apply fill_missing_values_supported.
    + intros Hm. unfold fill_missing_values.
      destruct (List.length (numeric_cols df) =? 0)%nat eqn:E.
      { apply length_zero_nil in E. contradiction. }
      destruct (String.eqb m "mean") eqn:E1.
      { apply String.eqb_eq in E1. subst. exfalso. apply Hm. simpl. auto. }
      destruct (String.eqb m "median") eqn:E2.
      { apply String.eqb_eq in E2. subst. exfalso. apply Hm. simpl. auto. }
      destruct (String.eqb m "zero") eqn:E3.
      { apply String.eqb_eq in E3. subst. exfalso. apply Hm. simpl. auto. }
      reflexivity.
  - intros e. unfold fill_missing_values.
    destruct (List.length (numeric_cols df) =? 0)%nat eqn:E; [discriminate|].
    destruct (String.eqb m "mean") eqn:E1; [discriminate|].
    destruct (String.eqb m "median") eqn:E2; [discriminate|].
    destruct (String.eqb m "zero") eqn:E3; [discriminate|].
    intros [= <-]. split; [reflexivity|]. split.
    + intros H. rewrite H in E. discriminate.
    + simpl. intros [<-|[<-|[<-|[]]]]; discriminate.
Qed.

Lemma fill_column_is_numeric (stat : list F -> F) s :
  is_numeric (fill_column stat s) = is_numeric s.
Proof. now destruct s. Qed.

End FillFurther.

Lemma fillna_no_nan (v : float) (l : list float) :
  forallb (fun x => negb (PrimFloat.is_nan x)) l = true -> fillna v l = l.
Proof.
  induction l as [|x r IH]; [reflexivity|].
  change (fillna v (x :: r))
    with ((if PrimFloat.is_nan x then v else x) :: fillna v r).
  simpl. intros H. apply andb_true_iff in H as [Hx Hr].
  rewrite IH by auto. destruct (PrimFloat.is_nan x); [discriminate|reflexivity].
Qed.

Lemma fillna_free (v : float) (l : list float) :
  PrimFloat.is_nan v = false ->
  forallb (fun x => negb (PrimFloat.is_nan x)) (fillna v l) = true.
Proof.
  intros Hv. induction l as [|x r IH]; [reflexivity|].
  change (fillna v (x :: r))
    with ((if PrimFloat.is_nan x then v else x) :: fillna v r).
  cbn [forallb]. rewrite IH, andb_true_r.
  destruct (PrimFloat.is_nan x) eqn:E; now rewrite ?Hv, ?E.
Qed.

(** Filling a filled column changes nothing: either the statistic was a
    number and no null is left, or it was NaN and the column is as before. *)
Lemma fillna_stat_idempotent (stat : list float -> float) (l : list float) :
  fillna (stat (fillna (stat l) l)) (fillna (stat l) l) = fillna (stat l) l.
Proof.
  destruct (PrimFloat.is_nan (stat l)) eqn:E.
  - rewrite (is_nan_eq _ E), !fillna_nan. rewrite (is_nan_eq _ E).
    apply fillna_nan.
  - apply fillna_no_nan. now apply fillna_free.
Qed.

Lemma fill_column_idempotent (stat : list float -> float) (s : Series float) :
  fill_column stat (fill_column stat s) = fill_column stat s.
Proof.
  destruct s; simpl; auto. now rewrite fillna_stat_idempotent.
Qed.

Section FillIdempotent.

Context {SUM : Summation float}.

(** X2: filling is idempotent on float64 tables.  A table that
    [fill_missing_values] returned is returned unchanged when it is filled
    again with the same method: with a number as statistic no null is left
    to fill, and with NaN as statistic (a column without any value) the
    column was not changed in the first place. *)
Theorem fill_missing_values_idempotent (df df' : DataFrame float) (m : string) :
  fill_missing_values df m = Ok df' -> fill_missing_values df' m = Ok df'.
Proof.
  unfold fill_missing_values at 1.
  destruct (List.length (numeric_cols df) =? 0)%nat eqn:E.
  { intros [= <-]. unfold fill_missing_values. now rewrite E. }
  assert (forall stat, fill_missing_values (map_columns (fill_column stat) df) m
                       = (if String.eqb m "mean" then Ok (map_columns (fill_column mean) (map_columns (fill_column stat) df))
                          else if String.eqb m "median" then Ok (map_columns (fill_column median) (map_columns (fill_column stat) df))
                          else if String.eqb m "zero" then Ok (map_columns (fill_column (fun _ => of_int 0)) (map_columns (fill_column stat) df))
                          else Err UnsupportedMethod)) as Hstep.
  { intros stat. unfold fill_missing_values.
    rewrite numeric_cols_map_columns by apply fill_column_is_numeric.
    now rewrite E. }
  destruct (String.eqb m "mean") eqn:E1.
  { intros [= <-]. rewrite Hstep. f_equal.
    apply map_columns_twice, fill_column_idempotent. }
  destruct (String.eqb m "median") eqn:E2.
  { intros [= <-]. rewrite Hstep. f_equal.
    apply map_columns_twice, fill_column_idempotent. }
  destruct (String.eqb m "zero") eqn:E3; [|discriminate].
  intros [= <-]. rewrite Hstep. f_equal.
  apply map_columns_twice. intros s.
  exact (fill_column_idempotent _ s).
Qed.

End FillIdempotent.

Section FillWitness.

Import Reference Examples.

Lemma fill_missing_values_idempotent_witness :
  exists df',
    fill_missing_values silent_sensor "mean" = Ok df'
    /\ fill_missing_values df' "mean" = Ok df'.
Proof.
  assert (exists d, fill_missing_values silent_sensor "mean" = Ok d) as [df' E]
    by (eexists; vm_compute; reflexivity).
  exists df'. split; [exact E|].
  exact (fill_missing_values_idempotent silent_sensor df' "mean" E).
Defined.

End FillWitness.

(** ** normalize_features: the shape of the result *)

Section NormalizeFurther.

Context {F : Type} {NF : Number F} {SUM : Summation F} {LIB : Library F}.

Implicit Types (df : DataFrame F) (s : Series F) (c : string).

Lemma scale_column_is_numeric (est : Estimator) s :
  is_numeric (scale_column (fit est) (transform est) s) = is_numeric s.
Proof. unfold scale_column. now destruct s. Qed.

Lemma scaler_params_fitted (est : Estimator) (ps : list (F * F)) :
  scaler_params (fitted est ps) = ps.
Proof. now destruct est. Qed.

(** X3: what a successful [normalize_features] returns.  The table keeps
    its column labels in their order, every non-numeric column is the one
    of the input, every numeric column (int64 as well as float64) comes
    back as a float64 column of the same length, the set of numeric columns
    is the same, and the fitted scaler has one parameter pair per numeric
    column. *)
Theorem normalize_features_shape df m df' (sc : Scaler F) :
  normalize_features df m = Ok (df', sc) ->
  column_names df' = column_names df
  /\ (forall c s, get_col c df = Some s -> is_numeric s = false ->
                  get_col c df' = Some s)
  /\ (forall c s, get_col c df = Some s -> is_numeric s = true ->
        exists l, get_col c df' = Some (FloatS l)
                  /\ List.length l = series_len s)
  /\ numeric_cols df' = numeric_cols df
  /\ List.length (scaler_params sc) = List.length (numeric_cols df).
Proof.
  intros H. apply normalize_features_Ok in H as (est & _ & -> & -> & _).
  split; [apply column_names_map_columns|].
  split; [|split; [|split]].
  - intros c s Hs Hn. rewrite get_col_map_columns, Hs. simpl.
    unfold scale_column. destruct s; simpl in *; auto; discriminate.
  - intros c s Hs Hn. rewrite get_col_map_columns, Hs. simpl.
    unfold scale_column.
    destruct (float_values s) as [l|] eqn:El.
    + exists (transform est (fit est l) l). split; auto.
      rewrite transform_length. now apply float_values_length.
    + destruct s; simpl in *; discriminate.
  - apply numeric_cols_map_columns. intros s. apply scale_column_is_numeric.
  - rewrite scaler_params_fitted, length_map. apply numeric_block_length.
Qed.

End NormalizeFurther.

Section NormalizeNulls.

Context {SUM : Summation float} {LIB : Library float}.

Lemma transform_nan (est : Estimator) (p : float * float) (l : list float) i x :
  nth_error l i = Some x -> PrimFloat.is_nan x = true ->
  nth_error (transform est p l) i = Some PrimFloat.nan.
Proof.
  intros Hx Hn. apply is_nan_eq in Hn. subst x.
  destruct est; unfold transform, minmax_transform, standard_transform;
    rewrite nth_error_map, Hx; simpl; f_equal.
  - now rewrite mul_nan_l, add_nan_l.
  - now rewrite sub_nan_l, div_nan_l.
Qed.

(** X4: scaling never fills a gap.  In the table [normalize_features]
    returns, every float64 column has a null wherever the input column had
    one, for either scaler. *)
Theorem normalize_features_keeps_nulls
    (df df' : DataFrame float) (m : string) (sc : Scaler float)
    (c : string) (l : list float) :
  normalize_features df m = Ok (df', sc) ->
  get_col c df = Some (FloatS l) ->
  exists l',
    get_col c df' = Some (FloatS l')
    /\ List.length l' = List.length l
    /\ forall i x, nth_error l i = Some x -> PrimFloat.is_nan x = true ->
                   nth_error l' i = Some PrimFloat.nan.
Proof.
  intros H Hc. apply normalize_features_Ok in H as (est & _ & -> & _ & _).
  exists (transform est (fit est l) l). split; [|split].
  - rewrite get_col_map_columns, Hc. reflexivity.
  - apply transform_length.
  - intros i x Hx Hn. now apply transform_nan with (x := x).
Qed.

End NormalizeNulls.

(** ** detect_anomalies: running it again, and tables too short to judge *)

Section AnomaliesFurther.

Context {F : Type} {NF : Number F} {SUM : Summation F} {LIB : Library F}.

Implicit Types (df : DataFrame F) (s : Series F) (c : string).

(** X5: detection is idempotent.  [is_anomaly] is a bool column and takes
    no part in the z-scores, so flagging a table that was already flagged
    gives the same table; this needs that the input did not itself carry a
    numeric column called [is_anomaly], which the first run would have
    replaced. *)
Theorem detect_anomalies_idempotent df (t : F) :
  (forall s, get_col "is_anomaly" df = Some s -> is_numeric s = false) ->
  detect_anomalies (detect_anomalies df t) t = detect_anomalies df t.
Proof.
  intros H. rewrite !detect_anomalies_unfold.
  assert (anomaly_flags (set_col "is_anomaly" (BoolS (anomaly_flags df t)) df) t
          = anomaly_flags df t) as ->.
  { unfold anomaly_flags at 1 3.
    rewrite numeric_cols_set_col, numeric_block_set_col by auto.
    reflexivity. }
  apply set_col_twice.
Qed.

End AnomaliesFurther.

Section AnomaliesShort.

Context {SUM : Summation float} {LIB : Library float}.

Lemma z_scores_short (l : list float) (t : float) :
  (List.length l <= 1)%nat ->
  map (fun z => PrimFloat.ltb t z) (z_scores l) = repeat false (List.length l).
Proof.
  intros Hlen. unfold z_scores. rewrite map_map.
  assert (std l = PrimFloat.nan) as ->.
  { unfold std, var.
    assert ((count l <=? 1)%nat = true) as ->.
    { apply Nat.leb_le. unfold count, dropna.
      pose proof (filter_length_le (fun x => negb (fisnan x)) l). lia. }
    reflexivity. }
  induction l as [|x r IH]; simpl; auto.
  rewrite div_nan. f_equal.
  - change (PrimFloat.abs PrimFloat.nan) with PrimFloat.nan. apply ltb_nan_r.
  - destruct r; [reflexivity|simpl in Hlen; lia].
Qed.

Lemma existsb_all_false {A : Type} (f : A -> bool) (xs : list A) :
  (forall x, In x xs -> f x = false) -> existsb f xs = false.
Proof.
  intros H. induction xs as [|x r IH]; simpl; auto.
  rewrite (H x) by now left. apply IH. intros y Hy. apply H. now right.
Qed.

Lemma map_const_false {A : Type} (f : A -> bool) (xs : list A) :
  (forall x, In x xs -> f x = false) -> map f xs = repeat false (List.length xs).
Proof.
  intros H. induction xs as [|x r IH]; simpl; auto.
  rewrite (H x) by now left. f_equal. apply IH. intros y Hy. apply H. now right.
Qed.

(** X6: a table with at most one row is never flagged.  The sample
    standard deviation of fewer than two values is NaN, every z-score is
    then NaN, and no comparison with NaN holds: all flags are False,
    whatever the values and the threshold. *)
Theorem detect_anomalies_needs_two_rows (df : DataFrame float) (t : float) :
  WF df -> (nrows df <= 1)%nat ->
  get_col "is_anomaly" (detect_anomalies df t)
  = Some (BoolS (repeat false (nrows df)))
  /\ anomaly_count (detect_anomalies df t) = 0%nat.
Proof.
  intros Hwf Hn.
  assert (anomaly_flags df t = repeat false (nrows df)) as Hflags.
  { unfold anomaly_flags.
    destruct (List.length (numeric_cols df) =? 0)%nat; auto.
    unfold any_axis1.
    rewrite map_const_false; [now rewrite length_seq|]. intros i _.
    apply existsb_all_false. intros col Hcol.
    unfold exceeds in Hcol.
    apply in_map_iff in Hcol as (zs & <- & Hzs).
    apply in_map_iff in Hzs as (l & <- & Hl).
    apply In_numeric_block in Hl as (c & s & Hin & Hv).
    rewrite z_scores_short.
    - apply nth_repeat_false.
    - rewrite (float_values_length _ _ Hv), (WF_In_len _ _ _ Hwf Hin). exact Hn. }
  split.
  - rewrite detect_anomalies_unfold, get_set_col_same. now rewrite Hflags.
  - rewrite anomaly_count_detect, Hflags. clear.
    induction (nrows df); simpl; auto.
Qed.

End AnomaliesShort.

Section NormalizeAnomaliesWitness.

Import Reference Examples.

Lemma normalize_features_shape_witness :
  exists df' sc,
    normalize_features readings "minmax" = Ok (df', sc)
    /\ column_names df' = column_names readings
    /\ numeric_cols df' = numeric_cols readings
    /\ List.length (scaler_params sc) = List.length (numeric_cols readings).
Proof.
  assert (exists r, normalize_features readings "minmax" = Ok r) as [[df' sc] E]
    by (eexists; vm_compute; reflexivity).
  destruct (normalize_features_shape readings "minmax" df' sc E)
    as (H1 & _ & _ & H2 & H3).
  exists df', sc. split; [exact E|]. split; [exact H1|]. split; [exact H2|exact H3].
Defined.

Lemma normalize_features_keeps_nulls_witness :
  exists df' sc l',
    normalize_features mixed_timestamps "standard" = Ok (df', sc)
    /\ get_col "a" df' = Some (FloatS l')
    /\ nth_error l' 2 = Some PrimFloat.nan.
Proof.
  assert (exists r, normalize_features mixed_timestamps "standard" = Ok r)
    as [[df' sc] E] by (eexists; vm_compute; reflexivity).
  destruct (normalize_features_keeps_nulls mixed_timestamps df' "standard" sc
              "a" [1; 2; nan]%float E eq_refl) as (l' & H1 & _ & H2).
  exists df', sc, l'. split; [exact E|]. split; [exact H1|].
  apply (H2 2%nat PrimFloat.nan); reflexivity.
Defined.

Lemma detect_anomalies_idempotent_witness :
  detect_anomalies (detect_anomalies with_outlier 1.5%float) 1.5%float
  = detect_anomalies with_outlier 1.5%float.
Proof.
  apply detect_anomalies_idempotent.
  intros s H. vm_compute in H. discriminate H.
Defined.

Lemma detect_anomalies_needs_two_rows_witness :
  get_col "is_anomaly" (detect_anomalies no_timestamp 0%float)
  = Some (BoolS (repeat false (nrows no_timestamp)))
  /\ anomaly_count (detect_anomalies no_timestamp 0%float) = 0%nat.
Proof.
  apply detect_anomalies_needs_two_rows; [solve_WF|simpl; lia].
Defined.

End NormalizeAnomaliesWitness.

(** ** clip_outliers: which columns it touches, and the bounds it enforces *)

Section ClipFurther.

Context {F : Type} {NF : Number F} {SUM : Summation F} {LIB : Library F}.

Implicit Types (df : DataFrame F) (s : Series F) (c : string).

Lemma clip_column_absent df col (lp up : F) :
  has_col col df = false -> clip_column df col lp up = Ok df.
Proof. intros H. unfold clip_column. now rewrite H. Qed.

Lemma clip_column_present df col (lp up : F) df' :
  has_col col df = true -> clip_column df col lp up = Ok df' ->
  exists s l lo hi,
    get_col col df = Some s /\ float_values s = Some l
    /\ np_percentile (dropna l) lp = Ok lo
    /\ np_percentile (dropna l) up = Ok hi
    /\ df' = set_col col (FloatS (map (clip lo hi) l)) df.
Proof.
  intros Hc. unfold clip_column. rewrite Hc. simpl.
  unfold getitem. destruct (get_col col df) as [s|] eqn:Es; simpl;
    [|discriminate].
  destruct (float_values s) as [l|] eqn:El; [|discriminate].
  destruct (np_percentile (dropna l) lp) as [lo|] eqn:Elo; simpl; [|discriminate].
  destruct (np_percentile (dropna l) up) as [hi|] eqn:Ehi; simpl; [|discriminate].
  intros [= <-]. exists s, l, lo, hi. auto.
Qed.

Lemma clip_column_frame df col (lp up : F) df' :
  clip_column df col lp up = Ok df' ->
  column_names df' = column_names df
  /\ forall c, c <> col -> get_col c df' = get_col c df.
Proof.
  intros H. destruct (has_col col df) eqn:Hc.
  - destruct (clip_column_present _ _ _ _ _ Hc H)
      as (s & l & lo & hi & _ & _ & _ & _ & ->).
    split.
    + now apply column_names_set_col_present.
    + intros c Hne. apply get_set_col_other. congruence.
  - rewrite clip_column_absent in H by auto. injection H as <-. auto.
Qed.

Lemma has_col_names df df' c :
  column_names df' = column_names df -> has_col c df' = has_col c df.
Proof. intros H. unfold has_col. now rewrite H. Qed.

Lemma clip_outliers_absent (cols : list string) :
  forall df (lp up : F),
  (forall c, In c cols -> has_col c df = false) ->
  clip_outliers df cols lp up = Ok df.
Proof.
  induction cols as [|col rest IH]; simpl; intros df lp up H; auto.
  rewrite clip_column_absent by auto. simpl. apply IH. auto.
Qed.

Lemma clip_outliers_unlisted (cols : list string) :
  forall df (lp up : F) df',
  clip_outliers df cols lp up = Ok df' ->
  column_names df' = column_names df
  /\ forall c, ~ In c cols -> get_col c df' = get_col c df.
Proof.
  induction cols as [|col rest IH]; simpl; intros df lp up df'.
  - intros [= <-]. auto.
  - destruct (clip_column df col lp up) as [d1|] eqn:E1; simpl; [|discriminate].
    intros H. destruct (clip_column_frame _ _ _ _ _ E1) as [N1 G1].
    destruct (IH _ _ _ _ H) as [N2 G2]. split; [congruence|].
    intros c Hc. rewrite G2 by tauto. apply G1. intros ->. tauto.
Qed.

(** X7: [clip_outliers] touches the listed columns only.  Labels that name
    no column are skipped without an error, so a list of unknown labels
    returns the table as it is; and whenever the call returns, the table
    has the same column labels in the same order and every column that is
    not listed is the one of the input. *)
Theorem clip_outliers_frame (cols : list string) df (lp up : F) :
  ((forall c, In c cols -> has_col c df = false) ->
   clip_outliers df cols lp up = Ok df)
  /\ (forall df', clip_outliers df cols lp up = Ok df' ->
        column_names df' = column_names df
        /\ forall c, ~ In c cols -> get_col c df' = get_col c df).
Proof.
  split.
  - apply clip_outliers_absent.
  - apply clip_outliers_unlisted.
Qed.

End ClipFurther.

Section ClipBounds.

Context {SUM : Summation float} {LIB : Library float}.

Lemma clip_outliers_own_percentiles (cols : list string) :
  forall (df df' : DataFrame float) (lp up : float) col l,
  NoDup cols -> In col cols ->
  get_col col df = Some (FloatS l) ->
  clip_outliers df cols lp up = Ok df' ->
  exists lo hi,
    np_percentile (dropna l) lp = Ok lo
    /\ np_percentile (dropna l) up = Ok hi
    /\ get_col col df' = Some (FloatS (map (clip lo hi) l)).
Proof.
  induction cols as [|c0 rest IH]; simpl; intros df df' lp up col l Hnd Hin Hs;
    [tauto|].
  inversion Hnd as [|? ? Hnotin Hnd']; subst.
  destruct (clip_column df c0 lp up) as [d1|] eqn:E1; simpl; [|discriminate].
  intros H. destruct (string_dec c0 col) as [->|Hne].
  - assert (has_col col df = true) as Hc by (apply has_col_true; eauto).
    destruct (clip_column_present _ _ _ _ _ Hc E1)
      as (s' & l' & lo & hi & Hs' & Hl' & Hlo & Hhi & ->).
    rewrite Hs in Hs'. injection Hs' as <-.
    simpl in Hl'. injection Hl' as <-.
    exists lo, hi. repeat split; auto.
    destruct (clip_outliers_unlisted rest _ lp up _ H) as [_ G].
    rewrite G by auto.
    apply get_set_col_same.
  - destruct Hin as [?|Hin]; [contradiction|].
    destruct (clip_column_frame _ _ _ _ _ E1) as [_ G1].
    apply (IH d1 df' lp up col l); auto.
    rewrite G1; auto.
Qed.

(** X8: every listed column is clipped to its own percentiles.  For a list
    without repetitions, a listed float64 column comes back as its values
    passed through [clip lo hi], where [lo] and [hi] are the two percentiles
    of the non-null values of that very column as it was in the input.  A
    null stays null.  When [lo <= hi], every other value ends up between
    the two bounds, unchanged if it already was.  When [hi < lo] (the
    percentiles were given in the wrong order) the bounds are swapped:
    every other value ends up between [hi] and [lo], unchanged if it
    already was. *)
Theorem clip_outliers_within_bounds
    (df df' : DataFrame float) (cols : list string) (lp up : float)
    (col : string) (l : list float) :
  NoDup cols -> In col cols ->
  get_col col df = Some (FloatS l) ->
  clip_outliers df cols lp up = Ok df' ->
  exists lo hi,
    np_percentile (dropna l) lp = Ok lo
    /\ np_percentile (dropna l) up = Ok hi
    /\ get_col col df' = Some (FloatS (map (clip lo hi) l))
    /\ forall x,
         (PrimFloat.is_nan x = true -> clip lo hi x = PrimFloat.nan)
         /\ (PrimFloat.is_nan x = false -> PrimFloat.leb lo hi = true ->
             PrimFloat.leb lo (clip lo hi x) = true
             /\ PrimFloat.leb (clip lo hi x) hi = true
             /\ (PrimFloat.leb lo x = true -> PrimFloat.leb x hi = true ->
                 clip lo hi x = x))
         /\ (PrimFloat.is_nan x = false -> PrimFloat.ltb hi lo = true ->
             PrimFloat.leb hi (clip lo hi x) = true
             /\ PrimFloat.leb (clip lo hi x) lo = true
             /\ (PrimFloat.leb hi x = true -> PrimFloat.leb x lo = true ->
                 clip lo hi x = x)).
Proof.
  intros Hnd Hin Hs H.
  destruct (clip_outliers_own_percentiles cols df df' lp up col l Hnd Hin Hs H)
    as (lo & hi & Hlo & Hhi & Hg).
  exists lo, hi. split; [exact Hlo|]. split; [exact Hhi|]. split; [exact Hg|].
  intros x. split; [|split].
  - intros Hx. rewrite (is_nan_eq x Hx). apply clip_nan.
  - intros Hx Hle. exact (clip_between lo hi x Hle Hx).
  - intros Hx Hlt. rewrite (clip_swapped lo hi x Hlt).
    exact (clip_between hi lo x (float_lt_le _ _ Hlt) Hx).
Qed.

End ClipBounds.

(** ** create_kpis and add_time_features: the columns they leave alone *)

Section FrameOfTransforms.

Context {F : Type} {NF : Number F} {SUM : Summation F} {LIB : Library F}.

Implicit Types (df : DataFrame F) (s : Series F) (c : string).

Lemma timestamp_not_feature : ~ In "timestamp" time_features.
Proof. unfold time_features. simpl. intuition discriminate. Qed.

Lemma create_kpis_other df df' c :
  create_kpis df = Ok df' -> c <> "specific_power_consumption" ->
  get_col c df' = get_col c df.
Proof.
  unfold create_kpis.
  destruct (has_col "mill_power_kwh" df && has_col "throughput_tph" df)%bool.
  2:{ now intros [= <-]. }
  destruct (getitem "mill_power_kwh" df) as [a|]; simpl; [|discriminate].
  destruct (getitem "throughput_tph" df) as [b|]; simpl; [|discriminate].
  destruct (truediv a b) as [q|]; simpl; [|discriminate].
  intros [= <-] Hne. apply get_set_col_other. congruence.
Qed.

(** X9: [create_kpis] writes one column only.  Whenever it returns, every
    column other than [specific_power_consumption] is the one of the input;
    the labels are those of the input, with the KPI column appended at the
    end when it is new; and without both operand columns the table is
    returned as it is. *)
Theorem create_kpis_frame df df' :
  create_kpis df = Ok df' ->
  (forall c, c <> "specific_power_consumption" -> get_col c df' = get_col c df)
  /\ (column_names df' = column_names df
      \/ has_col "specific_power_consumption" df = false
         /\ column_names df'
            = (column_names df ++ ["specific_power_consumption"])%list)
  /\ (has_col "mill_power_kwh" df && has_col "throughput_tph" df = false ->
      df' = df).
Proof.
  unfold create_kpis.
  destruct (has_col "mill_power_kwh" df && has_col "throughput_tph" df)%bool.
  2:{ intros [= <-]. auto. }
  destruct (getitem "mill_power_kwh" df) as [a|]; simpl; [|discriminate].
  destruct (getitem "throughput_tph" df) as [b|]; simpl; [|discriminate].
  destruct (truediv a b) as [q|]; simpl; [|discriminate].
  intros [= <-]. split; [|split].
  - intros c Hne. apply get_set_col_other. congruence.
  - destruct (has_col "specific_power_consumption" df) eqn:E.
    + left. now apply column_names_set_col_present.
    + right. split; auto. now apply column_names_set_col_absent.
  - discriminate.
Qed.

Lemma get_col_with_time_features_other df ts l c :
  c <> ts -> ~ In c time_features ->
  get_col c (with_time_features df ts l) = get_col c df.
Proof.
  intros Hts Hc. unfold with_time_features.
  unfold time_features in Hc. simpl in Hc.
  rewrite !get_set_col_other; auto; intros <-; tauto.
Qed.

Lemma get_col_with_time_features_ts df ts l :
  ~ In ts time_features ->
  get_col ts (with_time_features df ts l) = Some (DtS l).
Proof.
  intros Hc. unfold with_time_features.
  unfold time_features in Hc. simpl in Hc.
  rewrite !get_set_col_other by (intros <-; tauto).
  apply get_set_col_same.
Qed.

Lemma dt_field_is_numeric (f : Z -> Z) (l : list (option Z)) :
  is_numeric (dt_field (F:=F) f l) = true.
Proof. unfold dt_field. now destruct (forallb is_some l). Qed.

Lemma add_time_features_Ok df ts df' :
  ~ In ts time_features -> add_time_features df ts = Ok df' ->
  exists s, get_col ts df = Some s
            /\ df' = with_time_features df ts (to_datetime_coerce s).
Proof.
  intros Hts H. destruct (get_col ts df) as [s|] eqn:Es.
  - exists s. split; auto.
    rewrite (add_time_features_present df ts s Es Hts) in H. now injection H.
  - apply has_col_false in Es.
    rewrite add_time_features_absent in H by auto. discriminate.
Qed.

(** X10: the columns [add_time_features] writes.  For a timestamp column
    that is not itself named after a feature, a successful call leaves
    every column other than the timestamp and the four features as it was,
    replaces the timestamp column by its conversion to datetimes (what does
    not convert is NaT), and the four feature columns it adds are
    numeric. *)
Theorem add_time_features_frame df ts df' :
  ~ In ts time_features -> add_time_features df ts = Ok df' ->
  (forall c, c <> ts -> ~ In c time_features -> get_col c df' = get_col c df)
  /\ (exists s, get_col ts df = Some s
                /\ get_col ts df' = Some (DtS (to_datetime_coerce s)))
  /\ (forall c, In c time_features ->
        exists s, get_col c df' = Some s /\ is_numeric s = true).
Proof.
  intros Hts H. apply add_time_features_Ok in H as (s & Hs & ->); auto.
  split; [|split].
  - intros c H1 H2. now apply get_col_with_time_features_other.
  - exists s. split; auto. now apply get_col_with_time_features_ts.
  - intros c Hc. unfold time_features in Hc. simpl in Hc.
    unfold with_time_features.
    destruct Hc as [<-|[<-|[<-|[<-|[]]]]];
      rewrite ?get_set_col_other by discriminate;
      rewrite get_set_col_same; eexists; split; eauto;
      apply dt_field_is_numeric.
Qed.

(** X11: [add_time_features] is idempotent.  Applied to its own result (for
    a timestamp column not named after a feature) it returns that result:
    a datetime column converts to itself and the four features are
    recomputed to the same values. *)
Theorem add_time_features_idempotent df ts df' :
  ~ In ts time_features -> add_time_features df ts = Ok df' ->
  add_time_features df' ts = Ok df'.
Proof.
  intros Hts H. apply add_time_features_Ok in H as (s & Hs & ->); auto.
  set (l := to_datetime_coerce s).
  rewrite (add_time_features_present _ ts (DtS l)); auto.
  2:{ now apply get_col_with_time_features_ts. }
  f_equal. simpl.
  assert ("hour" <> ts /\ "day" <> ts /\ "weekday" <> ts /\ "month" <> ts)
    as (H1 & H2 & H3 & H4).
  { unfold time_features in Hts. simpl in Hts. repeat split; intros <-; tauto. }
  unfold with_time_features at 1.
  rewrite (set_col_same_value ts (DtS l)).
  2:{ now apply get_col_with_time_features_ts. }
  rewrite (set_col_same_value "hour").
  2:{ unfold with_time_features.
      rewrite !get_set_col_other by discriminate. apply get_set_col_same. }
  rewrite (set_col_same_value "day").
  2:{ unfold with_time_features.
      rewrite !get_set_col_other by discriminate. apply get_set_col_same. }
  rewrite (set_col_same_value "weekday").
  2:{ unfold with_time_features.
      rewrite !get_set_col_other by discriminate. apply get_set_col_same. }
  apply set_col_same_value.
  unfold with_time_features. apply get_set_col_same.
Qed.

End FrameOfTransforms.

Section FrameWitness.

Import Reference Examples.

Lemma clip_outliers_within_bounds_witness :
  exists df' lo hi,
    clip_outliers with_outlier ["a"] 1%float 99%float = Ok df'
    /\ np_percentile (dropna [1; 1; 1; 1; 100]%float) 1%float = Ok lo
    /\ np_percentile (dropna [1; 1; 1; 1; 100]%float) 99%float = Ok hi
    /\ get_col "a" df'
       = Some (FloatS (map (clip lo hi) [1; 1; 1; 1; 100]%float)).
Proof.
  assert (exists d, clip_outliers with_outlier ["a"] 1%float 99%float = Ok d)
    as [df' E] by (eexists; vm_compute; reflexivity).
  destruct (clip_outliers_within_bounds with_outlier df' ["a"] 1%float 99%float
              "a" [1; 1; 1; 1; 100]%float)
    as (lo & hi & H1 & H2 & H3 & _).
  - solve_NoDup.
  - simpl. auto.
  - reflexivity.
  - exact E.
  - exists df', lo, hi. auto.
Defined.

(** Percentiles given in the wrong order, 99 and 1, clip as 1 and 99 do. *)
Lemma clip_outliers_swapped_percentiles :
  clip_outliers (mkDF 4 [("a", FloatS [1; 2; 3; 50]%float)]) ["a"] 99%float 1%float
  = clip_outliers (mkDF 4 [("a", FloatS [1; 2; 3; 50]%float)]) ["a"] 1%float 99%float
  /\ exists lo hi,
       np_percentile [1; 2; 3; 50]%float 1%float = Ok lo
       /\ np_percentile [1; 2; 3; 50]%float 99%float = Ok hi
       /\ PrimFloat.ltb lo hi = true
       /\ clip_outliers (mkDF 4 [("a", FloatS [1; 2; 3; 50]%float)]) ["a"]
                        99%float 1%float
          = Ok (mkDF 4 [("a", FloatS [lo; 2; 3; hi]%float)]).
Proof.
  split; [vm_compute; reflexivity|].
  eexists. eexists. repeat split; vm_compute; reflexivity.
Qed.

Lemma create_kpis_frame_witness :
  exists df',
    create_kpis kpi_scenario = Ok df'
    /\ get_col "mill_power_kwh" df' = get_col "mill_power_kwh" kpi_scenario
    /\ get_col "throughput_tph" df' = get_col "throughput_tph" kpi_scenario.
Proof.
  assert (exists d, create_kpis kpi_scenario = Ok d) as [df' E]
    by (eexists; vm_compute; reflexivity).
  destruct (create_kpis_frame kpi_scenario df' E) as (H & _ & _).
  exists df'. split; [exact E|].
  split; apply H; discriminate.
Defined.

Lemma add_time_features_frame_witness :
  exists df',
    add_time_features mixed_timestamps "timestamp" = Ok df'
    /\ get_col "a" df' = get_col "a" mixed_timestamps.
Proof.
  assert (exists d, add_time_features mixed_timestamps "timestamp" = Ok d)
    as [df' E] by (eexists; vm_compute; reflexivity).
  destruct (add_time_features_frame mixed_timestamps "timestamp" df')
    as (H & _ & _).
  - simpl. intuition discriminate.
  - exact E.
  - exists df'. split; [exact E|].
    apply H; [discriminate|simpl; intuition discriminate].
Defined.

Lemma add_time_features_idempotent_witness :
  exists df',
    add_time_features mixed_timestamps "timestamp" = Ok df'
    /\ add_time_features df' "timestamp" = Ok df'.
Proof.
  assert (exists d, add_time_features mixed_timestamps "timestamp" = Ok d)
    as [df' E] by (eexists; vm_compute; reflexivity).
  exists df'. split; [exact E|].
  apply (add_time_features_idempotent mixed_timestamps "timestamp" df');
    [simpl; intuition discriminate|exact E].
Defined.

End FrameWitness.

(** ** The orchestrator: what validation accepts, and how preprocessing fails *)

Section PipelinesFurther.

Context {F : Type} {NF : Number F} {SUM : Summation F} {LIB : Library F}.

Implicit Types (df : DataFrame F) (s : Series F) (c : string).

Lemma filter_nil_iff {A : Type} (f : A -> bool) (l : list A) :
  filter f l = [] <-> forall x, In x l -> f x = false.
Proof.
  induction l as [|x r IH]; simpl.
  - split; auto. intros _ x [].
  - destruct (f x) eqn:E; split.
    + discriminate.
    + intros H. rewrite (H x) in E by auto. discriminate.
    + intros H y [<-|Hy]; auto. now apply IH.
    + intros H. apply IH. auto.
Qed.

Lemma empty_columns_nil df :
  empty_columns df = [] <->
  forall c s, In (c, s) (columns df) -> dropna_empty s = false.
Proof.
  unfold empty_columns. split.
  - intros H c s Hin. apply map_eq_nil in H.
    exact (proj1 (filter_nil_iff _ _) H (c, s) Hin).
  - intros H.
    assert (filter (fun x : string * Series F => dropna_empty (snd x)) (columns df)
            = []) as ->; auto.
    apply filter_nil_iff. intros [c s] Hin. exact (H c s Hin).
Qed.

Lemma missing_columns_nil (schema : Schema) df :
  missing_columns schema df = [] <->
  forall col, In col (expected_columns schema) -> has_col col df = true.
Proof.
  unfold missing_columns. fold (expected_columns schema).
  rewrite filter_nil_iff. split; intros H col Hin.
  - specialize (H col Hin). now destruct (has_col col df).
  - now rewrite (H col Hin).
Qed.

Lemma pipelines_validate_schema_Ok SCHEMAS df stage b :
  pipelines_validate_schema SCHEMAS df stage = Ok b ->
  b = true
  /\ exists schema,
       lookup stage SCHEMAS = Some schema
       /\ missing_columns schema df = []
       /\ empty_columns df = []
       /\ (forall s, get_col "timestamp" df = Some s ->
                     to_datetime_strict s <> None).
Proof.
  unfold pipelines_validate_schema.
  destruct (lookup stage SCHEMAS) as [schema|] eqn:El; [|discriminate].
  fold (missing_columns schema df).
  destruct (nonempty (missing_columns schema df)) eqn:Em; [discriminate|].
  apply nonempty_false in Em.
  destruct (nonempty (empty_columns df)) eqn:Ee; [discriminate|].
  apply nonempty_false in Ee.
  destruct (has_col "timestamp" df) eqn:Et.
  - apply has_col_true in Et as [s Hs]. unfold getitem. rewrite Hs. simpl.
    destruct (to_datetime_strict s) as [l|] eqn:Est; [|discriminate].
    intros [= <-]. split; auto. exists schema. repeat split; auto.
    intros s' [= <-]. congruence.
  - intros [= <-]. split; auto. exists schema. repeat split; auto.
    apply has_col_false in Et. intros s Hs. congruence.
Qed.

(** X12: what the orchestrator's [validate_schema] accepts.  It never
    returns False: it returns True or raises.  It returns True exactly when
    the stage is in the registry, every column the registry expects is in
    the table, no column of the table (expected or not) is entirely null,
    and the [timestamp] column, if the table has one, converts to
    datetimes without an error. *)
Theorem pipelines_validate_schema_accepts
    (SCHEMAS : list (string * Schema)) df (stage : string) :
  (forall b, pipelines_validate_schema SCHEMAS df stage = Ok b -> b = true)
  /\ (pipelines_validate_schema SCHEMAS df stage = Ok true <->
      exists schema,
        lookup stage SCHEMAS = Some schema
        /\ (forall col, In col (expected_columns schema) -> has_col col df = true)
        /\ (forall c s, In (c, s) (columns df) -> dropna_empty s = false)
        /\ (forall s, get_col "timestamp" df = Some s ->
                      to_datetime_strict s <> None)).
Proof.
  split.
  { intros b H. now apply pipelines_validate_schema_Ok in H. }
  split.
  - intros H. apply pipelines_validate_schema_Ok in H
      as (_ & schema & Hl & Hm & He & Hts).
    exists schema. split; auto. split; [now apply missing_columns_nil|].
    split; [now apply empty_columns_nil|]. exact Hts.
  - intros (schema & Hl & Hm & He & Hts).
    apply missing_columns_nil in Hm. apply empty_columns_nil in He.
    unfold pipelines_validate_schema. rewrite Hl.
    fold (missing_columns schema df). rewrite Hm, He. simpl.
    destruct (has_col "timestamp" df) eqn:Et; auto.
    apply has_col_true in Et as [s Hs]. unfold getitem. rewrite Hs. simpl.
    destruct (to_datetime_strict s) eqn:Est; auto.
    now destruct (Hts s Hs).
Qed.

Lemma pipelines_validate_schema_Err SCHEMAS df stage e :
  pipelines_validate_schema SCHEMAS df stage = Err e ->
  e = SchemaNotFound stage
  \/ (exists cols, cols <> [] /\ e = MissingColumns stage cols)
  \/ (exists cols, cols <> [] /\ e = EmptyColumns stage cols)
  \/ e = TimestampParseError stage.
Proof.
  unfold pipelines_validate_schema.
  destruct (lookup stage SCHEMAS) as [schema|]; [|intros [= <-]; auto].
  match goal with |- context [nonempty ?l] => destruct (nonempty l) eqn:Em end.
  { intros [= <-]. right. left. eexists. split; [|reflexivity].
    now apply nonempty_true. }
  destruct (nonempty (empty_columns df)) eqn:Ee.
  { intros [= <-]. right. right. left. eexists. split; [|reflexivity].
    now apply nonempty_true. }
  destruct (has_col "timestamp" df) eqn:Et; [|discriminate].
  apply has_col_true in Et as [s Hs]. unfold getitem. rewrite Hs. simpl.
  destruct (to_datetime_strict s); [discriminate|].
  intros [= <-]. auto.
Qed.

Lemma with_time_features_numeric df ts l :
  numeric_cols (with_time_features df ts l) <> [].
Proof.
  intros H.
  assert (In "month" (numeric_cols (with_time_features df ts l))) as Hin.
  { apply numeric_cols_In. exists (dt_field Datetime.month l).
    split; [|apply dt_field_is_numeric].
    apply assoc_In. unfold with_time_features.
    exact (get_set_col_same "month" _ _). }
  rewrite H in Hin. exact Hin.
Qed.

Lemma dropna_empty_no_rows s : series_len s = 0%nat -> dropna_empty s = true.
Proof.
  destruct s as [l|l|l|l|l]; simpl; intros H;
    apply length_zero_iff_nil in H; now subst.
Qed.

(** The two transform steps fail in one of four ways; the no-numeric-column
    error of [normalize_features] is not among them, since the month
    feature is always there. *)
Lemma preprocess_transforms_Err df m e :
  preprocess_transforms df m = Err e ->
  e = MissingColumn "timestamp" /\ has_col "timestamp" df = false
  \/ has_col "timestamp" df = true
     /\ (e = UnsupportedMethod
         \/ e = EstimatorNoSamples /\ nrows df = 0%nat
         \/ e = EstimatorNonFinite).
Proof.
  unfold preprocess_transforms.
  destruct (has_col "timestamp" df) eqn:Et.
  - pose proof Et as Et'. apply has_col_true in Et' as [s Hs].
    rewrite (add_time_features_present df "timestamp" s Hs timestamp_not_feature).
    simpl.
    set (d := with_time_features df "timestamp" (to_datetime_coerce s)).
    rewrite (normalize_features_numeric d m)
      by apply with_time_features_numeric.
    intros H. right. split; auto.
    assert (forall est : Estimator,
              (do _ <- check_array (nrows d) (numeric_block d);
               Ok (fst (map_columns (scale_column (fit est) (transform est)) d,
                        fitted est (map (fit est) (numeric_block d))))) = Err e ->
              e = EstimatorNoSamples /\ nrows df = 0%nat
              \/ e = EstimatorNonFinite) as Hca.
    { intros est.
      destruct (check_array (nrows d) (numeric_block d)) as [[]|e'] eqn:Ec;
        simpl; [discriminate|]. intros [= <-].
      apply check_array_Err in Ec as [[-> Hn]|[-> _]]; auto. }
    destruct (String.eqb m "minmax").
    { right. apply (Hca MinMax). revert H.
      destruct (check_array (nrows d) (numeric_block d)); simpl; auto. }
    destruct (String.eqb m "standard").
    { right. apply (Hca Standard). revert H.
      destruct (check_array (nrows d) (numeric_block d)); simpl; auto. }
    simpl in H. injection H as <-. now left.
  - rewrite add_time_features_absent by auto. simpl. intros [= <-]. auto.
Qed.


(** X14: validation protects the timestamps.  When
    [validate_and_add_time_features] succeeds on a table whose [timestamp]
    column holds strings, that column held at least one string, and every
    string in it that is not one of the strings pandas reads as a missing
    value ([NaT], [nan], the empty string) was converted to an instant:
    none was coerced to NaT.  The NaT of the result are at the rows that
    were null already and at the rows that held such a string, which the
    strict conversion of the validator lets through. *)
Theorem validated_timestamps_all_convert
    (SCHEMAS : list (string * Schema)) df (stage : string) df'
    (l : list (option string)) :
  validate_and_add_time_features SCHEMAS df stage "timestamp" = Ok df' ->
  get_col "timestamp" df = Some (ObjS l) ->
  exists l',
    get_col "timestamp" df' = Some (DtS l')
    /\ List.length l' = List.length l
    /\ (exists str, In (Some str) l)
    /\ forall i,
         (nth_error l i = Some None -> nth_error l' i = Some None)
         /\ (forall str, nth_error l i = Some (Some str) ->
               if nat_string str then nth_error l' i = Some None
               else exists ns, parse_datetime l str = Some ns
                               /\ nth_error l' i = Some (Some ns)).
Proof.
  unfold validate_and_add_time_features. intros H Hs.
  destruct (pipelines_validate_schema SCHEMAS df stage) as [b|] eqn:Ev;
    simpl in H; [|discriminate].
  apply pipelines_validate_schema_Ok in Ev as (_ & schema & _ & _ & He & Hts).
  apply add_time_features_Ok in H as (s & Hs' & ->);
    [|exact timestamp_not_feature].
  rewrite Hs in Hs'. injection Hs' as <-.
  exists (to_datetime_coerce (ObjS l)).
  split; [apply get_col_with_time_features_ts, timestamp_not_feature|].
  split; [apply (to_datetime_coerce_length (ObjS l))|].
  split.
  { pose proof (proj1 (empty_columns_nil df) He _ _ (assoc_In _ _ _ Hs)) as Hne.
    unfold dropna_empty in Hne. simpl in Hne. clear - Hne.
    induction l as [|[str|] r IH]; simpl in *; [discriminate|eauto|].
    destruct (IH Hne) as [str Hin]. eauto. }
  specialize (Hts _ Hs). unfold to_datetime_strict in Hts.
  match type of Hts with
  | (if ?b then _ else _) <> None => destruct b eqn:Hall
  end; [|congruence].
  clear Hts. rewrite forallb_forall in Hall.
  intros i. simpl. rewrite nth_error_map. split.
  - intros ->. reflexivity.
  - intros str Hi. rewrite Hi. simpl.
    specialize (Hall _ (nth_error_In _ _ Hi)). simpl in Hall.
    destruct (nat_string str); [reflexivity|].
    destruct (parse_datetime l str) as [ns|]; [eauto|discriminate].
Qed.

(** X15: the [get_preprocessed_data] in effect never gets past its third
    step.  For every file it raises: the error of [add_time_features] or of
    [normalize_features] when one of these two fails, and otherwise always
    the TypeError of calling [fill_missing_values] with the keyword
    [strategy]; nothing is clipped, no KPI is computed, nothing is
    returned. *)
Theorem get_preprocessed_data_file_error df (m : string) :
  exists e,
    get_preprocessed_data_file df m = Err e
    /\ (e = TypeError <-> is_ok (preprocess_transforms df m) = true)
    /\ (e <> TypeError -> preprocess_transforms df m = Err e).
Proof.
  unfold get_preprocessed_data_file.
  destruct (preprocess_transforms df m) as [d|e] eqn:Ep.
  - exists TypeError. unfold preprocess_transforms in Ep.
    destruct (add_time_features df "timestamp") as [d1|]; simpl in *;
      [|discriminate].
    destruct (normalize_features d1 m) as [r|]; simpl in *; [|discriminate].
    split; auto. split; [tauto|congruence].
  - exists e. pose proof Ep as Ep'.
    apply preprocess_transforms_Err in Ep'.
    unfold preprocess_transforms in Ep.
    destruct (add_time_features df "timestamp") as [d1|]; simpl in *.
    + destruct (normalize_features d1 m) as [r|]; simpl in *; [discriminate|].
      split; auto. split; auto. split; [|discriminate].
      intros ->. destruct Ep' as [[? _]|[_ [?|[[? _]|?]]]]; discriminate.
    + split; auto. split; auto. split; [|discriminate].
      intros ->. destruct Ep' as [[? _]|[_ [?|[[? _]|?]]]]; discriminate.
Qed.

End PipelinesFurther.

Section PipelinesWitness.

Import Reference Examples.


Lemma validated_timestamps_all_convert_witness :
  exists df' l',
    validate_and_add_time_features registry readings stage1 "timestamp" = Ok df'
    /\ get_col "timestamp" df' = Some (DtS l')
    /\ List.length l' = 2%nat.
Proof.
  assert (exists d, validate_and_add_time_features registry readings stage1
                      "timestamp" = Ok d)
    as [df' E] by (eexists; vm_compute; reflexivity).
  destruct (validated_timestamps_all_convert registry readings stage1 df'
              [Some "2025-09-17T23:10:01"; Some "2025-09-17T23:11:01"] E eq_refl)
    as (l' & H1 & H2 & _).
  exists df', l'. auto.
Defined.

End PipelinesWitness.

(** ** The loader: its two validators, and the loop over the stage files *)

Section LoadersFurther.

Context {F : Type} {NF : Number F} {SUM : Summation F} {LIB : Library F}.

Implicit Types (df : DataFrame F) (s : Series F) (c : string).

(** X16: the loader's two validators compared.  [validate] is the stricter
    one: it accepts exactly the tables [validate_schema] accepts that also
    have a [timestamp] column and no entirely null column.  On missing
    fields they give the same answer, and they raise together (on a schema
    document without a field list). *)
Theorem validate_stricter_than_validate_schema df (schema : Schema) :
  (validate df schema = Ok (true, MsgOK) <->
     loaders_validate_schema df schema = Ok (true, MsgOK)
     /\ has_col "timestamp" df = true
     /\ empty_columns df = [])
  /\ (forall cols,
        validate df schema = Ok (false, MsgMissingColumns cols) <->
        loaders_validate_schema df schema = Ok (false, MsgMissingColumns cols))
  /\ (forall e, validate df schema = Err e <->
                loaders_validate_schema df schema = Err e).
Proof.
  unfold validate, loaders_validate_schema.
  destruct (fields schema) as [fs|].
  2:{ split; [|split].
      - split; [discriminate|]. intros [H _]. discriminate.
      - intros cols. tauto.
      - intros e. tauto. }
  destruct (nonempty (missing_from (map field_name fs) df)) eqn:Em.
  { split; [|split].
    - split; [discriminate|]. intros [H _]. discriminate.
    - intros cols. tauto.
    - intros e. tauto. }
  destruct (has_col "timestamp" df) eqn:Et.
  - apply has_col_true in Et as [s Hs]. unfold getitem. rewrite Hs. simpl.
    destruct (nonempty (empty_columns df)) eqn:Ee.
    + split; [|split].
      * split; [discriminate|]. intros (_ & _ & H). rewrite H in Ee. discriminate.
      * intros cols. split; [discriminate|].
        destruct (to_datetime_strict s); discriminate.
      * intros e. split; [discriminate|].
        destruct (to_datetime_strict s); discriminate.
    + apply nonempty_false in Ee. split; [|split].
      * destruct (to_datetime_strict s); split; auto; try discriminate.
        intros [H _]. discriminate.
      * intros cols. tauto.
      * intros e. tauto.
  - apply has_col_false in Et. unfold getitem. rewrite Et.
    split; [|split].
    + split.
      * destruct (nonempty (empty_columns df)); discriminate.
      * intros (_ & H & _). discriminate.
    + intros cols. split; [|discriminate].
      destruct (nonempty (empty_columns df)); discriminate.
    + intros e. split; [|discriminate].
      destruct (nonempty (empty_columns df)); discriminate.
Qed.

Lemma missing_from_In (cols : list string) df c :
  In c (missing_from cols df) <-> In c cols /\ has_col c df = false.
Proof.
  unfold missing_from. rewrite nodup_In, filter_In.
  now destruct (has_col c df).
Qed.

(** X17: what the "Missing columns" answer lists.  When the schema has a
    field list, [validate_schema] gives that answer exactly when some
    declared field is not a column of the table; the set it reports is not
    empty, has each label once, and holds precisely the declared field
    names that the table lacks. *)
Theorem validate_schema_reports_missing_fields
    df (schema : Schema) (fs : list Field) :
  fields schema = Some fs ->
  ((exists f, In f fs /\ has_col (field_name f) df = false) <->
   exists cols, loaders_validate_schema df schema
                = Ok (false, MsgMissingColumns cols))
  /\ (forall cols,
        loaders_validate_schema df schema = Ok (false, MsgMissingColumns cols) ->
        cols <> [] /\ NoDup cols
        /\ forall c, In c cols <->
                     (exists f, In f fs /\ field_name f = c)
                     /\ has_col c df = false).
Proof.
  intros Hf. unfold loaders_validate_schema. rewrite Hf.
  destruct (nonempty (missing_from (map field_name fs) df)) eqn:Em.
  - apply nonempty_true in Em. split.
    + split; [eauto|]. intros _.
      destruct (missing_from (map field_name fs) df) as [|c r] eqn:E;
        [congruence|].
      assert (In c (missing_from (map field_name fs) df)) as Hc
        by (rewrite E; now left).
      apply missing_from_In in Hc as [Hc1 Hc2].
      apply in_map_iff in Hc1 as (f & <- & Hin). eauto.
    + intros cols [= <-]. split; auto. split; [apply NoDup_nodup|].
      intros c. rewrite missing_from_In, in_map_iff.
      split; intros [(f & H1 & H2) H3]; split; eauto.
  - apply nonempty_false in Em. split.
    + split.
      * intros (f & Hin & Hc). exfalso.
        assert (In (field_name f) (missing_from (map field_name fs) df)) as H.
        { apply missing_from_In. split; auto. now apply in_map. }
        rewrite Em in H. exact H.
      * intros [cols H]. exfalso. revert H.
        destruct (has_col "timestamp" df); [|discriminate].
        destruct (getitem "timestamp" df) as [s|]; simpl; [|discriminate].
        destruct (to_datetime_strict s); discriminate.
    + intros cols H. exfalso. revert H.
      destruct (has_col "timestamp" df); [|discriminate].
      destruct (getitem "timestamp" df) as [s|]; simpl; [|discriminate].
      destruct (to_datetime_strict s); discriminate.
Qed.

Lemma lookup_update_same {A : Type} k (v : A) d : lookup k (update k v d) = Some v.
Proof.
  induction d as [|[k' v'] r IH]; simpl.
  - now rewrite String.eqb_refl.
  - destruct (String.eqb k k') eqn:E; simpl; rewrite ?String.eqb_refl, ?E; auto.
Qed.

Lemma lookup_update_other {A : Type} k k' (v : A) d :
  k <> k' -> lookup k' (update k v d) = lookup k' d.
Proof.
  intros Hne. induction d as [|[k0 v0] r IH]; simpl.
  - destruct (String.eqb k' k) eqn:E; auto.
    apply String.eqb_eq in E. congruence.
  - destruct (String.eqb k k0) eqn:E; simpl.
    + apply String.eqb_eq in E. subst k0.
      destruct (String.eqb k' k) eqn:E'; auto.
      apply String.eqb_eq in E'. congruence.
    + destruct (String.eqb k' k0); auto.
Qed.

(** A stage name that no file carries keeps the entry it had. *)
Lemma load_stage_files_untouched (schema_mapping : list (string * Schema))
    (files : list (string * DataFrame F)) :
  forall datasets log ds lg k,
  load_stage_files schema_mapping files datasets log = Ok (ds, lg) ->
  ~ In k (map fst files) -> lookup k ds = lookup k datasets.
Proof.
  induction files as [|[stage df0] rest IH]; simpl;
    intros datasets log ds lg k H Hk.
  - now injection H as <- <-.
  - destruct (lookup stage schema_mapping) as [schema|].
    + destruct (loaders_validate_schema df0 schema) as [r|]; simpl in H;
        [|discriminate].
      rewrite (IH _ _ _ _ k H) by tauto.
      apply lookup_update_other. tauto.
    + apply (IH _ _ _ _ k H). tauto.
Qed.

(** The last file of a stage that has a schema is the one kept. *)
Lemma load_stage_files_last (schema_mapping : list (string * Schema))
    (pre : list (string * DataFrame F)) :
  forall post k df datasets log ds lg,
  load_stage_files schema_mapping (pre ++ (k, df) :: post)%list datasets log
  = Ok (ds, lg) ->
  ~ In k (map fst post) -> lookup k schema_mapping <> None ->
  lookup k ds = Some df.
Proof.
  induction pre as [|[stage df0] pre IH]; simpl;
    intros post k df datasets log ds lg H Hk Hsch.
  - destruct (lookup k schema_mapping) as [schema|]; [|congruence].
    destruct (loaders_validate_schema df schema) as [r|]; simpl in H;
      [|discriminate].
    rewrite (load_stage_files_untouched _ _ _ _ _ _ k H Hk).
    apply lookup_update_same.
  - destruct (lookup stage schema_mapping) as [schema|].
    + destruct (loaders_validate_schema df0 schema) as [r|]; simpl in H;
        [|discriminate].
      exact (IH _ _ _ _ _ _ _ H Hk Hsch).
    + exact (IH _ _ _ _ _ _ _ H Hk Hsch).
Qed.

Lemma in_split_last (files : list (string * DataFrame F)) k :
  In k (map fst files) ->
  exists pre df post,
    files = (pre ++ (k, df) :: post)%list /\ ~ In k (map fst post).
Proof.
  induction files as [|[k0 df0] rest IH]; simpl; [tauto|].
  intros H. destruct (in_dec string_dec k (map fst rest)) as [Hin|Hnin].
  - destruct (IH Hin) as (pre & df & post & -> & Hp).
    exists ((k0, df0) :: pre), df, post. auto.
  - destruct H as [->|H]; [|contradiction].
    exists [], df0, rest. auto.
Qed.

Lemma load_stage_files_provenance (schema_mapping : list (string * Schema))
    (files : list (string * DataFrame F)) :
  forall datasets log ds lg k df,
  load_stage_files schema_mapping files datasets log = Ok (ds, lg) ->
  lookup k ds = Some df ->
  In (k, df) files /\ lookup k schema_mapping <> None
  \/ lookup k datasets = Some df.
Proof.
  induction files as [|[stage df0] rest IH]; simpl;
    intros datasets log ds lg k df H Hk.
  - injection H as <- <-. auto.
  - destruct (lookup stage schema_mapping) as [schema|] eqn:El.
    + destruct (loaders_validate_schema df0 schema) as [r|]; simpl in H;
        [|discriminate].
      destruct (IH _ _ _ _ _ _ H Hk) as [[H1 H2]|H1]; auto.
      destruct (string_dec stage k) as [<-|Hne].
      * rewrite lookup_update_same in H1. injection H1 as <-.
        left. split; auto. congruence.
      * rewrite lookup_update_other in H1 by auto. auto.
    + destruct (IH _ _ _ _ _ _ H Hk) as [[H1 H2]|H1]; auto.
Qed.

(** X18: what [load_stage_files] returns.  Starting from the empty
    dictionary, a stage name is a key of the result exactly when some file
    carries that name and a schema exists for it; the table stored is one
    that was read from such a file, as read (a failed validation only logs
    a warning), and when several files carry the same stage name the last
    one is kept. *)
Theorem load_stage_files_result
    (schema_mapping : list (string * Schema))
    (files : list (string * DataFrame F))
    (ds : list (string * DataFrame F)) (lg : list LogRecord) :
  load_stage_files schema_mapping files [] [] = Ok (ds, lg) ->
  (forall k, lookup k ds <> None <->
             In k (map fst files) /\ lookup k schema_mapping <> None)
  /\ (forall k df, lookup k ds = Some df -> In (k, df) files)
  /\ (forall pre k df post,
        files = (pre ++ (k, df) :: post)%list -> ~ In k (map fst post) ->
        lookup k schema_mapping <> None -> lookup k ds = Some df).
Proof.
  intros H. split; [|split].
  - intros k. split.
    + intros Hk. destruct (lookup k ds) as [df|] eqn:E; [|congruence].
      destruct (load_stage_files_provenance _ _ _ _ _ _ _ _ H E)
        as [[H1 H2]|H1]; [|discriminate].
      split; auto. apply (in_map fst) in H1. exact H1.
    + intros [Hin Hsch].
      destruct (in_split_last files k Hin) as (pre & df & post & Hf & Hp).
      rewrite Hf in H.
      rewrite (load_stage_files_last _ _ _ _ _ _ _ _ _ H Hp Hsch). discriminate.
  - intros k df Hk.
    destruct (load_stage_files_provenance _ _ _ _ _ _ _ _ H Hk)
      as [[H1 _]|H1]; [auto|discriminate].
  - intros pre k df post Hf Hp Hsch. rewrite Hf in H.
    exact (load_stage_files_last _ _ _ _ _ _ _ _ _ H Hp Hsch).
Qed.

End LoadersFurther.

Section LoadersWitness.

Import Reference Examples.

Lemma validate_schema_reports_missing_fields_witness :
  exists cols,
    loaders_validate_schema readings_without_b
      (mkSchema (Some [mkField "timestamp" "string"; mkField "a" "float";
                       mkField "b" "float"]) None)
    = Ok (false, MsgMissingColumns cols).
Proof.
  destruct (validate_schema_reports_missing_fields readings_without_b
              (mkSchema (Some [mkField "timestamp" "string"; mkField "a" "float";
                               mkField "b" "float"]) None)
              [mkField "timestamp" "string"; mkField "a" "float";
               mkField "b" "float"] eq_refl) as [[H _] _].
  apply H. exists (mkField "b" "float"). split; [simpl; auto|reflexivity].
Defined.

Lemma load_stage_files_result_witness :
  exists ds lg,
    load_stage_files registry [(stage1, readings)] [] [] = Ok (ds, lg)
    /\ lookup stage1 ds = Some readings.
Proof.
  assert (exists r, load_stage_files registry [(stage1, readings)] [] [] = Ok r)
    as [[ds lg] E] by (eexists; vm_compute; reflexivity).
  destruct (load_stage_files_result registry [(stage1, readings)] ds lg E)
    as (_ & _ & H).
  exists ds, lg. split; [exact E|].
  apply (H [] stage1 readings []); [reflexivity|simpl; tauto|discriminate].
Defined.

End LoadersWitness.

(** ** transform_pipeline: the seven steps together *)

Section PipelineFurther.

Context {F : Type} {NF : Number F} {SUM : Summation F} {LIB : Library F}.

Variable scale_features :
  DataFrame F -> list string -> string -> result (DataFrame F).

Implicit Types (df : DataFrame F) (s : Series F) (c : string).

Lemma fill_missing_values_nrows df m df' :
  fill_missing_values df m = Ok df' -> nrows df' = nrows df.
Proof.
  unfold fill_missing_values.
  destruct (List.length (numeric_cols df) =? 0)%nat; [now intros [= <-]|].
  destruct (String.eqb m "mean"); [now intros [= <-]|].
  destruct (String.eqb m "median"); [now intros [= <-]|].
  destruct (String.eqb m "zero"); [now intros [= <-]|discriminate].
Qed.

Lemma add_time_features_Err df ts e :
  ~ In ts time_features -> add_time_features df ts = Err e ->
  e = MissingColumn ts.
Proof.
  intros Hts. destruct (has_col ts df) eqn:E.
  - apply has_col_true in E as [s Hs].
    now rewrite (add_time_features_present df ts s Hs Hts).
  - rewrite add_time_features_absent by auto. now intros [= <-].
Qed.

(** X19: an empty table never gets through [transform_pipeline].  On a
    table without rows the call raises, whatever the methods, the threshold
    and the clip and scale lists: the unsupported-method ValueError of the
    fill step, the KeyError for the timestamp column, or, when these two
    steps pass, the scaler's refusal of an input with no samples (or its
    method check); the steps after normalisation are never reached. *)
Theorem transform_pipeline_no_rows df (nm fm ts : string) (t : F)
    (clip_columns scale_columns : option (list string)) :
  nrows df = 0%nat -> ~ In ts time_features ->
  exists e,
    transform_pipeline scale_features df nm fm ts t clip_columns scale_columns
    = Err e
    /\ (e = UnsupportedMethod \/ e = MissingColumn ts \/ e = EstimatorNoSamples).
Proof.
  intros Hn Hts. unfold transform_pipeline.
  destruct (fill_missing_values df fm) as [d1|e1] eqn:E1; simpl.
  2:{ exists e1. split; auto.
      apply fill_missing_values_Err in E1. auto. }
  apply fill_missing_values_nrows in E1.
  destruct (add_time_features d1 ts) as [d2|e2] eqn:E2; simpl.
  2:{ exists e2. split; auto. apply add_time_features_Err in E2; auto. }
  apply add_time_features_Ok in E2 as (s & Hs & ->); auto.
  set (d2 := with_time_features d1 ts (to_datetime_coerce s)).
  rewrite (normalize_features_numeric d2 nm) by apply with_time_features_numeric.
  assert (check_array (nrows d2) (numeric_block d2) = Err EstimatorNoSamples)
    as Hca.
  { unfold check_array.
    assert (nrows d2 = 0%nat) as -> by (unfold d2; simpl; congruence).
    reflexivity. }
  rewrite Hca.
  destruct (String.eqb nm "minmax"); simpl; [eauto|].
  destruct (String.eqb nm "standard"); simpl; eauto.
Qed.

Lemma clip_outliers_keeps (cols : list string) df (lp up : F) df' c :
  clip_outliers df cols lp up = Ok df' -> ~ In c cols ->
  get_col c df' = get_col c df.
Proof.
  intros H Hc. destruct (clip_outliers_unlisted cols df lp up df' H) as [_ G].
  auto.
Qed.

(** X20: what [transform_pipeline] returns when no column is rescaled
    ([scale_columns] absent or empty, as in the command-line entry point).
    The result is a well-formed table over the rows of the input; its
    [is_anomaly] column, unless it was listed for clipping, holds the
    flags computed on the normalised table (after filling, time features
    and scaling, before any clipping). *)
Theorem transform_pipeline_result df (nm fm ts : string) (t : F)
    (clip_columns scale_columns : option (list string)) df' :
  WF df -> ~ In ts time_features ->
  scale_columns = None \/ scale_columns = Some [] ->
  transform_pipeline scale_features df nm fm ts t clip_columns scale_columns
  = Ok df' ->
  same_rows df df'
  /\ exists d1 d2 d3 sc,
       fill_missing_values df fm = Ok d1
       /\ add_time_features d1 ts = Ok d2
       /\ normalize_features d2 nm = Ok (d3, sc)
       /\ ((forall cols, clip_columns = Some cols -> ~ In "is_anomaly" cols) ->
           get_col "is_anomaly" df' = Some (BoolS (anomaly_flags d3 t))).
Proof.
  intros Hwf Hts Hsc. unfold transform_pipeline.
  destruct (fill_missing_values df fm) as [d1|] eqn:E1; cbn [bind]; [|discriminate].
  destruct (add_time_features d1 ts) as [d2|] eqn:E2; cbn [bind]; [|discriminate].
  destruct (normalize_features d2 nm) as [[d3 sc]|] eqn:E3; cbn [bind fst]; [|discriminate].
  pose proof (fill_missing_values_rows _ _ _ Hwf E1) as R1.
  pose proof (add_time_features_rows _ _ _ (proj1 R1) E2) as R2.
  pose proof (normalize_features_rows _ _ _ _ (proj1 R2) E3) as R3.
  pose proof (detect_anomalies_rows d3 t (proj1 R3)) as R4.
  assert (same_rows df (detect_anomalies d3 t)) as R.
  { eapply same_rows_trans; [exact R1|]. eapply same_rows_trans; [exact R2|].
    eapply same_rows_trans; [exact R3|]. exact R4. }
  assert (get_col "is_anomaly" (detect_anomalies d3 t)
          = Some (BoolS (anomaly_flags d3 t))) as G.
  { rewrite detect_anomalies_unfold. apply get_set_col_same. }
  revert R G. generalize (detect_anomalies d3 t). intros d4 R G.
  set (clipped := match clip_columns with
                  | Some (c :: cs) => clip_outliers d4 (c :: cs) (of_int 1) (of_int 99)
                  | _ => Ok d4
                  end).
  assert (forall d5, clipped = Ok d5 ->
            same_rows df d5
            /\ ((forall cols, clip_columns = Some cols -> ~ In "is_anomaly" cols) ->
                get_col "is_anomaly" d5 = get_col "is_anomaly" d4)) as Hclip.
  { intros d5. unfold clipped.
    destruct clip_columns as [[|c cs]|].
    - intros [= <-]. auto.
    - intros H. split.
      + eapply same_rows_trans; [exact R|].
        exact (clip_outliers_rows _ _ _ _ _ (proj1 R) H).
      + intros Hno. apply (clip_outliers_keeps _ _ _ _ _ _ H).
        now apply Hno.
    - intros [= <-]. auto. }
  destruct clipped as [d5|]; cbn [bind]; [|discriminate].
  destruct (Hclip d5 eq_refl) as [R5 G5].
  assert ((match scale_columns with
           | Some (c :: cs) => scale_features d5 (c :: cs) nm
           | _ => Ok d5
           end) = Ok d5) as ->.
  { destruct Hsc as [-> | ->]; reflexivity. }
  cbn [bind]. intros H. split.
  - eapply same_rows_trans; [exact R5|].
    exact (create_kpis_rows _ _ (proj1 R5) H).
  - exists d1, d2, d3, sc. repeat split; auto.
    intros Hno. rewrite (create_kpis_other _ _ "is_anomaly" H) by discriminate.
    rewrite G5 by exact Hno. exact G.
Qed.

End PipelineFurther.

Section PipelineWitness.

Import Reference Examples.

Lemma transform_pipeline_no_rows_witness :
  exists e,
    transform_pipeline (fun _ _ _ => Err TypeError) no_rows
      "minmax" "mean" "timestamp" 3%float None None = Err e
    /\ (e = UnsupportedMethod \/ e = MissingColumn "timestamp"
        \/ e = EstimatorNoSamples).
Proof.
  apply transform_pipeline_no_rows; [reflexivity|simpl; intuition discriminate].
Defined.

Lemma transform_pipeline_result_witness :
  exists df',
    transform_pipeline (fun _ _ _ => Err TypeError) with_outlier
      "minmax" "mean" "timestamp" 3%float None None = Ok df'
    /\ same_rows with_outlier df'.
Proof.
  assert (exists d, transform_pipeline (fun _ _ _ => Err TypeError) with_outlier
                      "minmax" "mean" "timestamp" 3%float None None = Ok d)
    as [df' E] by (eexists; vm_compute; reflexivity).
  destruct (transform_pipeline_result (fun _ _ _ => Err TypeError) with_outlier
              "minmax" "mean" "timestamp" 3%float None None df') as [H _].
  - solve_WF.
  - simpl. intuition discriminate.
  - now left.
  - exact E.
  - exists df'. split; [exact E|exact H].
Defined.

(** Ten equal readings, one of them filled in: the gap is filled with the
    very value of the others, min-max scaling maps the column to zeros, and
    no row is flagged. *)
Lemma transform_pipeline_equal_readings :
  exists df',
    transform_pipeline (fun _ _ _ => Err TypeError) tenths_by_minute
      "minmax" "mean" "timestamp" 2%float None None = Ok df'
    /\ get_col "a" df' = Some (FloatS (repeat 0%float 10))
    /\ get_col "is_anomaly" df' = Some (BoolS (repeat false 10)).
Proof. eexists. repeat split; vm_compute; reflexivity. Qed.

End PipelineWitness.

(** ** The loaders and the disk *)

Lemma string_leb_refl (a : string) : String.leb a a = true.
Proof.
  unfold String.leb. induction a as [|x a IH]; simpl; auto.
  unfold Ascii.compare. now rewrite N.compare_refl.
Qed.

Lemma string_leb_trans : forall a b c : string,
  String.leb a b = true -> String.leb b c = true -> String.leb a c = true.
Proof.
  unfold String.leb.
  induction a as [|x a IH]; intros [|y b] [|z c]; simpl; try discriminate; auto.
  unfold Ascii.compare.
  destruct (N.compare_spec (N_of_ascii x) (N_of_ascii y)) as [E1|L1|G1];
    destruct (N.compare_spec (N_of_ascii y) (N_of_ascii z)) as [E2|L2|G2];
    try discriminate; intros H1 H2.
  - rewrite E1, E2, N.compare_refl. now apply IH with (b := b).
  - rewrite E1. now rewrite (proj2 (N.compare_lt_iff _ _) L2).
  - rewrite <- E2. now rewrite (proj2 (N.compare_lt_iff _ _) L1).
  - now rewrite (proj2 (N.compare_lt_iff _ _) (N.lt_trans _ _ _ L1 L2)).
Qed.

Lemma insert_path_In x l y : In y (insert_path x l) <-> y = x \/ In y l.
Proof.
  induction l as [|z r IH]; simpl.
  - intuition.
  - destruct (String.leb x z); simpl; rewrite ?IH; intuition.
Qed.

Lemma sorted_In l y : In y (sorted l) <-> In y l.
Proof.
  induction l as [|x r IH]; simpl; [tauto|].
  rewrite insert_path_In, IH. intuition.
Qed.

Lemma insert_path_ascending x l :
  ascending l = true -> ascending (insert_path x l) = true.
Proof.
  induction l as [|y r IH]; simpl; auto.
  intros H. destruct (String.leb x y) eqn:E.
  - change (String.leb x y && ascending (y :: r) = true). now rewrite E.
  - assert (String.leb y x = true) as Hyx.
    { destruct (String.leb_total x y); congruence. }
    destruct r as [|z r'].
    + simpl. now rewrite Hyx.
    + simpl in H. apply andb_true_iff in H as [Hyz Hr].
      specialize (IH Hr). simpl in *.
      destruct (String.leb x z); simpl in *.
      * now rewrite Hyx.
      * now rewrite Hyz.
Qed.

Lemma sorted_ascending l : ascending (sorted l) = true.
Proof.
  induction l as [|x r IH]; simpl; auto. now apply insert_path_ascending.
Qed.

Lemma ascending_last l d :
  ascending l = true -> forall y, In y l -> String.leb y (last l d) = true.
Proof.
  induction l as [|x r IH]; simpl; [tauto|].
  destruct r as [|z r'].
  - intros _ y [->|[]]. apply string_leb_refl.
  - intros H. apply andb_true_iff in H as [Hxz Hr].
    intros y [->|Hy].
    + apply string_leb_trans with (b := z); auto.
      apply IH; auto. now left.
    + now apply IH.
Qed.

Lemma last_In {A : Type} (l : list A) d : l <> [] -> In (last l d) l.
Proof.
  induction l as [|x r IH]; [congruence|]. intros _.
  destruct r as [|z r']; [now left|].
  right. apply IH. discriminate.
Qed.

Lemma sorted_nil l : sorted l = [] <-> l = [].
Proof.
  split; [|now intros ->].
  destruct l as [|x r]; auto. intros H. exfalso.
  assert (In x (sorted (x :: r))) as Hin by (apply sorted_In; now left).
  rewrite H in Hin. exact Hin.
Qed.

Section LoadersDisk.

Context {F : Type} {FS : FileSystem F}.


Lemma load_csv_Done (p : string) (df : DataFrame F) :
  load_csv p = Done df <-> path_exists p = true /\ read_csv p = Some df.
Proof.
  unfold load_csv. destruct (path_exists p); simpl.
  - destruct (read_csv p); split; intros H; try discriminate.
    + injection H as <-. auto.
    + destruct H as [_ [= <-]]. reflexivity.
    + destruct H. discriminate.
  - split; [discriminate|]. intros [H _]. discriminate.
Qed.

Lemma lookup_update_keeps {A : Type} k k' (v : A) d :
  lookup k' d <> None -> lookup k' (update k v d) <> None.
Proof.
  intros H. destruct (string_dec k k') as [<-|Hne].
  - rewrite lookup_update_same. discriminate.
  - now rewrite lookup_update_other.
Qed.

Lemma load_files_keeps (load : string -> io (DataFrame F)) (ps : list string) :
  forall d0 ds k,
  load_files load ps d0 = Done ds -> lookup k d0 <> None -> lookup k ds <> None.
Proof.
  induction ps as [|p rest IH]; simpl; intros d0 ds k H Hk.
  - now injection H as <-.
  - destruct (load p) as [df|]; [|discriminate].
    apply (IH _ _ k H). now apply lookup_update_keeps.
Qed.

Lemma load_files_covers (load : string -> io (DataFrame F)) (ps : list string) :
  forall d0 ds p,
  load_files load ps d0 = Done ds -> In p ps ->
  lookup (splitext_root (basename p)) ds <> None.
Proof.
  induction ps as [|p0 rest IH]; simpl; intros d0 ds p H Hp; [tauto|].
  destruct (load p0) as [df|]; [|discriminate].
  destruct Hp as [->|Hp].
  - apply (load_files_keeps _ _ _ _ _ H). rewrite lookup_update_same. discriminate.
  - exact (IH _ _ p H Hp).
Qed.

Lemma load_files_provenance (load : string -> io (DataFrame F)) (ps : list string) :
  forall d0 ds k df,
  load_files load ps d0 = Done ds -> lookup k ds = Some df ->
  (exists p, In p ps /\ splitext_root (basename p) = k /\ load p = Done df)
  \/ lookup k d0 = Some df.
Proof.
  induction ps as [|p0 rest IH]; simpl; intros d0 ds k df H Hk.
  - injection H as <-. auto.
  - destruct (load p0) as [df0|] eqn:El; [|discriminate].
    destruct (IH _ _ _ _ H Hk) as [(p & H1 & H2 & H3)|H1].
    + left. exists p. auto.
    + destruct (string_dec (splitext_root (basename p0)) k) as [E|Hne].
      * rewrite E, lookup_update_same in H1. injection H1 as <-.
        left. exists p0. auto.
      * rewrite lookup_update_other in H1 by auto. auto.
Qed.

(** X22: what [load_stage_data] returns.  A stage directory without CSV
    files raises FileNotFoundError, so the dictionary returned is never
    empty; it has a key for every CSV file found (the file's base name
    without its extension), and every table in it was read from an
    existing CSV file of the directory that carries the key's name. *)
Theorem load_stage_data_result (stage_dir : string) :
  (glob (path_join stage_dir "*.csv") = [] ->
   load_stage_data stage_dir = Raise (FileNotFoundError stage_dir))
  /\ forall ds, load_stage_data stage_dir = Done ds ->
       ds <> []
       /\ (forall p, In p (glob (path_join stage_dir "*.csv")) ->
                     lookup (splitext_root (basename p)) ds <> None)
       /\ (forall k df, lookup k ds = Some df ->
             exists p, In p (glob (path_join stage_dir "*.csv"))
                       /\ splitext_root (basename p) = k
                       /\ path_exists p = true /\ read_csv p = Some df).
Proof.
  unfold load_stage_data. split.
  - now intros ->.
  - intros ds. destruct (glob (path_join stage_dir "*.csv")) as [|p0 rest] eqn:Eg;
      [discriminate|].
    cbn [nonempty negb].
    intros H. split; [|split].
    + intros ->.
      apply (load_files_covers _ _ _ _ p0 H); [now left|reflexivity].
    + intros p Hp. exact (load_files_covers _ _ _ _ p H Hp).
    + intros k df Hk.
      destruct (load_files_provenance _ _ _ _ _ _ H Hk)
        as [(p & H1 & H2 & H3)|H1]; [|discriminate].
      apply load_csv_Done in H3 as [H3 H4]. exists p. auto.
Qed.

Lemma update_Forall {A : Type} (P : string * A -> Prop) k v d :
  P (k, v) -> Forall P d -> Forall P (update k v d).
Proof.
  intros Hp. induction 1 as [|[k' v'] r Hx Hr IH]; simpl.
  - repeat constructor; auto.
  - destruct (String.eqb k k'); constructor; auto.
Qed.

Lemma load_stage_dirs_dicts (dirs : list string) :
  forall all_data r,
  Forall (fun kv : string * Loaded F => exists d, snd kv = LDict d) all_data ->
  load_stage_dirs dirs all_data = Done r ->
  Forall (fun kv : string * Loaded F => exists d, snd kv = LDict d) r.
Proof.
  induction dirs as [|dir rest IH]; simpl; intros all_data r Hall H.
  - now injection H as <-.
  - destruct (load_stage_data dir) as [ds|]; [|discriminate].
    apply (IH _ _ (update_Forall _ _ _ _ (ex_intro _ ds eq_refl) Hall) H).
Qed.

Lemma only_frames_dicts (all_data : list (string * Loaded F)) :
  Forall (fun kv : string * Loaded F => exists d, snd kv = LDict d) all_data ->
  only_frames all_data = [].
Proof.
  induction 1 as [|[k v] r [d Hd] Hr IH]; simpl; auto.
  simpl in Hd. now rewrite Hd.
Qed.

Lemma only_frames_frames (l : list (string * DataFrame F)) :
  only_frames (map (fun kv => (fst kv, LFrame (snd kv))) l) = l.
Proof.
  induction l as [|[k df] r IH]; simpl; auto. now rewrite IH.
Qed.

(** X23: [load_all_stages] returns nothing for a run that is organised in
    stage directories.  Each stage directory is loaded into a dictionary of
    tables, and the final filter keeps only the values that are themselves
    tables: whenever the latest run has at least one stage directory and
    the call returns, it returns the empty dictionary.  Only for a run
    without stage directories does it return tables, those of the CSV
    files lying directly in the run folder. *)
Theorem load_all_stages_result (base_dir : string)
    (r : list (string * DataFrame F)) :
  load_all_stages base_dir = Done r ->
  glob (path_join base_dir "*") <> []
  /\ (filter isdir (glob (path_join (latest_run base_dir) "stage*")) <> [] ->
      r = [])
  /\ (filter isdir (glob (path_join (latest_run base_dir) "stage*")) = [] ->
      load_files read_csv_or_raise
                 (glob (path_join (latest_run base_dir) "*.csv")) []
      = Done r).
Proof.
  unfold load_all_stages. fold (latest_run base_dir).
  destruct (nonempty (sorted (glob (path_join base_dir "*")))) eqn:En;
    cbn [negb]; [|discriminate].
  apply nonempty_true in En. rewrite sorted_nil in En.
  destruct (nonempty (filter isdir (glob (path_join (latest_run base_dir) "stage*"))))
    eqn:Es; cbn [negb].
  - apply nonempty_true in Es.
    destruct (load_stage_dirs _ []) as [all_data|] eqn:El; [|discriminate].
    intros [= <-]. split; auto. split; [|contradiction].
    intros _. apply only_frames_dicts.
    apply (load_stage_dirs_dicts _ _ _ (Forall_nil _) El).
  - apply nonempty_false in Es.
    destruct (load_files read_csv_or_raise _ []) as [all_data|] eqn:El;
      [|discriminate].
    intros [= <-]. split; auto. split; [contradiction|].
    intros _. now rewrite only_frames_frames.
Qed.

Lemma load_scenario_dirs_entries (scenario : string) (dirs : list string) :
  forall all_data r stage ds,
  load_scenario_dirs scenario dirs all_data = Done r ->
  lookup stage r = Some ds ->
  (exists d, In d dirs /\ basename d = stage
             /\ glob (path_join d ("*_" ++ scenario ++ ".csv")) <> []
             /\ load_files load_csv
                  (glob (path_join d ("*_" ++ scenario ++ ".csv"))) []
                = Done ds
             /\ ds <> [])
  \/ lookup stage all_data = Some ds.
Proof.
  induction dirs as [|dir rest IH]; intros all_data r stage ds H Hk;
    cbn [load_scenario_dirs] in H.
  - injection H as <-. auto.
  - destruct (nonempty (glob (path_join dir ("*_" ++ scenario ++ ".csv"))))
      eqn:Eg; cbn [negb] in H.
    + destruct (load_files load_csv _ []) as [datasets|] eqn:El; [|discriminate].
      destruct (IH _ _ _ _ H Hk) as [(d & H1 & H2 & H3)|H1].
      * left. exists d. split; [now right|]. auto.
      * destruct (nonempty datasets) eqn:Ed; auto.
        destruct (string_dec (basename dir) stage) as [E|Hne].
        -- rewrite E, lookup_update_same in H1. injection H1 as <-.
           left. exists dir. split; [now left|]. split; auto.
           split; [now apply nonempty_true|]. split; auto.
           now apply nonempty_true.
        -- rewrite lookup_update_other in H1 by auto. auto.
    + destruct (IH _ _ _ _ H Hk) as [(d & H1 & H2 & H3)|H1]; auto.
      left. exists d. split; [now right|]. auto.
Qed.

(** X24: what [load_scenario] returns.  Every stage of the result is the
    base name of a stage directory of the latest run that has at least one
    file for the scenario, and its dictionary, loaded from these files, is
    not empty; a stage directory without a file for the scenario is left
    out without an error. *)
Theorem load_scenario_result (base_dir scenario : string)
    (r : list (string * list (string * DataFrame F)))
    (stage : string) (ds : list (string * DataFrame F)) :
  load_scenario base_dir scenario = Done r ->
  lookup stage r = Some ds ->
  ds <> []
  /\ exists d,
       In d (glob (path_join (latest_run base_dir) "stage*"))
       /\ isdir d = true /\ basename d = stage
       /\ glob (path_join d ("*_" ++ scenario ++ ".csv")) <> []
       /\ load_files load_csv
            (glob (path_join d ("*_" ++ scenario ++ ".csv"))) []
          = Done ds.
Proof.
  unfold load_scenario. fold (latest_run base_dir).
  destruct (nonempty (sorted (glob (path_join base_dir "*")))); cbn [negb];
    [|discriminate].
  intros H Hk.
  destruct (load_scenario_dirs_entries _ _ _ _ _ _ H Hk)
    as [(d & H1 & H2 & H3 & H4 & H5)|H1]; [|discriminate].
  apply filter_In in H1 as [H0 H1].
  split; auto. exists d. auto.
Qed.

End LoadersDisk.

Section DiskWitness.

Import Reference Examples Disk.


Lemma load_all_stages_result_witness :
  exists r, load_all_stages "raw" = Done r /\ r = [].
Proof.
  assert (exists r, load_all_stages "raw" = Done r) as [r E]
    by (eexists; vm_compute; reflexivity).
  destruct (load_all_stages_result "raw" r E) as (_ & H & _).
  exists r. split; [exact E|]. apply H. vm_compute. discriminate.
Defined.

Lemma load_scenario_result_witness :
  exists r ds,
    load_scenario "raw" "normal" = Done r
    /\ lookup "stage1_raw_materials" r = Some ds
    /\ ds <> [].
Proof.
  assert (exists r, load_scenario "raw" "normal" = Done r) as [r E]
    by (eexists; vm_compute; reflexivity).
  assert (exists ds, lookup "stage1_raw_materials" r = Some ds) as [ds Hds].
  { revert E. vm_compute. intros [= <-]. eexists. reflexivity. }
  destruct (load_scenario_result "raw" "normal" r "stage1_raw_materials" ds E Hds)
    as [H _].
  exists r, ds. auto.
Defined.

End DiskWitness.

(** ** add_time_features on a column named like a feature *)

Section FeatureNamedTimestamp.

Context {F : Type} {NF : Number F} {SUM : Summation F} {LIB : Library F}.

Implicit Types (df : DataFrame F) (s : Series F) (c : string).

(** X25: why the timestamp column must not be named after a feature.  When
    [timestamp_col] is [hour], [day] or [weekday] and the table has that
    column, [add_time_features] overwrites the datetimes with the feature
    and the next [.dt] access raises AttributeError.  When it is [month]
    the call succeeds, and the column comes back holding the month numbers
    instead of the datetimes. *)
Theorem add_time_features_feature_as_timestamp df (ts : string) (s : Series F) :
  get_col ts df = Some s ->
  (In ts ["hour"; "day"; "weekday"] ->
   add_time_features df ts = Err AttributeError)
  /\ (ts = "month" ->
      exists df',
        add_time_features df ts = Ok df'
        /\ get_col "month" df'
           = Some (dt_field Datetime.month (to_datetime_coerce s))).
Proof.
  intros Hs.
  assert (has_col ts df = true) as Hc by (apply has_col_true; eauto).
  split.
  - intros Hin. now apply (add_time_features_overwritten df ts s).
  - intros ->. unfold add_time_features. rewrite Hc. cbn [negb].
    unfold getitem at 1. rewrite Hs. cbn [bind].
    rewrite dt_set_col_same. cbn [bind].
    rewrite dt_set_col_other, dt_set_col_same by discriminate. cbn [bind].
    rewrite !dt_set_col_other, dt_set_col_same by discriminate. cbn [bind].
    rewrite !dt_set_col_other, dt_set_col_same by discriminate. cbn [bind].
    eexists. split; [reflexivity|]. apply get_set_col_same.
Qed.

End FeatureNamedTimestamp.

(** ** get_preprocessed_scenario *)

Section ScenarioFurther.

Context {F : Type} {NF : Number F} {SUM : Summation F} {LIB : Library F} {FS : FileSystem F}.

(** On a table the two definitions of preprocessing agree. *)
Lemma preprocess_single_of_frame (SCHEMAS : list (string * Schema))
    (df : DataFrame F) (stage m : string) :
  preprocess_single_of_value SCHEMAS (LFrame df) stage m
  = preprocess_single SCHEMAS df stage m.
Proof.
  unfold preprocess_single_of_value, validate_schema_of_value,
    preprocess_single, preprocess_transforms.
  destruct (lookup stage SCHEMAS) eqn:E; auto.
  unfold pipelines_validate_schema. now rewrite E.
Qed.

Lemma preprocess_single_of_dict (SCHEMAS : list (string * Schema))
    (d : list (string * DataFrame F)) (stage m : string) :
  preprocess_single_of_value SCHEMAS (LDict d) stage m
  = Err (match lookup stage SCHEMAS with
         | None => SchemaNotFound stage
         | Some _ => TypeError
         end).
Proof.
  unfold preprocess_single_of_value, validate_schema_of_value.
  now destruct (lookup stage SCHEMAS).
Qed.

(** X26: [get_preprocessed_scenario] raises TypeError on every input.  It
    calls [load_scenario] with the keyword [data_dir], and the parameters
    of the loader are [base_dir] and [scenario]: the call fails before the
    body of the loader runs, and the [except] clause raises the error
    again.  Nothing is loaded and nothing is preprocessed.  The loop after
    the call would not return a table either: what [load_scenario] gives
    for a stage is a dictionary of tables, and [preprocess_single], handed
    that dictionary, raises the unknown-stage ValueError, or the TypeError
    for an input that is not a DataFrame, on the first stage. *)
Theorem get_preprocessed_scenario_result
    (SCHEMAS : list (string * Schema))
    (DEFAULT_BASE_DIR data_dir scenario m : string) :
  get_preprocessed_scenario SCHEMAS DEFAULT_BASE_DIR data_dir scenario m
  = Raises (PipelineExc TypeError)
  /\ (forall (stage : string) (d : list (string * DataFrame F))
             (rest : list (string * list (string * DataFrame F))),
        preprocess_each SCHEMAS
          (map (fun kv => (fst kv, LDict (snd kv))) ((stage, d) :: rest)) m []
        = Err (match lookup stage SCHEMAS with
               | None => SchemaNotFound stage
               | Some _ => TypeError
               end)).
Proof.
  split; [reflexivity|].
  intros stage d rest. cbn [map preprocess_each fst snd].
  now rewrite preprocess_single_of_dict.
Qed.

End ScenarioFurther.

Section ScenarioWitness.

Import Reference Examples Disk.

Lemma add_time_features_feature_as_timestamp_witness :
  add_time_features no_rows "hour" = Err AttributeError.
Proof.
  apply (proj1 (add_time_features_feature_as_timestamp no_rows "hour" (IntS [])
                  eq_refl)).
  simpl. auto.
Defined.

End ScenarioWitness.

(** ** transform_pipeline: the nulls that filling does not reach *)

Section PipelineNulls.

Context {SUM : Summation float} {LIB : Library float}.

Variable scale_features :
  DataFrame float -> list string -> string -> result (DataFrame float).

Lemma dt_field_null (f : Z -> Z) (l : list (option Z)) (i : nat) :
  nth_error l i = Some None ->
  exists l', dt_field f l = FloatS l' /\ nth_error l' i = Some PrimFloat.nan.
Proof.
  intros Hi. unfold dt_field.
  destruct (forallb is_some l) eqn:Hall.
  - assert (i < List.length l)%nat as Hlt by (apply nth_error_Some; congruence).
    destruct (forallb_is_some_nth l i Hall Hlt) as [ns Hns]. congruence.
  - eexists. split; [reflexivity|]. now rewrite nth_error_map, Hi.
Qed.

Lemma fill_missing_values_non_numeric (df d1 : DataFrame float) m c s :
  fill_missing_values df m = Ok d1 -> get_col c df = Some s ->
  is_numeric s = false -> get_col c d1 = Some s.
Proof.
  intros H Hs Hn.
  assert (forall stat, get_col c (map_columns (fill_column stat) df) = Some s)
    as Hstat.
  { intros stat. rewrite get_col_map_columns, Hs. simpl.
    destruct s; simpl in *; auto; discriminate. }
  revert H. unfold fill_missing_values.
  destruct (List.length (numeric_cols df) =? 0)%nat; [now intros [= <-]|].
  destruct (String.eqb m "mean"); [now intros [= <-]|].
  destruct (String.eqb m "median"); [now intros [= <-]|].
  destruct (String.eqb m "zero"); [now intros [= <-]|discriminate].
Qed.

(** A float64 column that is null at row [i] is still so after clipping. *)
Lemma clip_column_null_at (d d' : DataFrame float) col (lp up : float) c i :
  clip_column d col lp up = Ok d' ->
  (exists l, get_col c d = Some (FloatS l)
             /\ nth_error l i = Some PrimFloat.nan) ->
  exists l, get_col c d' = Some (FloatS l)
            /\ nth_error l i = Some PrimFloat.nan.
Proof.
  intros H (l & Hl & Hi). destruct (string_dec c col) as [->|Hne].
  - assert (has_col col d = true) as Hc by (apply has_col_true; eauto).
    destruct (clip_column_present _ _ _ _ _ Hc H)
      as (s & l0 & lo & hi & Hs & Hl0 & _ & _ & ->).
    rewrite Hl in Hs. injection Hs as <-. simpl in Hl0. injection Hl0 as <-.
    exists (map (clip lo hi) l). split; [apply get_set_col_same|].
    rewrite nth_error_map, Hi. simpl. now rewrite clip_nan.
  - destruct (clip_column_frame _ _ _ _ _ H) as [_ G].
    exists l. rewrite G by auto. auto.
Qed.

Lemma clip_outliers_null_at (cols : list string) :
  forall (d d' : DataFrame float) (lp up : float) c i,
  clip_outliers d cols lp up = Ok d' ->
  (exists l, get_col c d = Some (FloatS l)
             /\ nth_error l i = Some PrimFloat.nan) ->
  exists l, get_col c d' = Some (FloatS l)
            /\ nth_error l i = Some PrimFloat.nan.
Proof.
  induction cols as [|col rest IH]; simpl; intros d d' lp up c i H Hn.
  - now injection H as <-.
  - destruct (clip_column d col lp up) as [d1|] eqn:E1; simpl in H;
      [|discriminate].
    apply (IH _ _ _ _ _ _ H). exact (clip_column_null_at _ _ _ _ _ _ _ E1 Hn).
Qed.

(** X27: the nulls that filling does not reach.  [transform_pipeline] fills
    missing values before it derives the time features, so a timestamp that
    does not convert (a null, or a string that is no date) leaves a NaN in
    [hour], [day], [weekday] and [month] at its row, and that NaN is still
    there in the table the pipeline returns: scaling keeps nulls, and so do
    clipping and the KPI step.  Stated for a timestamp column of strings
    and a run without rescaled columns. *)
Theorem transform_pipeline_keeps_unparsed_rows
    (df df' : DataFrame float) (nm fm ts : string) (t : float)
    (clip_columns scale_columns : option (list string))
    (l : list (option string)) (i : nat) :
  ~ In ts time_features ->
  scale_columns = None \/ scale_columns = Some [] ->
  get_col ts df = Some (ObjS l) ->
  nth_error (to_datetime_coerce (ObjS l)) i = Some None ->
  transform_pipeline scale_features df nm fm ts t clip_columns scale_columns
  = Ok df' ->
  forall c, In c time_features ->
    exists col, get_col c df' = Some (FloatS col)
                /\ nth_error col i = Some PrimFloat.nan.
Proof.
  intros Hts Hsc Hs Hi. unfold transform_pipeline.
  destruct (fill_missing_values df fm) as [d1|] eqn:E1; cbn [bind];
    [|discriminate].
  pose proof (fill_missing_values_non_numeric _ _ _ _ _ E1 Hs eq_refl) as Hs1.
  rewrite (add_time_features_present d1 ts _ Hs1 Hts). cbn [bind].
  set (l2 := to_datetime_coerce (ObjS l)) in *.
  destruct (normalize_features (with_time_features d1 ts l2) nm) as [[d3 sc]|]
    eqn:E3; cbn [bind fst]; [|discriminate].
  intros H c Hc.
  assert (exists l0, get_col c (with_time_features d1 ts l2) = Some (FloatS l0)
                     /\ nth_error l0 i = Some PrimFloat.nan) as N2.
  { unfold time_features in Hc. simpl in Hc. unfold with_time_features.
    destruct Hc as [<-|[<-|[<-|[<-|[]]]]];
      rewrite ?get_set_col_other by discriminate;
      rewrite get_set_col_same;
      [destruct (dt_field_null Datetime.hour l2 i Hi) as (l' & -> & Hl')
      |destruct (dt_field_null Datetime.day l2 i Hi) as (l' & -> & Hl')
      |destruct (dt_field_null Datetime.weekday l2 i Hi) as (l' & -> & Hl')
      |destruct (dt_field_null Datetime.month l2 i Hi) as (l' & -> & Hl')];
      eauto. }
  assert (exists l0, get_col c d3 = Some (FloatS l0)
                     /\ nth_error l0 i = Some PrimFloat.nan) as N3.
  { destruct N2 as (l' & Hl' & Hn').
    apply normalize_features_Ok in E3 as (est & _ & -> & _ & _).
    exists (transform est (fit est l') l'). split.
    - rewrite get_col_map_columns, Hl'. reflexivity.
    - now apply transform_nan with (x := PrimFloat.nan). }
  assert (c <> "is_anomaly") as Hia.
  { unfold time_features in Hc. simpl in Hc. intros ->.
    intuition discriminate. }
  assert (c <> "specific_power_consumption") as Hspc.
  { unfold time_features in Hc. simpl in Hc. intros ->.
    intuition discriminate. }
  assert (exists l0, get_col c (detect_anomalies d3 t) = Some (FloatS l0)
                     /\ nth_error l0 i = Some PrimFloat.nan) as N4.
  { destruct N3 as (l' & Hl' & Hn'). exists l'. split; auto.
    rewrite detect_anomalies_unfold, get_set_col_other; auto. }
  revert H N4. generalize (detect_anomalies d3 t). intros d4 H N4.
  set (clipped := match clip_columns with
                  | Some (c0 :: cs) =>
                      clip_outliers d4 (c0 :: cs) (of_int 1) (of_int 99)
                  | _ => Ok d4
                  end) in *.
  assert (forall d5, clipped = Ok d5 ->
            exists l0, get_col c d5 = Some (FloatS l0)
                       /\ nth_error l0 i = Some PrimFloat.nan) as Hclip.
  { intros d5. unfold clipped. destruct clip_columns as [[|c0 cs]|].
    - now intros [= <-].
    - intros E. exact (clip_outliers_null_at _ _ _ _ _ _ _ E N4).
    - now intros [= <-]. }
  destruct clipped as [d5|]; cbn [bind] in H; [|discriminate].
  specialize (Hclip d5 eq_refl).
  assert ((match scale_columns with
           | Some (c0 :: cs) => scale_features d5 (c0 :: cs) nm
           | _ => Ok d5
           end) = Ok d5) as Hscale.
  { destruct Hsc as [-> | ->]; reflexivity. }
  rewrite Hscale in H. cbn [bind] in H.
  destruct Hclip as (l' & Hl' & Hn'). exists l'. split; auto.
  now rewrite (create_kpis_other _ _ c H Hspc).
Qed.

End PipelineNulls.

Section PipelineNullsWitness.

Import Reference Examples.

Lemma transform_pipeline_keeps_unparsed_rows_witness :
  exists df',
    transform_pipeline (fun _ _ _ => Err TypeError) mixed_timestamps
      "minmax" "zero" "timestamp" 3%float None None = Ok df'
    /\ forall c, In c time_features ->
         exists col, get_col c df' = Some (FloatS col)
                     /\ nth_error col 1 = Some PrimFloat.nan.
Proof.
  assert (exists d, transform_pipeline (fun _ _ _ => Err TypeError)
                      mixed_timestamps "minmax" "zero" "timestamp" 3%float
                      None None = Ok d)
    as [df' E] by (eexists; vm_compute; reflexivity).
  exists df'. split; [exact E|].
  apply (transform_pipeline_keeps_unparsed_rows (fun _ _ _ => Err TypeError)
           mixed_timestamps df' "minmax" "zero" "timestamp" 3%float None None
           [Some "2025-09-17T23:10:01"; Some "yesterday"; None] 1).
  - simpl. intuition discriminate.
  - now left.
  - reflexivity.
  - vm_compute. reflexivity.
  - exact E.
Defined.

End PipelineNullsWitness.
